(** * starship: the job-distribution server (src/starship/servers/server.py)

    A shallow embedding of the Flask server that hands videos to workers,
    records their reports, reclaims timed-out downloads and answers status
    queries, together with the properties of it that the design document
    states.

    Conventions of the embedding.
    - Python [int]s are [Z]; [time.time()] is a clock reading in [Z], and one
      reading is used per handler invocation (a handler runs to completion
      without waiting, so the readings it takes are identified).
    - [metadata] is a Python dict used in iteration order
      ([next(k for k, v in metadata.items() ...)]): it is an association list
      in insertion order.  [workers_seen], the payloads of [video_data] and the
      JSON objects of the replies are only ever looked up by key: they are
      [gmap]s.
    - A handler returns the state it leaves behind together with either the
      JSON object it passed to [flask.jsonify] or the exception that escaped
      it (which Flask answers with an HTTP error page, not a JSON object). *)

From Stdlib Require Import ZArith Bool List Lia.
From stdpp Require Import base option list gmap strings.

Local Open Scope string_scope.
Local Open Scope Z_scope.

(** ** JSON values *)

#[local] Set Warnings "-register-all".

Inductive json :=
  | JNull
  | JBool (b : bool)
  | JInt (z : Z)
  | JStr (s : string)
  | JList (l : list json)
  | JDict (d : list (string * json)).

(** ** Data model *)

(** The values the ["status"] entry of a metadata record takes in the source. *)
Inductive job_status := waiting | downloading | finished | skipped | failed.

Definition status_str (s : job_status) : string :=
  match s with
  | waiting => "waiting"
  | downloading => "downloading"
  | finished => "finished"
  | skipped => "skipped"
  | failed => "failed"
  end.

Definition status_eqb (a b : job_status) : bool :=
  match a, b with
  | waiting, waiting | downloading, downloading | finished, finished
  | skipped, skipped | failed, failed => true
  | _, _ => false
  end.

(** One value of the [metadata] dict (server.py, main, lines 144-154). *)
Record video_meta := VideoMeta {
  status : job_status;
  error : option string;
  retries : Z;
  start_time : option Z;
  end_time : option Z;
  worker_id : option string;
}.

(** Item assignments [metadata[k]["field"] = x]. *)
Definition set_status (s : job_status) (d : video_meta) : video_meta :=
  VideoMeta s (error d) (retries d) (start_time d) (end_time d) (worker_id d).
Definition set_error (e : option string) (d : video_meta) : video_meta :=
  VideoMeta (status d) e (retries d) (start_time d) (end_time d) (worker_id d).
Definition set_retries (n : Z) (d : video_meta) : video_meta :=
  VideoMeta (status d) (error d) n (start_time d) (end_time d) (worker_id d).
Definition set_start_time (t : option Z) (d : video_meta) : video_meta :=
  VideoMeta (status d) (error d) (retries d) t (end_time d) (worker_id d).
Definition set_end_time (t : option Z) (d : video_meta) : video_meta :=
  VideoMeta (status d) (error d) (retries d) (start_time d) t (worker_id d).

(** One value of the [workers_seen] dict (next_video, lines 33-38). *)
Record worker := Worker {
  last_seen : Z;
  worker_status : string;
  notified_finished : bool;
  message : string;
}.

(** The flags the server reads. *)
Record flags := Flags {
  FLAGS_timeout : Z;
  FLAGS_retries : Z;
}.

(** What the route closures capture and never change. *)
Record server := Server {
  FLAGS : flags;
  video_data : list (Z * gmap string json);
  videos : list Z;
}.

(** What the route closures and the scheduler job mutate. *)
Record state := State {
  metadata : list (Z * video_meta);
  workers_seen : gmap string worker;
}.

Inductive exn :=
  | KeyError
  | TypeError
  | StopIteration
  | BadRequestKeyError
  | BadRequest.   (* raised by [request.get_json()]: HTTP 400, or 415 *)

Inductive outcome :=
  | Returned (obj : gmap string json)
  | Raised (e : exn).

(** ** Dict access on association lists *)

Section AssocList.
Context {V : Type}.

(** [d[k]], [None] standing for [KeyError]. *)
Fixpoint dict_get (k : Z) (d : list (Z * V)) : option V :=
  match d with
  | [] => None
  | (k', v) :: r => if k =? k' then Some v else dict_get k r
  end.

(** In-place update of the value at [k]; the key keeps its position. *)
Fixpoint dict_alter (f : V -> V) (k : Z) (d : list (Z * V)) : list (Z * V) :=
  match d with
  | [] => []
  | (k', v) :: r =>
      if k =? k' then (k', f v) :: r else (k', v) :: dict_alter f k r
  end.

Definition keys (d : list (Z * V)) : list Z := map fst d.
Definition values (d : list (Z * V)) : list V := map snd d.
End AssocList.

(** ** The scheduler job: _check_and_retry_downloads (lines 18-23) *)

Definition timed_out (d : video_meta) : video_meta :=
  set_error (Some "Timeout waiting on worker")
    (set_retries (retries d + 1) (set_status waiting d)).

(** The loop over [metadata.items()].  [time.time() - data["start_time"]] is
    evaluated only for a record that is downloading; on [None] it raises
    [TypeError], which ends the loop with the records before it already
    changed. *)
Fixpoint _check_and_retry_downloads (timeout now : Z)
    (md : list (Z * video_meta)) : list (Z * video_meta) * option exn :=
  match md with
  | [] => ([], None)
  | (video_id, data) :: rest =>
      if status_eqb (status data) downloading then
        match start_time data with
        | None => ((video_id, data) :: rest, Some TypeError)
        | Some t0 =>
            let data' := if now - t0 >? timeout then timed_out data else data in
            let '(rest', e) := _check_and_retry_downloads timeout now rest in
            ((video_id, data') :: rest', e)
        end
      else
        let '(rest', e) := _check_and_retry_downloads timeout now rest in
        ((video_id, data) :: rest', e)
  end.

(** ** The /next_video route (lines 28-108) *)

(** Query arguments of a GET; [request.args[...]] raises on a missing one. *)
Record get_args := GetArgs {
  arg_worker_id : option string;
  arg_worker_status : option string;
  arg_worker_message : option string;
}.

(** JSON body of a POST, with the fields the handler reads, typed as the
    workers send them (workers/worker.py): an integer id and strings. *)
Record report := Report {
  rep_video_id : option Z;
  rep_status : option string;
  rep_worker_id : option string;
  rep_worker_status : option string;
  rep_worker_message : option string;
}.

(** A POST whose body [request.get_json()] (line 71) does not turn into a
    JSON object or [None]. *)
Inductive other_body :=
  | NotJson                 (* no JSON to read: [get_json] raises *)
  | JsonScalar              (* a number or a boolean *)
  | JsonString (s : string)
  | JsonArray (l : list json).

(** The requests of the /next_video route.  [POST None] is a body that is
    the JSON value null, for which [get_json] returns [None]; [POST (Some r)]
    is a body that is a JSON object.  A request without a JSON body (an
    empty or ill-formed body, or a content type other than JSON) is
    [POST_other NotJson]. *)
Inductive request :=
  | GET (args : get_args)
  | POST (data : option report)
  | POST_other (body : other_body).

(** [needle in hay], for strings. *)
Fixpoint contains (needle hay : string) : bool :=
  String.prefix needle hay ||
  match hay with
  | EmptyString => false
  | String _ hay' => contains needle hay'
  end.

(** [key in data] for a body that is a string (a substring test) or a list
    (a test for an equal element). *)
Definition is_str (key : string) (v : json) : bool :=
  match v with
  | JStr s => String.eqb s key
  | _ => false
  end.

Definition key_in (key : string) (body : other_body) : bool :=
  match body with
  | JsonString s => contains key s
  | JsonArray l => existsb (is_str key) l
  | NotJson | JsonScalar => false
  end.

(** [metadata[video_id]["worker_id"] == worker_id] *)
Definition held_by (wid : string) (d : video_meta) : bool :=
  match worker_id d with
  | Some w => String.eqb w wid
  | None => false
  end.

Definition redirected (wmsg : string) (d : video_meta) : video_meta :=
  set_retries (retries d + 1) (set_error (Some wmsg) (set_status waiting d)).

(** Lines 42-46: the loop over [videos] run when a worker is not ok. *)
Fixpoint redirect_downloads (vs : list Z) (wid wmsg : string)
    (md : list (Z * video_meta)) : list (Z * video_meta) * option exn :=
  match vs with
  | [] => (md, None)
  | video_id :: vs' =>
      match dict_get video_id md with
      | None => (md, Some KeyError)
      | Some d =>
          if status_eqb (status d) downloading && held_by wid d
          then redirect_downloads vs' wid wmsg
                 (dict_alter (redirected wmsg) video_id md)
          else redirect_downloads vs' wid wmsg md
      end
  end.

Definition is_waiting (d : video_meta) : bool := status_eqb (status d) waiting.
Definition is_downloading (d : video_meta) : bool :=
  status_eqb (status d) downloading.

(** [next(k for k, v in metadata.items() if v["status"] == "waiting")] *)
Fixpoint next_waiting (md : list (Z * video_meta)) : option Z :=
  match md with
  | [] => None
  | (k, v) :: r => if is_waiting v then Some k else next_waiting r
  end.

(** Lines 58-61. *)
Definition assigned (now : Z) (d : video_meta) : video_meta :=
  set_end_time None
    (set_start_time (Some now) (set_error None (set_status downloading d))).

(** [{"_id": next_video_id, **video_data[next_video_id]}]: the entries of the
    payload are written after ["_id"], so a payload key wins over it. *)
Definition output_data (next_video_id : Z) (payload : gmap string json)
    : gmap string json :=
  payload ∪ {[ "_id" := JInt next_video_id ]}.

Definition next_video_get (srv : server) (a : get_args) (now : Z) (st : state)
    : state * outcome :=
  match arg_worker_id a, arg_worker_status a, arg_worker_message a with
  | Some wid, Some wstatus, Some wmsg =>
      let ws := <[ wid := Worker now wstatus false wmsg ]> (workers_seen st) in
      if negb (String.eqb wstatus "ok") then
        match redirect_downloads (videos srv) wid wmsg (metadata st) with
        | (md, None) => (State md ws, Returned {[ "finished" := JBool true ]})
        | (md, Some e) => (State md ws, Raised e)
        end
      else if negb (existsb is_waiting (values (metadata st))) then
        if existsb is_downloading (values (metadata st))
        then (State (metadata st) ws,
              Returned {[ "pending_finish" := JBool true ]})
        else (State (metadata st) ws, Returned {[ "finished" := JBool true ]})
      else
        match next_waiting (metadata st) with
        | None => (State (metadata st) ws, Raised StopIteration)
        | Some next_video_id =>
            let md := dict_alter (assigned now) next_video_id (metadata st) in
            match dict_get next_video_id (video_data srv) with
            | None => (State md ws, Raised KeyError)
            | Some payload =>
                (State md ws, Returned (output_data next_video_id payload))
            end
        end
  | _, _, _ => (st, Raised BadRequestKeyError)
  end.

(** Lines 85-87. *)
Definition downloaded (ok : bool) (now : Z) (d : video_meta) : video_meta :=
  set_error None
    (set_end_time (Some now) (set_status (if ok then finished else skipped) d)).

(** Lines 90-96; [data.get("status", ...)] is the reported status, which is
    present at this point. *)
Definition download_failed (max_retries : Z) (rstatus : string) (now : Z)
    (d : video_meta) : video_meta :=
  let d1 := set_error (Some rstatus) (set_end_time (Some now) d) in
  if retries d1 <? max_retries
  then set_retries (retries d1 + 1) (set_status waiting d1)
  else set_status failed d1.

(** Lines 83-96: [if data["status"] in ("ok", "skipped"): ... else: ...]. *)
Definition record_report (max_retries : Z) (rstatus : string) (now : Z)
    (d : video_meta) : video_meta :=
  if String.eqb rstatus "ok" || String.eqb rstatus "skipped"
  then downloaded (String.eqb rstatus "ok") now d
  else download_failed max_retries rstatus now d.

(** Lines 99-104. *)
Definition update_worker (r : report) (wid : string) (now : Z)
    (ws : gmap string worker) : gmap string worker :=
  match ws !! wid with
  | None => ws
  | Some w =>
      <[ wid := Worker now
                  (default (worker_status w) (rep_worker_status r))
                  (notified_finished w)
                  (default (message w) (rep_worker_message r)) ]> ws
  end.

Definition error_reply (reason : string) : outcome :=
  Returned {[ "error" := JStr reason ]}.

Definition next_video_post (srv : server) (data : option report) (now : Z)
    (st : state) : state * outcome :=
  match data with
  | None => (st, error_reply "No data provided")
  | Some r =>
      match rep_video_id r with
      | None => (st, error_reply "No video_id provided")
      | Some video_id =>
          match rep_status r with
          | None => (st, error_reply "No status provided")
          | Some rstatus =>
              match rep_worker_id r with
              | None => (st, error_reply "No worker_id provided")
              | Some wid =>
                  match dict_get video_id (metadata st) with
                  | None => (st, Raised KeyError)
                  | Some _ =>
                      (State (dict_alter
                                (record_report (FLAGS_retries (FLAGS srv))
                                   rstatus now)
                                video_id (metadata st))
                             (update_worker r wid now (workers_seen st)),
                       Returned {[ "status" := JStr "ok" ]})
                  end
              end
          end
      end
  end.

(** The POST branch on a body that is no JSON object: [get_json] raises
    (line 71); [in] raises on a number or a boolean (line 74); a string or a
    list goes through the tests of lines 74-79 and, when it passes them,
    raises at [data["video_id"]] (line 81).  Nothing is written. *)
Definition next_video_post_other (body : other_body) (st : state)
    : state * outcome :=
  match body with
  | NotJson => (st, Raised BadRequest)
  | JsonScalar => (st, Raised TypeError)
  | JsonString _ | JsonArray _ =>
      if negb (key_in "video_id" body) then
        (st, error_reply "No video_id provided")
      else if negb (key_in "status" body) then
        (st, error_reply "No status provided")
      else if negb (key_in "worker_id" body) then
        (st, error_reply "No worker_id provided")
      else (st, Raised TypeError)
  end.

Definition next_video (srv : server) (req : request) (now : Z) (st : state)
    : state * outcome :=
  match req with
  | GET a => next_video_get srv a now st
  | POST data => next_video_post srv data now st
  | POST_other body => next_video_post_other body st
  end.

(** ** The /status route (lines 113-125)

    The route function is [status] in the source; here that name is the
    field of [video_meta], and the route is [get_status]. *)

Record status_report := StatusReport {
  r_total : Z;
  r_finished : Z;
  r_failed : Z;
  r_waiting : Z;
  r_downloading : Z;
  r_skipped : Z;
  r_retrying : Z;
  r_workers : gmap string worker;
  r_done : bool;
}.

(** [len([1 for v in metadata.values() if p(v)])] *)
Definition count (p : video_meta -> bool) (md : list (Z * video_meta)) : Z :=
  Z.of_nat (length (List.filter p (values md))).

Definition in_statuses (l : list job_status) (d : video_meta) : bool :=
  existsb (status_eqb (status d)) l.

Definition get_status (srv : server) (st : state) : status_report :=
  let md := metadata st in
  {| r_total := Z.of_nat (length (videos srv));
     r_finished := count (in_statuses [finished; skipped; failed]) md;
     r_failed := count (in_statuses [failed]) md;
     r_waiting := count is_waiting md;
     r_downloading := count is_downloading md;
     r_skipped := count (in_statuses [skipped]) md;
     r_retrying := count (fun v => is_waiting v && (retries v >? 0)) md;
     r_workers := workers_seen st;
     r_done :=
       forallb (fun v => negb (in_statuses [waiting; downloading] v))
         (values md) |}.

(** ** main (lines 130-170) *)

(** [dict(enumerate(inputs))] *)
Fixpoint enumerate_from {A} (start : Z) (l : list A) : list (Z * A) :=
  match l with
  | [] => []
  | x :: r => (start, x) :: enumerate_from (start + 1) r
  end.

Definition enumerate {A} (l : list A) : list (Z * A) := enumerate_from 0 l.

Definition fresh_meta : video_meta :=
  VideoMeta waiting None 0 None None None.

(** [videos] is the set of the keys [0 .. N-1]; CPython iterates such a set
    in increasing order, which is therefore the order of [metadata]. *)
Definition main (fl : flags) (inputs : list (gmap string json))
    : server * state :=
  let video_data := enumerate inputs in
  let videos := keys video_data in
  (Server fl video_data videos,
   State (map (fun k => (k, fresh_meta)) videos) ∅).

(** ** Runs of the server *)

Inductive event :=
  | Request (req : request)
  | Sweep.

Definition step (srv : server) (ev : event) (now : Z) (st : state) : state :=
  match ev with
  | Request req => fst (next_video srv req now st)
  | Sweep =>
      State (fst (_check_and_retry_downloads (FLAGS_timeout (FLAGS srv)) now
                    (metadata st)))
            (workers_seen st)
  end.

(** The states the server passes through from start-up. *)
Inductive reachable (fl : flags) (inputs : list (gmap string json))
    : state -> Prop :=
  | reachable_main : reachable fl inputs (snd (main fl inputs))
  | reachable_step ev now st :
      reachable fl inputs st ->
      reachable fl inputs (step (fst (main fl inputs)) ev now st).

(** Running a list of timed events. *)
Definition run (srv : server) (evs : list (event * Z)) (st : state) : state :=
  fold_left (fun s '(ev, now) => step srv ev now s) evs st.

(** ** Vocabulary of the properties *)

(** The ways one event can change the record of video [k]. *)
Inductive job_move (srv : server) (now : Z) (k : Z) (d : video_meta)
    : event -> video_meta -> Prop :=
  | move_stay ev : job_move srv now k d ev d
  | move_assign wid wmsg :
      status d = waiting ->
      job_move srv now k d
        (Request (GET (GetArgs (Some wid) (Some "ok") (Some wmsg))))
        (assigned now d)
  | move_redirect wid wstatus wmsg :
      wstatus <> "ok" -> status d = downloading -> worker_id d = Some wid ->
      job_move srv now k d
        (Request (GET (GetArgs (Some wid) (Some wstatus) (Some wmsg))))
        (redirected wmsg d)
  | move_timeout t0 :
      status d = downloading -> start_time d = Some t0 ->
      now - t0 > FLAGS_timeout (FLAGS srv) ->
      job_move srv now k d Sweep (timed_out d)
  | move_report r rstatus wid :
      rep_video_id r = Some k -> rep_status r = Some rstatus ->
      rep_worker_id r = Some wid ->
      job_move srv now k d (Request (POST (Some r)))
        (record_report (FLAGS_retries (FLAGS srv)) rstatus now d).

(** The event is a report that names video [k]. *)
Definition names (ev : event) (k : Z) : Prop :=
  exists r, ev = Request (POST (Some r)) /\ rep_video_id r = Some k.

Definition terminal (s : job_status) : Prop :=
  s = finished \/ s = skipped \/ s = failed.

(** The three dicts of a running server have the same keys. *)
Definition consistent (srv : server) (st : state) : Prop :=
  NoDup (videos srv) /\
  keys (video_data srv) = videos srv /\
  keys (metadata st) = videos srv.

(** What the job does to one record when it gets to it. *)
Definition swept (timeout now : Z) (d : video_meta) : video_meta :=
  match start_time d with
  | Some t0 =>
      if is_downloading d && (now - t0 >? timeout) then timed_out d else d
  | None => d
  end.

(** Every downloading record carries the time it was handed out. *)
Definition timestamped (md : list (Z * video_meta)) : Prop :=
  Forall (fun d => status d = downloading -> start_time d <> None) (values md).

(** The number of videos whose status satisfies [P], counted apart from the
    status route. *)
Definition videos_with (P : job_status -> Prop) `{!forall s, Decision (P s)}
    (md : list (Z * video_meta)) : Z :=
  Z.of_nat (length (filter (fun d => P (status d)) (values md))).

#[global] Instance job_status_eq_dec : EqDecision job_status.
Proof. solve_decision. Defined.

#[global] Instance terminal_dec s : Decision (terminal s).
Proof. unfold terminal. apply _. Defined.

(** A report the handler answers with an error object: the body null, or a
    JSON object without one of the keys video_id, status, worker_id. *)
Definition malformed (data : option report) : Prop :=
  match data with
  | None => True
  | Some r =>
      rep_video_id r = None \/ rep_status r = None \/ rep_worker_id r = None
  end.

(** The status a report gives a video with [n] retries behind it. *)
Definition reported_status (max_retries : Z) (rstatus : string) (n : Z)
    : job_status :=
  if decide (rstatus = "ok") then finished
  else if decide (rstatus = "skipped") then skipped
  else if decide (n < max_retries) then waiting
  else failed.

Definition some_waiting (md : list (Z * video_meta)) : Prop :=
  Exists (fun d => status d = waiting) (values md).

Definition some_downloading (md : list (Z * video_meta)) : Prop :=
  Exists (fun d => status d = downloading) (values md).

(** ** Concrete runs *)

(** The message a worker sends before anything went wrong (worker.py:
    the empty string). *)
Definition no_message : string := EmptyString.

(** A payload as the launcher writes it for a plain list of URLs. *)
Definition url_payload (u : string) : gmap string json := {[ "url" := JStr u ]}.

Definition poll (wid wstatus wmsg : string) : event :=
  Request (GET (GetArgs (Some wid) (Some wstatus) (Some wmsg))).

Definition post (video_id : Z) (rstatus wid : string) : event :=
  Request (POST (Some (Report (Some video_id) (Some rstatus) (Some wid)
                         None None))).

(** The reply to an event. *)
Definition reply (srv : server) (ev : event) (now : Z) (st : state)
    : option outcome :=
  match ev with
  | Request req => Some (snd (next_video srv req now st))
  | Sweep => None
  end.

Definition three_videos : list (gmap string json) :=
  [url_payload "a"; url_payload "b"; url_payload "c"].

(** ** Vocabulary of the further properties *)

(** The worker a poll registers: the worker_id of a GET that carries all
    three query arguments. *)
Definition poller (ev : event) : option string :=
  match ev with
  | Request (GET (GetArgs (Some wid) (Some _) (Some _))) => Some wid
  | _ => None
  end.

Definition polled (evs : list (event * Z)) : gset string :=
  list_to_set (omap (fun p => poller (fst p)) evs).

(** The record of a video handed out at time [t] and never touched since. *)
Definition handed_out (t : Z) : video_meta :=
  VideoMeta downloading None 0 (Some t) None None.

(** Polls with worker_status = ok, each given by worker id, message and
    time. *)
Definition healthy_polls (ps : list (string * string * Z))
    : list (event * Z) :=
  map (fun '(wid, wmsg, now) => (poll wid "ok" wmsg, now)) ps.

(** * The launcher (src/starship/app.py) *)

(** ** Placing the workers in zones (main, lines 215-258) *)

(** What is appended to [worker_ops]: the operation that creates the server,
    or the result of [_start_worker] for worker [idx]. *)
Inductive op :=
  | ServerOp
  | WorkerOp (idx : nat).

Record launcher := Launcher {
  current_zone : nat;
  worker_ops : gmap string (list op);
}.

Inductive loop_exit :=
  | Exhausted   (* [range(FLAGS.num_workers)] ran out *)
  | Break       (* no zone left: the warning is logged and the loop left *)
  | IndexError. (* [FLAGS.zones[current_zone]] out of range *)

(** [worker_ops[zone]] on a [defaultdict(list)]: the value, and the entry
    the lookup creates when there is none. *)
Definition ops_in (zone : string) (w : gmap string (list op)) : list op :=
  default [] (w !! zone).

Definition touch (zone : string) (w : gmap string (list op))
    : gmap string (list op) :=
  <[ zone := ops_in zone w ]> w.

(** Lines 229-233: the server goes to the first zone. *)
Definition start_server (zones : list string) : option launcher :=
  match zones !! 0%nat with
  | None => None
  | Some zone => Some (Launcher 0 (<[ zone := [ServerOp] ]> ∅))
  end.

(** One pass through the body of the loop of lines 236-258. *)
Definition place_worker (zones : list string) (max_workers_per_zone : Z)
    (idx : nat) (s : launcher) : launcher * option loop_exit :=
  match zones !! current_zone s with
  | None => (s, Some IndexError)
  | Some zone =>
      let w := touch zone (worker_ops s) in
      let cz :=
        if Z.of_nat (length (ops_in zone w)) >? max_workers_per_zone
        then S (current_zone s) else current_zone s in
      if (length zones <=? cz)%nat then (Launcher cz w, Some Break)
      else
        match zones !! cz with
        | None => (Launcher cz w, Some IndexError)
        | Some zone' =>
            let w' := touch zone' w in
            (Launcher cz
               (<[ zone' := (ops_in zone' w' ++ [WorkerOp idx])%list ]> w'),
             None)
        end
  end.

Fixpoint place_workers (zones : list string) (max_workers_per_zone : Z)
    (idxs : list nat) (s : launcher) : launcher * loop_exit :=
  match idxs with
  | [] => (s, Exhausted)
  | idx :: rest =>
      match place_worker zones max_workers_per_zone idx s with
      | (s', Some e) => (s', e)
      | (s', None) => place_workers zones max_workers_per_zone rest s'
      end
  end.

(** [for idx in range(FLAGS.num_workers)] after the server is started;
    [None] when [FLAGS.zones[0]] does not exist. *)
Definition launch (zones : list string) (max_workers_per_zone num_workers : Z)
    : option (launcher * loop_exit) :=
  match start_server zones with
  | None => None
  | Some s =>
      Some (place_workers zones max_workers_per_zone
              (seq 0 (Z.to_nat num_workers)) s)
  end.

(** The launches in the order they are made: the server, then the workers. *)
Definition launches (n : nat) : list op := ServerOp :: map WorkerOp (seq 0 n).

(** The state of the launcher before worker [j] is placed: the launches so
    far fill the zones in order, [m] to a zone. *)
Definition filled (zones : list string) (m j : nat) (s : launcher) : Prop :=
  current_zone s = (j / m)%nat /\
  forall i zone, zones !! i = Some zone ->
    ops_in zone (worker_ops s) = take m (drop (i * m) (launches j)).

(** ** Reading the input (_load_data_from_file, lines 85-96) *)

(** What the launcher gets from the input file: the lines [f.readlines()]
    returns, and the list [json.load(f)] returns ([None]: the file is not
    JSON).  [str.strip] is the library's. *)
Record input_file := InputFile {
  readlines : list string;
  json_load : option (list (gmap string json));
}.

Inductive load_error :=
  | OSError          (* [open(filepath)] failed *)
  | JSONDecodeError
  | ValueError.      (* "Unknown input data type" *)

Definition _load_data_from_file (strip : string -> string)
    (file : option input_file) (data_type : string)
    : load_error + list (gmap string json) :=
  match file with
  | None => inl OSError
  | Some f =>
      if String.eqb data_type "file_list" then
        inr (map (fun line => {[ "url" := JStr (strip line) ]}) (readlines f))
      else if String.eqb data_type "json" then
        match json_load f with
        | Some videos => inr videos
        | None => inl JSONDecodeError
        end
      else inl ValueError
  end.

(** ** Waiting for the server to be done (_poll_server_status, lines 157-178) *)

(** What [requests.get(".../status", timeout=1)] gives: an exception, or a
    response with its status code and, decoded, its JSON body.
    [FetchOtherError] also stands for a body that is not a status reply:
    reading it raises inside the same [try]. *)
Inductive status_fetch :=
  | FetchConnectionError
  | FetchTimeout
  | FetchOtherError
  | FetchResponse (status_code : Z) (stat : status_report).

(** [True]: poll again in five seconds; [False]: clean the instances up. *)
Definition _poll_server_status (r : status_fetch) : bool :=
  match r with
  | FetchResponse status_code stat =>
      if status_code =? 200 then (if r_done stat then false else true)
      else true
  | FetchConnectionError | FetchTimeout | FetchOtherError => true
  end.

(** [while _poll_server_status(external_server_ip): time.sleep(5)] over the
    fetches the launcher makes: how many of them it makes before it goes on
    to clean up, [None] when none of them ends the loop. *)
Fixpoint polls_until_cleanup (fetches : list status_fetch) : option nat :=
  match fetches with
  | [] => None
  | r :: rest =>
      if _poll_server_status r then S <$> polls_until_cleanup rest
      else Some 1%nat
  end.

(** * Instance metadata (src/starship/gcp/utils/compute.py) *)

(** An entry of [metadata["items"]], a dict with the keys "key" and
    "value", as the launcher builds them. *)
Definition has_key (key : string) (items : list (string * string)) : bool :=
  existsb (fun x => String.eqb (fst x) key) items.

(** [if not any(map(lambda x: x["key"] == key, items)): items.append(...)] *)
Definition ensure_item (key value : string) (items : list (string * string))
    : list (string * string) :=
  if negb (has_key key items) then (items ++ [(key, value)])%list else items.

(** create_instance, lines 32-43: the items the instance is created with.
    [None]: no metadata was passed; [Some None]: a dict without "items". *)
Definition create_instance_items
    (metadata : option (option (list (string * string))))
    (startup_script bucket name : string) : list (string * string) :=
  let items :=
    match metadata with
    | None => []
    | Some None => []
    | Some (Some items) => items
    end in
  ensure_item "iname" name
    (ensure_item "bucket" bucket
       (ensure_item "startup-script" startup_script items)).

(** The value of the first entry with a key. *)
Definition item_value (key : string) (items : list (string * string))
    : option string :=
  snd <$> List.find (fun x => String.eqb (fst x) key) items.

(** * Utilities (starship/utils.py) *)

(** random_string, lines 29-40.  [randbelow k n] is what the [k]-th call of
    [random.choice] draws for a sequence of length [n]; [None] is the
    [IndexError] of [random.choice] on an empty sequence. *)
Fixpoint random_chars (randbelow : nat -> nat -> nat) (k count : nat)
    (letters : string) : option string :=
  match count with
  | O => Some EmptyString
  | S count' =>
      match String.get (randbelow k (String.length letters)) letters with
      | None => None
      | Some c =>
          String c <$> random_chars randbelow (S k) count' letters
      end
  end.

Definition random_string (randbelow : nat -> nat -> nat) (length : Z)
    (letters : string) : option string :=
  random_chars randbelow 0 (Z.to_nat length) letters.

Definition ascii_lowercase : string := "abcdefghijklmnopqrstuvwxyz".

(** * The worker (src/starship/workers/worker.py) *)

(** The outcome of a call into the file system, the storage client, the
    download library or the network: what it returns, or [str(e)] of the
    exception it raises. *)
Inductive io (A : Type) :=
  | Gives (a : A)
  | Raises (msg : string).
Arguments Gives {A} a.
Arguments Raises {A} msg.

(** The outcomes of the calls one run of _download_video_to_gcp makes, in
    the order it makes them. *)
Record download_io := DownloadIO {
  io_prepare_dir : io unit;       (* lines 25-27: exists, rmtree, mkdir *)
  io_blob_exists : io bool;       (* line 31: get_bucket(..).blob(..).exists() *)
  io_update_opts : io unit;       (* line 68: ydl_opts.update(..) *)
  io_make_downloader : io unit;   (* line 72: YoutubeDL(ydl_opts) *)
  io_extract_info : io bool;      (* line 73: whether the result is not None *)
  io_process_upload : io unit;    (* lines 98-127 *)
}.

(** The three bodies the worker posts (lines 36-41, 84-90, 132-137). *)
Definition skipped_body (video_id : json) (instance_name : string)
    : gmap string json :=
  {[ "video_id" := video_id; "status" := JStr "skipped"; "error" := JNull;
     "worker_id" := JStr instance_name ]}.

Definition not_downloaded_body (video_id : json) (instance_name : string)
    (error_message : string) : gmap string json :=
  {[ "video_id" := video_id; "status" := JStr "skipped";
     "error" := JStr "Could not download video";
     "worker_id" := JStr instance_name;
     "worker_message" := JStr error_message ]}.

Definition ok_body (video_id : json) (instance_name : string)
    : gmap string json :=
  {[ "video_id" := video_id; "status" := JStr "ok"; "error" := JNull;
     "worker_id" := JStr instance_name ]}.

(** Lines 70-77: the download, with every exception caught.  [inl msg]:
    [res] is [None] and [error_message] is [msg]. *)
Definition extract (w : download_io) (video_data : gmap string json)
    : string + unit :=
  match io_make_downloader w with
  | Raises msg => inl msg
  | Gives _ =>
      match video_data !! "url" with
      | None => inl "'url'"
      | Some _ =>
          match io_extract_info w with
          | Raises msg => inl msg
          | Gives false =>
              inl "Could not download video for an unknown reason"
          | Gives true => inr tt
          end
      end
  end.

(** _download_video_to_gcp (lines 23-140): the bodies it posts to
    /next_video, and [str(e)] of the exception that leaves it, if one does.
    [has_storage] is [storage_client is not None]. *)
Definition _download_video_to_gcp (w : download_io)
    (video_data : gmap string json) (instance_name : string)
    (has_storage : bool) : list (gmap string json) * option string :=
  match io_prepare_dir w with
  | Raises msg => ([], Some msg)
  | Gives _ =>
      match video_data !! "output_path" with
      | None => ([], Some "'output_path'")
      | Some _ =>
          match (if has_storage then io_blob_exists w else Gives false) with
          | Raises msg => ([], Some msg)
          | Gives exists_already =>
              match video_data !! "_id" with
              | None => ([], Some "'_id'")
              | Some video_id =>
                  if exists_already
                  then ([skipped_body video_id instance_name], None)
                  else
                    match (if decide (is_Some (video_data !! "ytdl_opts"))
                           then io_update_opts w else Gives tt) with
                    | Raises msg => ([], Some msg)
                    | Gives _ =>
                        match extract w video_data with
                        | inl error_message =>
                            ([not_downloaded_body video_id instance_name
                                error_message], None)
                        | inr _ =>
                            match io_process_upload w with
                            | Raises msg => ([], Some msg)
                            | Gives _ =>
                                ([ok_body video_id instance_name], None)
                            end
                        end
                    end
              end
          end
      end
  end.

(** The worker's main loop (lines 143-187). *)

Record worker_vars := WorkerVars {
  var_worker_status : string;
  var_worker_message : string;
}.

(** What the GET of line 156 and the decoding of line 160 give. *)
Inductive poll_result :=
  | PollConnectionError              (* requests.exceptions.ConnectionError *)
  | PollError                        (* any other Exception *)
  | PollNotJson                      (* json.decoder.JSONDecodeError *)
  | PollJson (obj : gmap string json).

Inductive turn_end :=
  | PollAgain       (* next iteration at once *)
  | SleepThenPoll   (* time.sleep(5), then the next iteration *)
  | LoopLeft        (* break *)
  | Exit1.          (* sys.exit(1) *)

(** Truth value of a JSON value in an [if]. *)
Definition truthy (v : json) : bool :=
  match v with
  | JNull => false
  | JBool b => b
  | JInt z => negb (z =? 0)
  | JStr EmptyString => false
  | JStr _ => true
  | JList [] => false
  | JList _ => true
  | JDict [] => false
  | JDict _ => true
  end.

(** ["key" in next_video_data and next_video_data["key"]] *)
Definition flagged (key : string) (obj : gmap string json) : bool :=
  match obj !! key with
  | Some v => truthy v
  | None => false
  end.

(** One iteration of [while True]: the variables it leaves, the bodies it
    posts and how it ends. *)
Definition worker_turn (w : download_io) (instance_name : string)
    (has_storage : bool) (v : worker_vars) (r : poll_result)
    : worker_vars * list (gmap string json) * turn_end :=
  match r with
  | PollConnectionError => (v, [], SleepThenPoll)
  | PollError => (WorkerVars "error" (var_worker_message v), [], PollAgain)
  | PollNotJson => (v, [], Exit1)
  | PollJson next_video_data =>
      if flagged "pending_finish" next_video_data then (v, [], SleepThenPoll)
      else if flagged "finished" next_video_data then (v, [], LoopLeft)
      else
        match _download_video_to_gcp w next_video_data instance_name
                has_storage with
        | (posts, None) => (v, posts, PollAgain)
        | (posts, Some msg) => (WorkerVars "error" msg, posts, PollAgain)
        end
  end.

(** The report the server reads from a posted body whose fields have the
    types the worker gives them. *)
Definition str_field (key : string) (body : gmap string json) : option string :=
  match body !! key with
  | Some (JStr s) => Some s
  | _ => None
  end.

Definition report_of_body (body : gmap string json) : option report :=
  match body !! "video_id" with
  | Some (JInt video_id) =>
      Some (Report (Some video_id) (str_field "status" body)
              (str_field "worker_id" body) (str_field "worker_status" body)
              (str_field "worker_message" body))
  | _ => None
  end.

(** A run in which no report carries a status other than ok and skipped. *)
Definition reports_success (ev : event) : Prop :=
  forall r rstatus,
    ev = Request (POST (Some r)) -> rep_status r = Some rstatus ->
    rstatus = "ok" \/ rstatus = "skipped".

(** Proof steps for the case analysis of _download_video_to_gcp. *)
Local Ltac nothing_posted :=
  simpl; split; [lia|]; split; [done|]; intros ? [].

Local Ltac one_posted H :=
  simpl; split; [lia|]; split; [intros [? [=]]|];
  intros body [<-|[]]; destruct H as (Hid & Hst & Hw);
  split; [exact Hid|]; split; [exact Hw|];
  split;
    [first [by left | by right]
    |intros Hok; first [by split | rewrite Hst in Hok; discriminate]].

(** * The audio worker (src/starship/workers/worker_audio_only.py) *)

(** The outcomes of the calls one run of _download_audio_to_gcp makes, in the
    order it makes them. *)
Record audio_io := AudioIO {
  aio_prepare_dir : io unit;      (* lines 41-43: exists, rmtree, mkdir *)
  aio_blob_exists : io bool;      (* line 49: get_bucket(..).blob(..).exists() *)
  aio_local_exists : io bool;     (* lines 67-68: join, os.path.exists *)
  aio_update_opts : io unit;      (* line 130: ydl_opts.update(..) *)
  aio_make_downloader : io unit;  (* line 134: YoutubeDL(ydl_opts) *)
  aio_extract_info : io bool;     (* line 137: whether the result is not None *)
  aio_write_meta : io unit;       (* lines 164-189 *)
  aio_audio_files : io bool;      (* line 192: whether the list is not empty *)
  aio_store : io unit;            (* lines 221-236: the upload or the copy *)
}.

(** The bodies with status "failed" (lines 148-154, 199-204); the two others
    are those of worker.py. *)
Definition audio_not_downloaded_body (video_id : json) (instance_name : string)
    (error_message : string) : gmap string json :=
  {[ "video_id" := video_id; "status" := JStr "failed";
     "error" := JStr "Could not download audio";
     "worker_id" := JStr instance_name;
     "worker_message" := JStr error_message ]}.

Definition no_audio_file_body (video_id : json) (instance_name : string)
    : gmap string json :=
  {[ "video_id" := video_id; "status" := JStr "failed";
     "error" := JStr "No audio file found after download";
     "worker_id" := JStr instance_name ]}.

(** Lines 51-62 and 70-81: the body is built inside the [try], so that a
    payload without "_id" posts nothing and raises nothing. *)
Definition post_skipped (audio_data : gmap string json)
    (instance_name : string) : list (gmap string json) :=
  match audio_data !! "_id" with
  | Some video_id => [skipped_body video_id instance_name]
  | None => []
  end.

(** Lines 132-141: the download, with every exception caught; the url has a
    default, so that its absence is no error. *)
Definition audio_extract (w : audio_io) : string + unit :=
  match aio_make_downloader w with
  | Raises msg => inl msg
  | Gives _ =>
      match aio_extract_info w with
      | Raises msg => inl msg
      | Gives false => inl "Could not download audio for an unknown reason"
      | Gives true => inr tt
      end
  end.

(** _download_audio_to_gcp (lines 29-255): the bodies it posts to
    /next_video, and [str(e)] of the exception that leaves it, if one does.
    [has_storage] is [storage_client is not None], [local_output] the truth
    value of FLAGS.local_output; [not FLAGS.no_gcp is False] reads
    [not (FLAGS.no_gcp is False)], which is FLAGS.no_gcp. *)
Definition _download_audio_to_gcp (w : audio_io)
    (audio_data : gmap string json) (instance_name : string)
    (has_storage local_output no_gcp : bool)
    : list (gmap string json) * option string :=
  match aio_prepare_dir w with
  | Raises msg => ([], Some msg)
  | Gives _ =>
  match audio_data !! "song_id" with
  | None => ([], Some "'song_id'")
  | Some _ =>
  match audio_data !! "output_path" with
  | None => ([], Some "'output_path'")
  | Some _ =>
  match (if has_storage then aio_blob_exists w else Gives false) with
  | Raises msg => ([], Some msg)
  | Gives true => (post_skipped audio_data instance_name, None)
  | Gives false =>
  match (if local_output && no_gcp then aio_local_exists w else Gives false) with
  | Raises msg => ([], Some msg)
  | Gives true => (post_skipped audio_data instance_name, None)
  | Gives false =>
  match audio_data !! "_id" with
  | None => ([], Some "'_id'")
  | Some video_id =>
  match (if decide (is_Some (audio_data !! "ytdl_opts"))
         then aio_update_opts w else Gives tt) with
  | Raises msg => ([], Some msg)
  | Gives _ =>
  match audio_extract w with
  | inl error_message =>
      ([audio_not_downloaded_body video_id instance_name error_message], None)
  | inr _ =>
  match aio_write_meta w with
  | Raises msg => ([], Some msg)
  | Gives _ =>
  match aio_audio_files w with
  | Raises msg => ([], Some msg)
  | Gives false => ([no_audio_file_body video_id instance_name], None)
  | Gives true =>
  match (if has_storage || local_output then aio_store w else Gives tt) with
  | Raises msg => ([], Some msg)
  | Gives _ => ([ok_body video_id instance_name], None)
  end end end end end end end end end end end.

(** * Instances of a run (src/starship/app.py) *)

(** What a wait on an operation comes to (compute.py, wait_for_operation,
    lines 7-15): the operation is DONE, the wait raises (the error of the
    operation, or an exception of the call), or it polls for ever. *)
Inductive wait_result :=
  | Done
  | WaitRaises (msg : string)
  | Forever.

(** The answers of the compute API.  [list_instances zone]: the names of the
    instances of the zone, [None] when the reply has no "items";
    [wait_for_operation zone name]: the wait on the operation that deletes
    instance [name] of [zone].  Within one run of a function an answer
    depends on the arguments of the call only; two values stand for the API
    at two different times. *)
Record compute_api := ComputeAPI {
  list_instances : string -> io (option (list string));
  delete_instance : string -> string -> io unit;
  wait_for_operation : string -> string -> wait_result;
}.

(** The calls made, in the order they are made. *)
Inductive api_call :=
  | ListCall (zone : string)
  | DeleteCall (zone name : string)
  | WaitCall (zone name : string).

Inductive ending :=
  | Returns
  | RaisesOut (msg : string)
  | NeverReturns.

(** Lines 187-195: the deletes of one zone; the names and zones of the
    operations started, and the exception if a call raised. *)
Fixpoint delete_marked (api : compute_api) (marker zone : string)
    (names : list string)
    : list api_call * list (string * string) * option string :=
  match names with
  | [] => ([], [], None)
  | name :: names' =>
      if contains marker name then
        match delete_instance api zone name with
        | Raises msg => ([DeleteCall zone name], [], Some msg)
        | Gives _ =>
            let '(calls, ops, raised) := delete_marked api marker zone names' in
            (DeleteCall zone name :: calls, (name, zone) :: ops, raised)
        end
      else delete_marked api marker zone names'
  end.

(** Lines 184-195: [for zone in zones]. *)
Fixpoint delete_in_zones (api : compute_api) (marker : string)
    (zones : list string)
    : list api_call * list (string * string) * option string :=
  match zones with
  | [] => ([], [], None)
  | zone :: zones' =>
      match list_instances api zone with
      | Raises msg => ([ListCall zone], [], Some msg)
      | Gives None =>
          let '(calls, ops, raised) := delete_in_zones api marker zones' in
          (ListCall zone :: calls, ops, raised)
      | Gives (Some names) =>
          match delete_marked api marker zone names with
          | (calls, ops, Some msg) => (ListCall zone :: calls, ops, Some msg)
          | (calls, ops, None) =>
              let '(calls', ops', raised) :=
                delete_in_zones api marker zones' in
              (ListCall zone :: calls ++ calls', ops ++ ops', raised)%list
          end
      end
  end.

(** Lines 198-200: [for name, zone, op in ops]. *)
Fixpoint wait_for_deletes (api : compute_api) (ops : list (string * string))
    : list api_call * ending :=
  match ops with
  | [] => ([], Returns)
  | (name, zone) :: ops' =>
      match wait_for_operation api zone name with
      | Done =>
          let '(calls, e) := wait_for_deletes api ops' in
          (WaitCall zone name :: calls, e)
      | WaitRaises msg => ([WaitCall zone name], RaisesOut msg)
      | Forever => ([WaitCall zone name], NeverReturns)
      end
  end.

(** The names a run gives its instances contain this (lines 107, 135). *)
Definition run_marker (run_name : string) : string :=
  "starship-" ++ run_name.

(** _cleanup_instances (lines 181-200). *)
Definition _cleanup_instances (api : compute_api) (zones : list string)
    (run_name : string) : list api_call * ending :=
  match delete_in_zones api (run_marker run_name) zones with
  | (calls, _, Some msg) => (calls, RaisesOut msg)
  | (calls, ops, None) =>
      let '(calls', e) := wait_for_deletes api ops in
      ((calls ++ calls')%list, e)
  end.

(** How _discover_running_instances (lines 70-82) ends. *)
Inductive discovery :=
  | NoneRunning
  | SysExit
  | DiscoveryRaises (msg : string).

Fixpoint _discover_running_instances (api : compute_api)
    (zones : list string) : discovery :=
  match zones with
  | [] => NoneRunning
  | zone :: zones' =>
      match list_instances api zone with
      | Raises msg => DiscoveryRaises msg
      | Gives None => _discover_running_instances api zones'
      | Gives (Some names) =>
          if existsb (contains "starship") names then SysExit
          else _discover_running_instances api zones'
      end
  end.

Definition is_wait (c : api_call) : bool :=
  match c with
  | WaitCall _ _ => true
  | _ => false
  end.

(** * The first server (starship/servers/server.py)

    The server as it was before timeouts, the retries flag and
    "pending_finish": the same /next_video route, inside [main], over records
    that have no "worker_id" entry and worker entries that have no
    "message".  The names of the source carry the prefix [legacy_] (fields:
    [l]) here. *)

(** One value of [metadata] (lines 29-38). *)
Record legacy_meta := LegacyMeta {
  lstatus : job_status;
  lerror : option string;
  lretries : Z;
  lstart_time : option Z;
  lend_time : option Z;
}.

(** One value of [workers_seen] (lines 49-53). *)
Record legacy_worker := LegacyWorker {
  llast_seen : Z;
  lworker_status : string;
  lnotified_finished : bool;
}.

Record legacy_server := LegacyServer {
  lvideo_data : list (Z * gmap string json);
  lvideos : list Z;
}.

Record legacy_state := LegacyState {
  lmetadata : list (Z * legacy_meta);
  lworkers_seen : gmap string legacy_worker;
}.

(** The body of a POST; ["error"] may be absent, null or a string. *)
Record legacy_report := LegacyReport {
  lrep_video_id : option Z;
  lrep_status : option string;
  lrep_worker_id : option string;
  lrep_error : option (option string);
  lrep_worker_status : option string;
}.

Inductive legacy_request :=
  | LGET (args : get_args)
  | LPOST (data : option legacy_report).

Definition legacy_is_waiting (d : legacy_meta) : bool :=
  status_eqb (lstatus d) waiting.

(** Lines 61-66.  A record has no "worker_id" entry: for a downloading
    record the second half of the test raises [KeyError], for any other
    record the first half is false, so the assignment of line 66 is never
    reached and the loop changes nothing. *)
Fixpoint legacy_redirect_downloads (vs : list Z)
    (md : list (Z * legacy_meta)) : option exn :=
  match vs with
  | [] => None
  | video_id :: vs' =>
      match dict_get video_id md with
      | None => Some KeyError
      | Some d =>
          if status_eqb (lstatus d) downloading then Some KeyError
          else legacy_redirect_downloads vs' md
      end
  end.

Fixpoint legacy_next_waiting (md : list (Z * legacy_meta)) : option Z :=
  match md with
  | [] => None
  | (k, v) :: r =>
      if legacy_is_waiting v then Some k else legacy_next_waiting r
  end.

(** Lines 72-75. *)
Definition legacy_assigned (now : Z) (d : legacy_meta) : legacy_meta :=
  LegacyMeta downloading None (lretries d) (Some now) None.

(** The GET branch (lines 45-81); the query has no worker_message. *)
Definition legacy_next_video_get (srv : legacy_server) (a : get_args)
    (now : Z) (st : legacy_state) : legacy_state * outcome :=
  match arg_worker_id a, arg_worker_status a with
  | Some wid, Some wstatus =>
      let ws := <[ wid := LegacyWorker now wstatus false ]> (lworkers_seen st) in
      if negb (existsb legacy_is_waiting (values (lmetadata st)))
         || negb (String.eqb wstatus "ok")
      then
        let ws' := <[ wid := LegacyWorker now wstatus true ]> ws in
        if negb (String.eqb wstatus "ok") then
          match legacy_redirect_downloads (lvideos srv) (lmetadata st) with
          | Some e => (LegacyState (lmetadata st) ws', Raised e)
          | None =>
              (LegacyState (lmetadata st) ws',
               Returned {[ "finished" := JBool true ]})
          end
        else
          (LegacyState (lmetadata st) ws',
           Returned {[ "finished" := JBool true ]})
      else
        match legacy_next_waiting (lmetadata st) with
        | None => (LegacyState (lmetadata st) ws, Raised StopIteration)
        | Some next_video_id =>
            let md :=
              dict_alter (legacy_assigned now) next_video_id (lmetadata st) in
            match dict_get next_video_id (lvideo_data srv) with
            | None => (LegacyState md ws, Raised KeyError)
            | Some payload =>
                (LegacyState md ws,
                 Returned (output_data next_video_id payload))
            end
        end
  | _, _ => (st, Raised BadRequestKeyError)
  end.

(** Lines 97-110; the bound on the retries is the constant 3, and the error
    recorded is [data.get("error", "Unknown error")]. *)
Definition legacy_record_report (rstatus : string)
    (rerror : option (option string)) (now : Z) (d : legacy_meta)
    : legacy_meta :=
  if String.eqb rstatus "ok" || String.eqb rstatus "skipped" then
    LegacyMeta (if String.eqb rstatus "ok" then finished else skipped)
      None (lretries d) (lstart_time d) (Some now)
  else
    let e := default (Some "Unknown error") rerror in
    if lretries d <? 3
    then LegacyMeta waiting e (lretries d + 1) (lstart_time d) (Some now)
    else LegacyMeta failed e (lretries d) (lstart_time d) (Some now).

(** Lines 113-116. *)
Definition legacy_update_worker (r : legacy_report) (wid : string) (now : Z)
    (ws : gmap string legacy_worker) : gmap string legacy_worker :=
  match ws !! wid with
  | None => ws
  | Some w =>
      <[ wid := LegacyWorker now
                  (default (lworker_status w) (lrep_worker_status r))
                  (lnotified_finished w) ]> ws
  end.

(** The POST branch (lines 83-118). *)
Definition legacy_next_video_post (data : option legacy_report) (now : Z)
    (st : legacy_state) : legacy_state * outcome :=
  match data with
  | None => (st, error_reply "No data provided")
  | Some r =>
      match lrep_video_id r with
      | None => (st, error_reply "No video_id provided")
      | Some video_id =>
          match lrep_status r with
          | None => (st, error_reply "No status provided")
          | Some rstatus =>
              match lrep_worker_id r with
              | None => (st, error_reply "No worker_id provided")
              | Some wid =>
                  match dict_get video_id (lmetadata st) with
                  | None => (st, Raised KeyError)
                  | Some _ =>
                      (LegacyState
                         (dict_alter
                            (legacy_record_report rstatus (lrep_error r) now)
                            video_id (lmetadata st))
                         (legacy_update_worker r wid now (lworkers_seen st)),
                       Returned {[ "status" := JStr "ok" ]})
                  end
              end
          end
      end
  end.

Definition legacy_next_video (srv : legacy_server) (req : legacy_request)
    (now : Z) (st : legacy_state) : legacy_state * outcome :=
  match req with
  | LGET a => legacy_next_video_get srv a now st
  | LPOST data => legacy_next_video_post data now st
  end.

Definition legacy_fresh_meta : legacy_meta :=
  LegacyMeta waiting None 0 None None.

(** Lines 21-41.  [videos] is a set of the integers 0 .. n-1; it is listed
    here in increasing order, and no property below depends on the order. *)
Definition legacy_main (inputs : list (gmap string json))
    : legacy_server * legacy_state :=
  let video_data := enumerate inputs in
  let videos := keys video_data in
  (LegacyServer video_data videos,
   LegacyState (map (fun k => (k, legacy_fresh_meta)) videos) ∅).

(** The states the first server passes through from start-up. *)
Inductive legacy_reachable (inputs : list (gmap string json))
    : legacy_state -> Prop :=
  | legacy_start : legacy_reachable inputs (snd (legacy_main inputs))
  | legacy_request_served req now st :
      legacy_reachable inputs st ->
      legacy_reachable inputs
        (fst (legacy_next_video (fst (legacy_main inputs)) req now st)).

(** * The first worker (starship/workers/worker.py) *)

(** The body of a failed download (lines 72-77). *)
Definition error_body (video_id : json) (instance_name : string)
    : gmap string json :=
  {[ "video_id" := video_id; "status" := JStr "error";
     "error" := JStr "Could not download video";
     "worker_id" := JStr instance_name ]}.

(** _download_video_to_gcp of the first worker (lines 22-126), over the same
    calls as the later one.  The download is not inside a [try], and the
    message logged when it returns nothing reads [video_data["video_id"]]. *)
Definition legacy_download_video_to_gcp (w : download_io)
    (video_data : gmap string json) (instance_name : string)
    (has_storage : bool) : list (gmap string json) * option string :=
  match io_prepare_dir w with
  | Raises msg => ([], Some msg)
  | Gives _ =>
  match video_data !! "output_path" with
  | None => ([], Some "'output_path'")
  | Some _ =>
  match (if has_storage then io_blob_exists w else Gives false) with
  | Raises msg => ([], Some msg)
  | Gives exists_already =>
  match video_data !! "_id" with
  | None => ([], Some "'_id'")
  | Some video_id =>
  if exists_already then ([skipped_body video_id instance_name], None)
  else
  match (if decide (is_Some (video_data !! "ytdl_opts"))
         then io_update_opts w else Gives tt) with
  | Raises msg => ([], Some msg)
  | Gives _ =>
  match io_make_downloader w with
  | Raises msg => ([], Some msg)
  | Gives _ =>
  match video_data !! "url" with
  | None => ([], Some "'url'")
  | Some _ =>
  match io_extract_info w with
  | Raises msg => ([], Some msg)
  | Gives false =>
      match video_data !! "video_id" with
      | None => ([], Some "'video_id'")
      | Some _ => ([error_body video_id instance_name], None)
      end
  | Gives true =>
      match io_process_upload w with
      | Raises msg => ([], Some msg)
      | Gives _ => ([ok_body video_id instance_name], None)
      end
  end end end end end end end end.

(** * Properties *)

(** ** Association lists *)

Section AssocListFacts.
Context {V : Type}.
Implicit Types (d : list (Z * V)) (f : V -> V) (k : Z).

Lemma dict_get_alter_eq f k d :
  dict_get k (dict_alter f k d) = f <$> dict_get k d.
Proof.
  induction d as [|[k' v] r IH]; simpl; [reflexivity|].
  destruct (k =? k') eqn:E; simpl; rewrite E; auto.
Qed.

Lemma dict_get_alter_ne f k k' d :
  k <> k' -> dict_get k' (dict_alter f k d) = dict_get k' d.
Proof.
  intros Hne. induction d as [|[k0 v] r IH]; simpl; [reflexivity|].
  destruct (k =? k0) eqn:E; simpl.
  - apply Z.eqb_eq in E. subst k0.
    destruct (k' =? k) eqn:E'; [apply Z.eqb_eq in E'; congruence | reflexivity].
  - rewrite IH. reflexivity.
Qed.

Lemma keys_alter f k d : keys (dict_alter f k d) = keys d.
Proof.
  induction d as [|[k' v] r IH]; simpl; [reflexivity|].
  destruct (k =? k'); simpl; [reflexivity | f_equal; exact IH].
Qed.

Lemma dict_get_Some_keys k d v : dict_get k d = Some v -> In k (keys d).
Proof.
  induction d as [|[k' v'] r IH]; simpl; [discriminate|].
  destruct (k =? k') eqn:E; [apply Z.eqb_eq in E; auto | auto].
Qed.

Lemma dict_get_keys k d : In k (keys d) -> exists v, dict_get k d = Some v.
Proof.
  induction d as [|[k' v'] r IH]; simpl; [tauto|].
  intros [->|Hin]; [rewrite Z.eqb_refl; eauto|].
  destruct (k =? k'); eauto.
Qed.

End AssocListFacts.

(** ** The scheduler job *)

Lemma status_eqb_eq a b : status_eqb a b = true <-> a = b.
Proof. destruct a, b; simpl; split; congruence. Qed.

Lemma status_eqb_neq a b : status_eqb a b = false <-> a <> b.
Proof. destruct a, b; simpl; split; congruence. Qed.

Lemma keys_check_and_retry timeout now md :
  keys (fst (_check_and_retry_downloads timeout now md)) = keys md.
Proof.
  induction md as [|[k d] r IH]; simpl; [reflexivity|].
  destruct (status_eqb (status d) downloading).
  - destruct (start_time d); [|reflexivity].
    destruct (_check_and_retry_downloads timeout now r); simpl in *.
    by rewrite IH.
  - destruct (_check_and_retry_downloads timeout now r); simpl in *.
    by rewrite IH.
Qed.

(** Whatever the records hold, the job leaves a record alone or times it
    out, and it times out only a downloading record whose time has passed. *)
Lemma check_and_retry_get timeout now md k d :
  dict_get k md = Some d ->
  dict_get k (fst (_check_and_retry_downloads timeout now md)) = Some d \/
  (status d = downloading /\
   (exists t0, start_time d = Some t0 /\ now - t0 > timeout) /\
   dict_get k (fst (_check_and_retry_downloads timeout now md))
     = Some (timed_out d)).
Proof.
  induction md as [|[k' d'] r IH]; simpl; [discriminate|].
  destruct (k =? k') eqn:Ek.
  - intros [= ->].
    destruct (status_eqb (status d) downloading) eqn:Es.
    + destruct (start_time d) as [t0|] eqn:Et; simpl; [|rewrite Ek; auto].
      destruct (_check_and_retry_downloads timeout now r); simpl.
      rewrite Ek. destruct (now - t0 >? timeout) eqn:Ec; [|auto].
      right. apply status_eqb_eq in Es. split; [done|]. split; [|done].
      exists t0. split; [done|]. apply Z.gtb_lt in Ec. lia.
    + destruct (_check_and_retry_downloads timeout now r); simpl.
      rewrite Ek. auto.
  - intros Hget. specialize (IH Hget).
    destruct (status_eqb (status d') downloading).
    + destruct (start_time d'); simpl; [|rewrite Ek; auto].
      destruct (_check_and_retry_downloads timeout now r); simpl in *.
      by rewrite Ek.
    + destruct (_check_and_retry_downloads timeout now r); simpl in *.
      by rewrite Ek.
Qed.

(** On timestamped records the job runs to the end and treats every
    record. *)
Lemma check_and_retry_timestamped timeout now md :
  timestamped md ->
  _check_and_retry_downloads timeout now md
    = (map (fun '(k, d) => (k, swept timeout now d)) md, None).
Proof.
  unfold timestamped.
  induction md as [|[k d] r IH]; simpl; [reflexivity|].
  intros Hall. apply Forall_cons in Hall as [Hd Hr].
  rewrite (IH Hr). unfold swept, is_downloading.
  destruct (status_eqb (status d) downloading) eqn:Es; simpl.
  - apply status_eqb_eq in Es. destruct (start_time d); [reflexivity|].
    by destruct (Hd Es).
  - by destruct (start_time d).
Qed.

Lemma dict_get_map {V} (f : V -> V) (md : list (Z * V)) k :
  dict_get k (map (fun '(k, d) => (k, f d)) md) = f <$> dict_get k md.
Proof.
  induction md as [|[k' d] r IH]; simpl; [reflexivity|].
  by destruct (k =? k').
Qed.

(** ** The redirection loop *)

Lemma status_redirected wmsg d : status (redirected wmsg d) = waiting.
Proof. reflexivity. Qed.

Lemma keys_redirect vs wid wmsg md :
  keys (fst (redirect_downloads vs wid wmsg md)) = keys md.
Proof.
  revert md. induction vs as [|v vs IH]; intros md; simpl; [reflexivity|].
  destruct (dict_get v md) as [d|]; [|reflexivity].
  destruct (status_eqb (status d) downloading && held_by wid d).
  - rewrite IH. apply keys_alter.
  - apply IH.
Qed.

(** The loop leaves a record alone or redirects it, and it redirects only a
    downloading record whose recorded worker is the reporting one. *)
Lemma redirect_get vs wid wmsg md k d :
  dict_get k md = Some d ->
  dict_get k (fst (redirect_downloads vs wid wmsg md)) = Some d \/
  (status d = downloading /\ held_by wid d = true /\
   dict_get k (fst (redirect_downloads vs wid wmsg md))
     = Some (redirected wmsg d)).
Proof.
  revert md d. induction vs as [|v vs IH]; intros md d Hget; simpl; [auto|].
  destruct (dict_get v md) as [d0|] eqn:Hv; [|auto].
  destruct (status_eqb (status d0) downloading && held_by wid d0) eqn:Hc;
    [|by apply IH].
  destruct (Z.eq_dec v k) as [->|Hne].
  - assert (d0 = d) as -> by congruence.
    apply andb_true_iff in Hc as [Hs Hh]. apply status_eqb_eq in Hs.
    right. split; [done|]. split; [done|].
    destruct (IH (dict_alter (redirected wmsg) k md) (redirected wmsg d))
      as [H|(H & _)]; [by rewrite dict_get_alter_eq, Hget | done |].
    by rewrite status_redirected in H.
  - apply IH. by rewrite dict_get_alter_ne.
Qed.

(** When every listed id is a key, the loop ends normally and every
    downloading record held by the worker is redirected. *)
Lemma redirect_held vs wid wmsg md :
  (forall v, In v vs -> In v (keys md)) ->
  snd (redirect_downloads vs wid wmsg md) = None /\
  forall k d, In k vs -> dict_get k md = Some d ->
    status d = downloading -> held_by wid d = true ->
    dict_get k (fst (redirect_downloads vs wid wmsg md))
      = Some (redirected wmsg d).
Proof.
  revert md. induction vs as [|v vs IH]; intros md Hin; simpl.
  { split; [reflexivity | tauto]. }
  destruct (dict_get_keys v md) as [d0 Hv]; [apply Hin; simpl; auto|].
  rewrite Hv.
  destruct (status_eqb (status d0) downloading && held_by wid d0) eqn:Hc.
  - destruct (IH (dict_alter (redirected wmsg) v md)) as [Hn Hall].
    { intros v' Hv'. rewrite keys_alter. apply Hin. simpl; auto. }
    split; [done|]. intros k d Hk Hget Hs Hh.
    destruct (Z.eq_dec v k) as [->|Hne].
    + assert (d0 = d) as -> by congruence.
      destruct (redirect_get vs wid wmsg (dict_alter (redirected wmsg) k md)
                  k (redirected wmsg d)) as [H|(H & _)];
        [by rewrite dict_get_alter_eq, Hget | done |].
      by rewrite status_redirected in H.
    + destruct Hk as [Hk|Hk]; [done|].
      apply Hall; try done. by rewrite dict_get_alter_ne.
  - destruct (IH md) as [Hn Hall]; [intros v' Hv'; apply Hin; simpl; auto|].
    split; [done|]. intros k d Hk Hget Hs Hh.
    destruct Hk as [->|Hk]; [|by apply Hall].
    assert (d0 = d) as -> by congruence.
    apply status_eqb_eq in Hs. by rewrite Hs, Hh in Hc.
Qed.

(** ** Picking the next video *)

Lemma existsb_next_waiting md :
  existsb is_waiting (values md) = true -> exists k, next_waiting md = Some k.
Proof.
  induction md as [|[k d] r IH]; simpl; [discriminate|].
  destruct (is_waiting d); simpl; eauto.
Qed.

Lemma next_waiting_get md k :
  NoDup (keys md) -> next_waiting md = Some k ->
  exists d, dict_get k md = Some d /\ status d = waiting.
Proof.
  induction md as [|[k' d'] r IH]; simpl; [discriminate|].
  intros Hnd. apply NoDup_cons in Hnd as [Hk' Hnd].
  destruct (is_waiting d') eqn:Hw.
  - intros [= ->]. rewrite Z.eqb_refl. exists d'. split; [done|].
    by apply status_eqb_eq.
  - intros Hn. destruct (IH Hnd Hn) as (d & Hget & Hs).
    destruct (k =? k') eqn:Ek; [|eauto].
    apply Z.eqb_eq in Ek. subst k'.
    destruct Hk'. apply list_elem_of_In. by apply dict_get_Some_keys in Hget.
Qed.


(** ** One event, one record *)

Lemma held_by_worker_id wid d : held_by wid d = true -> worker_id d = Some wid.
Proof.
  unfold held_by. destruct (worker_id d) as [w|]; [|discriminate].
  intros H. apply String.eqb_eq in H. by subst.
Qed.

(** A body that is no JSON object leaves the state as it is. *)
Lemma post_other_state body st : fst (next_video_post_other body st) = st.
Proof.
  destruct body; simpl; try done;
    repeat (match goal with |- context [if ?b then _ else _] => destruct b end);
    done.
Qed.

Lemma job_step srv ev now st k d :
  NoDup (keys (metadata st)) ->
  dict_get k (metadata st) = Some d ->
  exists d', dict_get k (metadata (step srv ev now st)) = Some d' /\
             job_move srv now k d ev d'.
Proof.
  intros Hnd Hget. destruct ev as [[a|data|body]|]; simpl.
  - (* GET *)
    unfold next_video_get.
    destruct a as [[wid|] [wstatus|] [wmsg|]]; simpl;
      try (exists d; split; [done | constructor]).
    destruct (String.eqb wstatus "ok") eqn:Eok; simpl.
    + apply String.eqb_eq in Eok. subst wstatus.
      destruct (existsb is_waiting (values (metadata st))) eqn:Ew; simpl.
      * destruct (existsb_next_waiting _ Ew) as [k0 Hk0]. rewrite Hk0.
        destruct (next_waiting_get _ _ Hnd Hk0) as (d0 & Hget0 & Hs0).
        assert (dict_get k (dict_alter (assigned now) k0 (metadata st))
                = Some (if decide (k0 = k) then assigned now d else d)) as Hd.
        { case_decide as Hk.
          - subst k0. by rewrite dict_get_alter_eq, Hget.
          - by rewrite dict_get_alter_ne. }
        exists (if decide (k0 = k) then assigned now d else d).
        split; [by destruct (dict_get k0 (video_data srv))|].
        case_decide as Hk; [|constructor]. subst k0.
        constructor. congruence.
      * exists d. split; [|constructor].
        by destruct (existsb is_downloading (values (metadata st))).
    + apply String.eqb_neq in Eok.
      destruct (redirect_get (videos srv) wid wmsg (metadata st) k d Hget)
        as [H|(Hs & Hh & H)].
      * exists d. split; [|constructor].
        by destruct (redirect_downloads _ _ _ _) as [? []].
      * exists (redirected wmsg d). split.
        { by destruct (redirect_downloads _ _ _ _) as [? []]. }
        constructor; [done | done | by apply held_by_worker_id].
  - (* POST *)
    unfold next_video_post.
    destruct data as [r|]; [|exists d; split; [done | constructor]].
    destruct (rep_video_id r) as [video_id|] eqn:Ei;
      [|exists d; split; [done | constructor]].
    destruct (rep_status r) as [rstatus|] eqn:Es;
      [|exists d; split; [done | constructor]].
    destruct (rep_worker_id r) as [wid|] eqn:Ew;
      [|exists d; split; [done | constructor]].
    destruct (dict_get video_id (metadata st)) as [d0|] eqn:Hv;
      [|exists d; split; [done | constructor]].
    simpl. destruct (Z.eq_dec video_id k) as [->|Hne].
    + rewrite dict_get_alter_eq, Hget. simpl. eexists. split; [done|].
      by econstructor.
    + rewrite dict_get_alter_ne by done. exists d. split; [done | constructor].
  - (* POST, no JSON object *)
    rewrite post_other_state. exists d. split; [done | constructor].
  - (* Sweep *)
    destruct (check_and_retry_get (FLAGS_timeout (FLAGS srv)) now
                (metadata st) k d Hget) as [H|(Hs & (t0 & Ht & Hlt) & H)].
    + exists d. split; [done | constructor].
    + exists (timed_out d). split; [done|]. by econstructor.
Qed.

Lemma keys_step srv ev now st :
  keys (metadata (step srv ev now st)) = keys (metadata st).
Proof.
  destruct ev as [[a|data|body]|]; simpl.
  - unfold next_video_get.
    destruct a as [[wid|] [wstatus|] [wmsg|]]; simpl; try done.
    destruct (String.eqb wstatus "ok"); simpl.
    + destruct (existsb is_waiting (values (metadata st))); simpl.
      * destruct (next_waiting (metadata st)) as [k0|]; [|done].
        destruct (dict_get k0 (video_data srv)); simpl; apply keys_alter.
      * by destruct (existsb is_downloading (values (metadata st))).
    + pose proof (keys_redirect (videos srv) wid wmsg (metadata st)) as H.
      by destruct (redirect_downloads _ _ _ _) as [? []].
  - unfold next_video_post.
    destruct data as [r|]; [|done].
    destruct (rep_video_id r) as [video_id|]; [|done].
    destruct (rep_status r) as [rstatus|]; [|done].
    destruct (rep_worker_id r) as [wid|]; [|done].
    destruct (dict_get video_id (metadata st)); [|done].
    apply keys_alter.
  - by rewrite post_other_state.
  - apply keys_check_and_retry.
Qed.

(** ** Start-up and reachable states *)

Lemma keys_enumerate_from_ge {A} (l : list A) n k :
  In k (keys (enumerate_from n l)) -> n <= k.
Proof.
  revert n. induction l as [|x r IH]; intros n; simpl; [tauto|].
  intros [<-|Hin]; [lia|]. apply IH in Hin. lia.
Qed.

Lemma NoDup_keys_enumerate_from {A} (l : list A) n :
  NoDup (keys (enumerate_from n l)).
Proof.
  revert n. induction l as [|x r IH]; intros n; simpl; constructor; [|apply IH].
  intros Hin. apply list_elem_of_In, keys_enumerate_from_ge in Hin. lia.
Qed.

Lemma keys_fresh (vs : list Z) : keys (map (fun k => (k, fresh_meta)) vs) = vs.
Proof. induction vs as [|v vs IH]; simpl; [done | by rewrite IH]. Qed.

Lemma dict_get_fresh (vs : list Z) k d :
  dict_get k (map (fun k => (k, fresh_meta)) vs) = Some d -> d = fresh_meta.
Proof.
  induction vs as [|v vs IH]; simpl; [discriminate|].
  destruct (k =? v); [congruence | done].
Qed.

Lemma main_consistent fl inputs :
  consistent (fst (main fl inputs)) (snd (main fl inputs)).
Proof.
  unfold consistent, main; simpl. split; [apply NoDup_keys_enumerate_from|].
  split; [done | apply keys_fresh].
Qed.

Lemma reachable_consistent fl inputs st :
  reachable fl inputs st -> consistent (fst (main fl inputs)) st.
Proof.
  induction 1 as [|ev now st Hr IH]; [apply main_consistent|].
  destruct IH as (Hnd & Hvd & Hmd). split; [done|]. split; [done|].
  by rewrite keys_step.
Qed.

Lemma reachable_NoDup fl inputs st :
  reachable fl inputs st -> NoDup (keys (metadata st)).
Proof.
  intros Hr. destruct (reachable_consistent _ _ _ Hr) as (Hnd & _ & Hmd).
  by rewrite Hmd.
Qed.

(** A property of every record that has a key is a property of every
    value. *)
Lemma Forall_values {V} (P : V -> Prop) (md : list (Z * V)) :
  NoDup (keys md) ->
  (forall k d, dict_get k md = Some d -> P d) -> Forall P (values md).
Proof.
  induction md as [|[k' d'] r IH]; simpl; [constructor|].
  intros Hnd Hall. apply NoDup_cons in Hnd as [Hk' Hnd]. constructor.
  - apply (Hall k'). by rewrite Z.eqb_refl.
  - apply IH; [done|]. intros k d Hget. apply (Hall k).
    destruct (k =? k') eqn:Ek; [|done]. apply Z.eqb_eq in Ek. subst k'.
    destruct Hk'. apply list_elem_of_In. by apply dict_get_Some_keys in Hget.
Qed.

(** No assignment to ["worker_id"] exists in the source: the entry keeps the
    [None] it starts with.  ["start_time"] is written together with the
    status ["downloading"] and never cleared. *)
Lemma job_move_inv srv now k d ev d' :
  job_move srv now k d ev d' ->
  worker_id d = None /\ (status d = downloading -> start_time d <> None) ->
  worker_id d' = None /\ (status d' = downloading -> start_time d' <> None).
Proof.
  intros Hm [Hw Ht]. destruct Hm; simpl; try done.
  unfold record_report, downloaded, download_failed; simpl.
  split.
  - by repeat case_match.
  - repeat case_match; simpl; try done.
Qed.

Lemma reachable_records fl inputs st :
  reachable fl inputs st ->
  forall k d, dict_get k (metadata st) = Some d ->
    worker_id d = None /\ (status d = downloading -> start_time d <> None).
Proof.
  induction 1 as [|ev now st Hr IH]; intros k d Hget.
  - apply dict_get_fresh in Hget. by subst d.
  - assert (exists d0, dict_get k (metadata st) = Some d0) as [d0 Hget0].
    { apply dict_get_keys. rewrite <- (keys_step (fst (main fl inputs)) ev now).
      by apply dict_get_Some_keys in Hget. }
    destruct (job_step (fst (main fl inputs)) ev now st k d0
                (reachable_NoDup _ _ _ Hr) Hget0) as (d' & Hget' & Hm).
    assert (d' = d) as -> by congruence.
    eapply job_move_inv; eauto.
Qed.

Lemma reachable_timestamped fl inputs st :
  reachable fl inputs st -> timestamped (metadata st).
Proof.
  intros Hr. apply Forall_values; [by eapply reachable_NoDup|].
  intros k d Hget. by apply (reachable_records _ _ _ Hr k d).
Qed.

(** ** An unhealthy worker and the videos it holds *)

Lemma redirect_unrecorded vs wid wmsg md :
  (forall k d, dict_get k md = Some d -> worker_id d = None) ->
  fst (redirect_downloads vs wid wmsg md) = md.
Proof.
  intros Hnone. induction vs as [|v vs IH]; simpl; [done|].
  destruct (dict_get v md) as [d|] eqn:Hv; [|done].
  unfold held_by. rewrite (Hnone v d Hv). by rewrite andb_false_r.
Qed.

(** In a run of the server the redirection loop never changes a record:
    no record ever names the worker that holds it. *)
Lemma unhealthy_poll_changes_nothing fl inputs st wid wstatus wmsg now :
  reachable fl inputs st -> wstatus <> "ok" ->
  metadata (step (fst (main fl inputs)) (poll wid wstatus wmsg) now st)
    = metadata st.
Proof.
  intros Hr Hne. simpl. unfold next_video_get; simpl.
  apply String.eqb_neq in Hne. rewrite Hne. simpl.
  pose proof (redirect_unrecorded (videos (fst (main fl inputs))) wid wmsg
                (metadata st)) as H.
  destruct (redirect_downloads _ _ _ _) as [md [e|]]; simpl in *; apply H;
    intros k d Hget; by apply (reachable_records _ _ _ Hr k d).
Qed.

(** C1 (the code departs from the claim).  Two videos; worker A is handed
    video 0 and worker B video 1; B then polls with worker_status = err.  B
    is told to stop, but video 1 is still downloading, with no retry counted
    and no error recorded, and the status query counts no waiting video:
    the record of video 1 never named B, so the loop of lines 42-46 passes
    it by. *)
Theorem C1_unhealthy_worker_keeps_its_video :
  let srv := fst (main (Flags 60 3) [url_payload "a"; url_payload "b"]) in
  let st0 := snd (main (Flags 60 3) [url_payload "a"; url_payload "b"]) in
  let st2 := run srv [(poll "A" "ok" no_message, 0); (poll "B" "ok" no_message, 1)] st0 in
  let st3 := step srv (poll "B" "err" "disk full") 2 st2 in
  reply srv (poll "B" "ok" no_message) 1 (step srv (poll "A" "ok" no_message) 0 st0)
    = Some (Returned {[ "_id" := JInt 1; "url" := JStr "b" ]}) /\
  reply srv (poll "B" "err" "disk full") 2 st2
    = Some (Returned {[ "finished" := JBool true ]}) /\
  dict_get 1 (metadata st3) = Some (VideoMeta downloading None 0 (Some 1) None None) /\
  r_waiting (get_status srv st3) = 0 /\
  r_downloading (get_status srv st3) = 2.
Proof. vm_compute. repeat split; reflexivity. Qed.

(** C2 (the code departs from the claim).  One video, handed to worker A:
    its record is downloading with the start time set, and its worker_id is
    still [None]. *)
Theorem C2_downloading_without_worker :
  let srv := fst (main (Flags 60 3) [url_payload "a"]) in
  let st0 := snd (main (Flags 60 3) [url_payload "a"]) in
  reachable (Flags 60 3) [url_payload "a"] (step srv (poll "A" "ok" no_message) 7 st0) /\
  dict_get 0 (metadata (step srv (poll "A" "ok" no_message) 7 st0))
    = Some (VideoMeta downloading None 0 (Some 7) None None).
Proof. split; [apply reachable_step, reachable_main | reflexivity]. Qed.

(** C6 (the code departs from the claim).  Three videos and a report for
    video 7: the lookup [metadata[video_id]] raises [KeyError] out of the
    handler, where the missing-field cases next to it return an
    {"error": ...} object.  No record and no worker entry changes. *)
Theorem C6_unknown_video_id_raises :
  let srv := fst (main (Flags 60 3) three_videos) in
  let st0 := snd (main (Flags 60 3) three_videos) in
  let st1 := step srv (poll "A" "ok" no_message) 0 st0 in
  next_video srv (POST (Some (Report (Some 7) (Some "ok") (Some "A") None None)))
    5 st1 = (st1, Raised KeyError) /\
  next_video srv (POST (Some (Report (Some 7) (Some "error") (Some "A") None None)))
    5 st1 = (st1, Raised KeyError).
Proof. split; reflexivity. Qed.

(** For any state: a report for an id that is not a key raises
    [KeyError] and changes nothing. *)
Lemma post_unknown_video_id srv st now r video_id rstatus wid :
  rep_video_id r = Some video_id -> rep_status r = Some rstatus ->
  rep_worker_id r = Some wid -> dict_get video_id (metadata st) = None ->
  next_video srv (POST (Some r)) now st = (st, Raised KeyError).
Proof.
  intros Hi Hs Hw Hget. simpl. unfold next_video_post.
  by rewrite Hi, Hs, Hw, Hget.
Qed.

(** ** Reports of failure *)

Lemma post_known srv st now r video_id rstatus wid d :
  rep_video_id r = Some video_id -> rep_status r = Some rstatus ->
  rep_worker_id r = Some wid -> dict_get video_id (metadata st) = Some d ->
  snd (next_video srv (POST (Some r)) now st)
    = Returned {[ "status" := JStr "ok" ]} /\
  dict_get video_id (metadata (fst (next_video srv (POST (Some r)) now st)))
    = Some (record_report (FLAGS_retries (FLAGS srv)) rstatus now d).
Proof.
  intros Hi Hs Hw Hget. simpl. unfold next_video_post.
  rewrite Hi, Hs, Hw, Hget. simpl. split; [done|].
  by rewrite dict_get_alter_eq, Hget.
Qed.

(** C3.  The scenario: three videos, max_retries = 1, one worker.  It is
    handed video 0, reports a failure (video 0 waits again, retries = 1), is
    handed video 0 again, reports the failure again (video 0 is failed), and
    the status query counts one failed video.  The rule: a report for a known
    video whose status is neither ok nor skipped puts the video back to
    waiting with one more retry and the error recorded when its retries are
    below max_retries, and makes it failed otherwise. *)
Theorem C3_bounded_retries :
  (let srv := fst (main (Flags 60 1) three_videos) in
   let st0 := snd (main (Flags 60 1) three_videos) in
   let st1 := step srv (poll "A" "ok" no_message) 10 st0 in
   let st2 := step srv (post 0 "error" "A") 20 st1 in
   let st3 := step srv (poll "A" "ok" no_message) 30 st2 in
   let st4 := step srv (post 0 "error" "A") 40 st3 in
   reply srv (poll "A" "ok" no_message) 10 st0
     = Some (Returned {[ "_id" := JInt 0; "url" := JStr "a" ]}) /\
   (status <$> dict_get 0 (metadata st2)) = Some waiting /\
   (retries <$> dict_get 0 (metadata st2)) = Some 1 /\
   reply srv (poll "A" "ok" no_message) 30 st2
     = Some (Returned {[ "_id" := JInt 0; "url" := JStr "a" ]}) /\
   (status <$> dict_get 0 (metadata st4)) = Some failed /\
   r_failed (get_status srv st4) = 1) /\
  (forall srv st now r video_id rstatus wid d,
     rep_video_id r = Some video_id -> rep_status r = Some rstatus ->
     rep_worker_id r = Some wid -> dict_get video_id (metadata st) = Some d ->
     rstatus <> "ok" -> rstatus <> "skipped" ->
     exists d',
       dict_get video_id
         (metadata (fst (next_video srv (POST (Some r)) now st))) = Some d' /\
       (retries d < FLAGS_retries (FLAGS srv) ->
        status d' = waiting /\ retries d' = retries d + 1 /\
        error d' = Some rstatus) /\
       (~ retries d < FLAGS_retries (FLAGS srv) ->
        status d' = failed /\ retries d' = retries d)).
Proof.
  split; [vm_compute; repeat split; reflexivity|].
  intros srv st now r video_id rstatus wid d Hi Hs Hw Hget Hok Hsk.
  destruct (post_known srv st now r video_id rstatus wid d Hi Hs Hw Hget)
    as [_ Hd].
  eexists. split; [exact Hd|].
  unfold record_report, download_failed.
  apply String.eqb_neq in Hok, Hsk. rewrite Hok, Hsk. simpl.
  destruct (retries d <? FLAGS_retries (FLAGS srv)) eqn:Hlt; simpl.
  - apply Z.ltb_lt in Hlt. split; [done | lia].
  - apply Z.ltb_ge in Hlt. split; [lia | done].
Qed.

(** The rule of C3 at a concrete report: video 0 of three, downloading with
    retries = 0 under max_retries = 1, is reported as failed. *)
Lemma C3_bounded_retries_witness :
  let srv := fst (main (Flags 60 1) three_videos) in
  let st1 := step srv (poll "A" "ok" no_message) 10 (snd (main (Flags 60 1) three_videos)) in
  exists d',
    dict_get 0
      (metadata (fst (next_video srv
         (POST (Some (Report (Some 0) (Some "error") (Some "A") None None)))
         20 st1))) = Some d' /\
    (0 < 1 -> status d' = waiting /\ retries d' = 0 + 1 /\
              error d' = Some "error") /\
    (~ 0 < 1 -> status d' = failed /\ retries d' = 0).
Proof.
  exact (proj2 C3_bounded_retries
           (fst (main (Flags 60 1) three_videos))
           (step (fst (main (Flags 60 1) three_videos)) (poll "A" "ok" no_message) 10
              (snd (main (Flags 60 1) three_videos)))
           20 (Report (Some 0) (Some "error") (Some "A") None None)
           0 "error" "A" (VideoMeta downloading None 0 (Some 10) None None)
           eq_refl eq_refl eq_refl eq_refl
           ltac:(discriminate) ltac:(discriminate)).
Defined.

(** ** The reclaim sweep *)

(** C4.  In a run of the server, a downloading video whose start time lies
    more than the timeout back is, after one sweep, waiting with one more
    retry and the timeout error, whatever its retries were; a sweep makes no
    video failed that was not failed before; and the sweep is the same under
    any value of max_retries. *)
Theorem C4_sweep_reclaims fl inputs st now k d t0 :
  reachable fl inputs st ->
  dict_get k (metadata st) = Some d ->
  status d = downloading -> start_time d = Some t0 ->
  now - t0 > FLAGS_timeout fl ->
  let srv := fst (main fl inputs) in
  (exists d',
     dict_get k (metadata (step srv Sweep now st)) = Some d' /\
     status d' = waiting /\ retries d' = retries d + 1 /\
     error d' = Some "Timeout waiting on worker") /\
  (forall k2 d2,
     dict_get k2 (metadata (step srv Sweep now st)) = Some d2 ->
     status d2 = failed -> dict_get k2 (metadata st) = Some d2) /\
  (forall max_retries,
     step (Server (Flags (FLAGS_timeout fl) max_retries)
             (video_data srv) (videos srv)) Sweep now st
     = step srv Sweep now st).
Proof.
  intros Hr Hget Hs Ht Hlt srv. simpl.
  rewrite (check_and_retry_timestamped _ _ _ (reachable_timestamped _ _ _ Hr)).
  simpl. split; [|split; [|done]].
  - rewrite dict_get_map, Hget. simpl. eexists. split; [done|].
    unfold swept, is_downloading. rewrite Ht, Hs. simpl.
    assert ((now - t0 >? FLAGS_timeout fl) = true) as -> by (apply Z.gtb_lt; lia).
    done.
  - intros k2 d2. rewrite dict_get_map.
    destruct (dict_get k2 (metadata st)) as [d0|]; simpl; [|done].
    intros [= <-]. unfold swept.
    destruct (start_time d0); [|done].
    by destruct (is_downloading d0 && _).
Qed.

(** C4 at a concrete run: max_retries = 0, one video handed out at time 0 and
    swept at time 61 under a timeout of 60. *)
Lemma C4_sweep_reclaims_witness :
  let srv := fst (main (Flags 60 0) [url_payload "a"]) in
  let st1 := step srv (poll "A" "ok" no_message) 0 (snd (main (Flags 60 0) [url_payload "a"])) in
  (exists d',
     dict_get 0 (metadata (step srv Sweep 61 st1)) = Some d' /\
     status d' = waiting /\ retries d' = 0 + 1 /\
     error d' = Some "Timeout waiting on worker") /\
  (forall k2 d2,
     dict_get k2 (metadata (step srv Sweep 61 st1)) = Some d2 ->
     status d2 = failed -> dict_get k2 (metadata st1) = Some d2) /\
  (forall max_retries,
     step (Server (Flags 60 max_retries) (video_data srv) (videos srv))
       Sweep 61 st1
     = step srv Sweep 61 st1).
Proof.
  exact (C4_sweep_reclaims (Flags 60 0) [url_payload "a"]
           (step (fst (main (Flags 60 0) [url_payload "a"])) (poll "A" "ok" no_message) 0
              (snd (main (Flags 60 0) [url_payload "a"])))
           61 0 (VideoMeta downloading None 0 (Some 0) None None) 0
           (reachable_step _ _ _ _ _ (reachable_main _ _))
           eq_refl eq_refl eq_refl ltac:(simpl; lia)).
Defined.

(** ** The status route *)

Lemma count_cons p k d md :
  count p ((k, d) :: md) = (if p d then 1 else 0) + count p md.
Proof. unfold count. simpl. destruct (p d); simpl length; lia. Qed.

Lemma count_nonneg p md : 0 <= count p md.
Proof. unfold count. lia. Qed.

Lemma count_zero p md :
  count p md = 0 <-> Forall (fun d => p d = false) (values md).
Proof.
  induction md as [|[k d] r IH].
  - split; [constructor | reflexivity].
  - rewrite count_cons. simpl. rewrite Forall_cons. rewrite <- IH.
    pose proof (count_nonneg p r).
    destruct (p d); split; try lia; try tauto; intros [? ?]; try lia; discriminate.
Qed.

Lemma videos_with_cons P `{!forall s, Decision (P s)} k d md :
  videos_with P ((k, d) :: md)
    = (if decide (P (status d)) then 1 else 0) + videos_with P md.
Proof.
  unfold videos_with. simpl. rewrite filter_cons.
  destruct (decide (P (status d))); simpl length; lia.
Qed.

Lemma in_statuses_true l d : in_statuses l d = true <-> In (status d) l.
Proof.
  unfold in_statuses. rewrite existsb_exists. split.
  - intros (s & Hin & Heq). apply status_eqb_eq in Heq. by subst.
  - intros Hin. exists (status d). split; [done | by apply status_eqb_eq].
Qed.

(** C5.  The done flag of the status reply holds exactly when no video is
    waiting and none is downloading: as a statement about the records, about
    the two counts of the same reply, and as every video being finished,
    skipped or failed. *)
Theorem C5_done_iff srv st :
  (r_done (get_status srv st) = true <->
   Forall (fun d => status d <> waiting /\ status d <> downloading)
     (values (metadata st))) /\
  (r_done (get_status srv st) = true <->
   r_waiting (get_status srv st) = 0 /\
   r_downloading (get_status srv st) = 0) /\
  (r_done (get_status srv st) = true <->
   Forall (fun d => terminal (status d)) (values (metadata st))).
Proof.
  simpl. generalize (metadata st) as md. intros md.
  assert (forallb (fun v => negb (in_statuses [waiting; downloading] v))
            (values md) = true <->
          Forall (fun d => status d <> waiting /\ status d <> downloading)
            (values md)) as Hdone.
  { rewrite forallb_forall, Forall_forall. split; intros H d Hd.
    - apply list_elem_of_In, H in Hd. unfold in_statuses in Hd. simpl in Hd.
      destruct (status d); simpl in Hd; try discriminate; split; congruence.
    - apply list_elem_of_In, H in Hd. destruct Hd as [Hw Hd].
      unfold in_statuses. simpl. by destruct (status d). }
  split; [exact Hdone|]. rewrite Hdone. split.
  - rewrite !count_zero, <- Forall_and. apply Forall_iff. intros d.
    unfold is_waiting, is_downloading. rewrite !status_eqb_neq. tauto.
  - apply Forall_iff. intros d. unfold terminal.
    destruct (status d); split; try tauto; intros H;
      try (destruct H as [H|[H|H]]; discriminate); try (split; congruence);
      destruct H; congruence.
Qed.

Lemma length_keys {V} (md : list (Z * V)) : length (keys md) = length md.
Proof. unfold keys. apply length_map. Qed.

Lemma count_partition md :
  count (in_statuses [finished; skipped; failed]) md + count is_waiting md
    + count is_downloading md = Z.of_nat (length md).
Proof.
  induction md as [|[k d] r IH]; [reflexivity|].
  rewrite !count_cons. cbn [length]. rewrite Nat2Z.inj_succ.
  set (a := count _ r) in *. set (b := count is_waiting r) in *.
  set (c := count is_downloading r) in *.
  unfold in_statuses, is_waiting, is_downloading.
  destruct (status d); simpl; lia.
Qed.

Lemma count_finished_split md :
  count (in_statuses [finished; skipped; failed]) md
    = videos_with (eq finished) md + count (in_statuses [skipped]) md
      + count (in_statuses [failed]) md.
Proof.
  induction md as [|[k d] r IH]; [reflexivity|].
  rewrite !count_cons, videos_with_cons, IH.
  set (a := videos_with _ r). set (b := count _ r). set (c := count _ r).
  unfold in_statuses.
  destruct (status d); simpl; lia.
Qed.

Lemma count_finished_terminal md :
  count (in_statuses [finished; skipped; failed]) md = videos_with terminal md.
Proof.
  induction md as [|[k d] r IH]; [reflexivity|].
  rewrite !count_cons, videos_with_cons, IH.
  set (a := videos_with _ r).
  unfold in_statuses, terminal.
  destruct (status d); simpl; lia.
Qed.

(** C10.  In a run of the server the finished count of the status reply is
    the number of videos that are finished, skipped or failed: it is the
    successfully finished ones plus the skipped and failed counts of the same
    reply, and it is total minus waiting minus downloading. *)
Theorem C10_finished_count fl inputs st :
  reachable fl inputs st ->
  let rep := get_status (fst (main fl inputs)) st in
  r_finished rep = videos_with terminal (metadata st) /\
  r_finished rep
    = videos_with (eq finished) (metadata st) + r_skipped rep + r_failed rep /\
  r_finished rep = r_total rep - r_waiting rep - r_downloading rep.
Proof.
  intros Hr rep. subst rep. unfold get_status.
  cbn [r_finished r_total r_waiting r_downloading r_skipped r_failed].
  split; [apply count_finished_terminal|]. split; [apply count_finished_split|].
  destruct (reachable_consistent _ _ _ Hr) as (_ & _ & Hk).
  rewrite <- Hk, length_keys.
  pose proof (count_partition (metadata st)). lia.
Qed.

(** C10 at a concrete run: three videos, one finished, one skipped, one
    handed out. *)
Lemma C10_finished_count_witness :
  let srv := fst (main (Flags 60 3) three_videos) in
  let st := run srv [(poll "A" "ok" no_message, 0); (post 0 "ok" "A", 1);
                     (poll "A" "ok" no_message, 2); (post 1 "skipped" "A", 3);
                     (poll "A" "ok" no_message, 4)]
              (snd (main (Flags 60 3) three_videos)) in
  let rep := get_status srv st in
  r_finished rep = videos_with terminal (metadata st) /\
  r_finished rep
    = videos_with (eq finished) (metadata st) + r_skipped rep + r_failed rep /\
  r_finished rep = r_total rep - r_waiting rep - r_downloading rep.
Proof.
  exact (C10_finished_count (Flags 60 3) three_videos _
           (reachable_step _ _ _ _ _ (reachable_step _ _ _ _ _
             (reachable_step _ _ _ _ _ (reachable_step _ _ _ _ _
               (reachable_step _ _ _ _ _ (reachable_main _ _))))))).
Defined.

(** ** Malformed reports *)

(** A body that is null, or a JSON object that lacks video_id, status or
    worker_id, is answered with an {"error": reason} object, and neither the
    records nor the worker entries change. *)
Lemma malformed_report_rejected srv st now data :
  malformed data ->
  exists reason,
    next_video srv (POST data) now st
      = (st, Returned {[ "error" := JStr reason ]}) /\
    In reason ["No data provided"; "No video_id provided";
               "No status provided"; "No worker_id provided"].
Proof.
  intros Hbad. simpl. unfold next_video_post, error_reply.
  destruct data as [r|];
    [|exists "No data provided"; split; [reflexivity | simpl; tauto]].
  simpl in Hbad.
  destruct (rep_video_id r) as [video_id|];
    [|exists "No video_id provided"; split; [reflexivity | simpl; tauto]].
  destruct (rep_status r) as [rstatus|];
    [|exists "No status provided"; split; [reflexivity | simpl; tauto]].
  destruct (rep_worker_id r) as [wid|];
    [|exists "No worker_id provided"; split; [reflexivity | simpl; tauto]].
  by destruct Hbad as [?|[?|?]].
Qed.

(** C9 (the code departs from the claim).  Three videos, video 0 handed
    out.  A POST with no JSON body at all does not reach the test
    [if data is None] of line 72, which would answer
    {"error": "No data provided"}: [request.get_json()] raises at line 71,
    and the caller gets an HTTP error page and no {"error": reason} object.
    A body that is a number or a boolean raises [TypeError] at line 74.  Only
    the body null gets the answer written for a missing body.  None of
    these requests, and no other body that is not a JSON object, changes a
    record or a worker entry. *)
Theorem C9_no_json_body_raises :
  let srv := fst (main (Flags 60 3) three_videos) in
  let st1 := step srv (poll "A" "ok" no_message) 0
               (snd (main (Flags 60 3) three_videos)) in
  next_video srv (POST_other NotJson) 1 st1 = (st1, Raised BadRequest) /\
  next_video srv (POST_other JsonScalar) 1 st1 = (st1, Raised TypeError) /\
  next_video srv (POST None) 1 st1
    = (st1, Returned {[ "error" := JStr "No data provided" ]}) /\
  (forall body now st, fst (next_video srv (POST_other body) now st) = st).
Proof.
  intros srv st1. split; [reflexivity|]. split; [reflexivity|].
  split; [reflexivity|]. intros body now st. apply post_other_state.
Qed.

(** ** Status transitions *)

Lemma status_record_report max_retries rstatus now d :
  status (record_report max_retries rstatus now d)
    = reported_status max_retries rstatus (retries d).
Proof.
  unfold record_report, reported_status, downloaded, download_failed.
  destruct (decide (rstatus = "ok")) as [->|Hok]; [done|].
  apply String.eqb_neq in Hok. rewrite Hok. simpl.
  destruct (decide (rstatus = "skipped")) as [->|Hsk]; [done|].
  apply String.eqb_neq in Hsk. rewrite Hsk. simpl.
  destruct (decide (retries d < max_retries)) as [Hlt|Hge].
  - apply Z.ltb_lt in Hlt. by rewrite Hlt.
  - assert ((retries d <? max_retries) = false) as -> by (apply Z.ltb_ge; lia).
    done.
Qed.

(** C7 (what fails).  Two videos.  Video 0 is handed out and reported ok,
    so it is finished; a second report for it, with status error, makes it
    waiting again with a retry counted, the error recorded and the end time
    moved.  And a report for video 1, which is still waiting, makes it
    finished without its ever having been downloading. *)
Lemma C7_finished_video_changes :
  let srv := fst (main (Flags 60 3) [url_payload "a"; url_payload "b"]) in
  let st0 := snd (main (Flags 60 3) [url_payload "a"; url_payload "b"]) in
  let st2 := run srv [(poll "A" "ok" no_message, 0); (post 0 "ok" "A", 1)] st0 in
  let st3 := step srv (post 0 "error" "A") 2 st2 in
  let st4 := step srv (post 1 "ok" "A") 3 st3 in
  dict_get 0 (metadata st2)
    = Some (VideoMeta finished None 0 (Some 0) (Some 1) None) /\
  dict_get 0 (metadata st3)
    = Some (VideoMeta waiting (Some "error") 1 (Some 0) (Some 2) None) /\
  dict_get 1 (metadata st3) = Some fresh_meta /\
  dict_get 1 (metadata st4)
    = Some (VideoMeta finished None 0 None (Some 3) None).
Proof. vm_compute. repeat split; reflexivity. Qed.

(** C7 (amended).  In a run of the server one event changes the record of a
    video in one of these ways only: not at all; from waiting to downloading,
    on a poll with worker_status = ok; from downloading to waiting, on a sweep
    or on a poll with another worker_status from the worker the record names
    as its owner; or, on a report that names the video, to the status the
    report gives it whatever its status was (finished for ok, skipped for
    skipped, otherwise waiting while retries are below max_retries and failed
    after).  So a finished, skipped or failed video is changed by no event
    other than a report that names it. *)
Theorem C7_status_transitions fl inputs st ev now k d :
  reachable fl inputs st ->
  dict_get k (metadata st) = Some d ->
  exists d',
    dict_get k (metadata (step (fst (main fl inputs)) ev now st)) = Some d' /\
    (d' = d \/
     (status d = waiting /\ status d' = downloading /\
      exists wid wmsg, ev = poll wid "ok" wmsg) \/
     (status d = downloading /\ status d' = waiting /\
      (ev = Sweep \/
       exists wid wstatus wmsg,
         ev = poll wid wstatus wmsg /\ wstatus <> "ok" /\
         worker_id d = Some wid)) \/
     (exists r rstatus,
        ev = Request (POST (Some r)) /\ rep_video_id r = Some k /\
        rep_status r = Some rstatus /\
        status d' = reported_status (FLAGS_retries fl) rstatus (retries d))) /\
    (terminal (status d) -> ~ names ev k -> d' = d).
Proof.
  intros Hr Hget.
  destruct (job_step (fst (main fl inputs)) ev now st k d
              (reachable_NoDup _ _ _ Hr) Hget) as (d' & Hget' & Hm).
  exists d'. split; [done|].
  destruct Hm as [ev|wid wmsg Hs|wid wstatus wmsg Hne Hs Hw|t0 Hs Ht Hlt
                  |r rstatus wid Hi Hrs Hw].
  - split; auto.
  - split; [right; left; eauto 6|].
    intros [H|[H|H]]; congruence.
  - split; [right; right; left; split; [done|]; split; [done|]; right;
            by exists wid, wstatus, wmsg|].
    intros [H|[H|H]]; congruence.
  - split; [right; right; left; auto|].
    intros [H|[H|H]]; congruence.
  - split.
    + right; right; right. exists r, rstatus. repeat split; try done.
      apply status_record_report.
    + intros _ Hn. destruct Hn. by exists r.
Qed.

(** C7 (amended) at a concrete event: the sweep at time 2 over two videos,
    the first of them finished. *)
Lemma C7_status_transitions_witness :
  let srv := fst (main (Flags 60 3) [url_payload "a"; url_payload "b"]) in
  let st0 := snd (main (Flags 60 3) [url_payload "a"; url_payload "b"]) in
  let st2 := step srv (post 0 "ok" "A") 1 (step srv (poll "A" "ok" no_message) 0 st0) in
  let d := VideoMeta finished None 0 (Some 0) (Some 1) None in
  exists d',
    dict_get 0 (metadata (step srv Sweep 2 st2)) = Some d' /\
    (d' = d \/
     (status d = waiting /\ status d' = downloading /\
      exists wid wmsg, Sweep = poll wid "ok" wmsg) \/
     (status d = downloading /\ status d' = waiting /\
      (Sweep = Sweep \/
       exists wid wstatus wmsg,
         Sweep = poll wid wstatus wmsg /\ wstatus <> "ok" /\
         worker_id d = Some wid)) \/
     (exists r rstatus,
        Sweep = Request (POST (Some r)) /\ rep_video_id r = Some 0 /\
        rep_status r = Some rstatus /\
        status d' = reported_status 3 rstatus (retries d))) /\
    (terminal (status d) -> ~ names Sweep 0 -> d' = d).
Proof.
  intros srv st0 st2 d.
  apply (C7_status_transitions (Flags 60 3) [url_payload "a"; url_payload "b"]
           st2 Sweep 2 0 d).
  - apply reachable_step, reachable_step, reachable_main.
  - reflexivity.
Defined.

(** ** Requests for work *)

Lemma existsb_is_waiting md :
  existsb is_waiting (values md) = true <-> some_waiting md.
Proof.
  unfold some_waiting. rewrite existsb_exists, Exists_exists.
  split; intros (d & Hin & Hd); exists d.
  - split; [by apply list_elem_of_In | by apply status_eqb_eq].
  - split; [by apply list_elem_of_In | by apply status_eqb_eq].
Qed.

Lemma existsb_is_downloading md :
  existsb is_downloading (values md) = true <-> some_downloading md.
Proof.
  unfold some_downloading. rewrite existsb_exists, Exists_exists.
  split; intros (d & Hin & Hd); exists d.
  - split; [by apply list_elem_of_In | by apply status_eqb_eq].
  - split; [by apply list_elem_of_In | by apply status_eqb_eq].
Qed.

Lemma output_data_payload k payload key v :
  payload !! key = Some v -> output_data k payload !! key = Some v.
Proof. intros H. unfold output_data. by apply lookup_union_Some_l. Qed.

Lemma output_data_id k payload :
  payload !! "_id" = None -> output_data k payload !! "_id" = Some (JInt k).
Proof.
  intros H. unfold output_data.
  rewrite lookup_union_r by done. apply lookup_singleton_eq.
Qed.

Lemma output_data_other k payload key :
  key <> "_id" -> output_data k payload !! key = payload !! key.
Proof.
  intros H. unfold output_data. apply lookup_union_l.
  by apply lookup_singleton_ne.
Qed.

(** C8 (the code departs from the claim).  One video whose payload has an
    "_id" entry of its own, 99.  The video handed out is video 0, and the
    "_id" of the reply is 99, not the id of the video: in
    [{"_id": next_video_id, **video_data[next_video_id]}] the payload
    entries are written last.  A worker reports the "_id" it was given, so
    its report names video 99, which the server does not have: the report
    raises [KeyError] and video 0 stays downloading.  With two videos, the
    first of which carries "_id" 1, the report for the first lands on the
    second: video 1, never handed out, is finished, and video 0 stays
    downloading. *)
Theorem C8_payload_id_wins :
  let inputs := [ ({[ "_id" := JInt 99; "url" := JStr "a" ]} : gmap string json) ] in
  let srv := fst (main (Flags 60 3) inputs) in
  let st0 := snd (main (Flags 60 3) inputs) in
  let st1 := step srv (poll "A" "ok" no_message) 5 st0 in
  let inputs' := [ ({[ "_id" := JInt 1; "url" := JStr "a" ]} : gmap string json);
                   url_payload "b" ] in
  let srv' := fst (main (Flags 60 3) inputs') in
  let st0' := snd (main (Flags 60 3) inputs') in
  let st1' := step srv' (poll "A" "ok" no_message) 5 st0' in
  let st2' := step srv' (post 1 "ok" "A") 6 st1' in
  next_waiting (metadata st0) = Some 0 /\
  (status <$> dict_get 0 (metadata st1)) = Some downloading /\
  reply srv (poll "A" "ok" no_message) 5 st0
    = Some (Returned {[ "_id" := JInt 99; "url" := JStr "a" ]}) /\
  reply srv (post 99 "ok" "A") 6 st1 = Some (Raised KeyError) /\
  (status <$> dict_get 0 (metadata (step srv (post 99 "ok" "A") 6 st1)))
    = Some downloading /\
  reply srv' (poll "A" "ok" no_message) 5 st0'
    = Some (Returned {[ "_id" := JInt 1; "url" := JStr "a" ]}) /\
  (status <$> dict_get 0 (metadata st1')) = Some downloading /\
  (status <$> dict_get 1 (metadata st1')) = Some waiting /\
  (status <$> dict_get 0 (metadata st2')) = Some downloading /\
  (status <$> dict_get 1 (metadata st2')) = Some finished.
Proof. vm_compute. repeat split; reflexivity. Qed.

(** In a run of the server, a poll with worker_status = ok records the
    worker and then: with no video waiting and one downloading it
    replies {"pending_finish": true}; with none waiting and none downloading
    it replies {"finished": true}; in both cases no record changes.
    Otherwise it takes the first waiting video of [metadata], makes it
    downloading with the start time set to the current time and error and end
    time cleared, changes no other record, and replies with an object that
    holds every entry of the video's payload and, unless the payload has an
    "_id" entry of its own, the video's id under "_id". *)
Lemma healthy_poll_reply fl inputs st wid wmsg now :
  reachable fl inputs st ->
  let srv := fst (main fl inputs) in
  let req := GET (GetArgs (Some wid) (Some "ok") (Some wmsg)) in
  let st' := fst (next_video srv req now st) in
  workers_seen st' = <[ wid := Worker now "ok" false wmsg ]> (workers_seen st) /\
  (~ some_waiting (metadata st) -> some_downloading (metadata st) ->
   snd (next_video srv req now st)
     = Returned {[ "pending_finish" := JBool true ]} /\
   metadata st' = metadata st) /\
  (~ some_waiting (metadata st) -> ~ some_downloading (metadata st) ->
   snd (next_video srv req now st) = Returned {[ "finished" := JBool true ]} /\
   metadata st' = metadata st) /\
  (some_waiting (metadata st) ->
   exists k d payload obj,
     next_waiting (metadata st) = Some k /\
     dict_get k (metadata st) = Some d /\ status d = waiting /\
     dict_get k (video_data srv) = Some payload /\
     dict_get k (metadata st')
       = Some (VideoMeta downloading None (retries d) (Some now) None
                 (worker_id d)) /\
     (forall k', k' <> k -> dict_get k' (metadata st') = dict_get k' (metadata st)) /\
     snd (next_video srv req now st) = Returned obj /\
     (forall key v, payload !! key = Some v -> obj !! key = Some v) /\
     (forall key, key <> "_id" -> obj !! key = payload !! key) /\
     (payload !! "_id" = None -> obj !! "_id" = Some (JInt k))).
Proof.
  intros Hr srv.
  pose proof (reachable_NoDup _ _ _ Hr) as Hnd.
  destruct (reachable_consistent _ _ _ Hr) as (_ & Hvd & Hmd).
  fold srv in Hvd, Hmd. clearbody srv.
  intros req st'. subst st' req. simpl. unfold next_video_get. simpl.
  destruct (existsb is_waiting (values (metadata st))) eqn:Ew; simpl.
  - apply existsb_is_waiting in Ew as Hsome.
    destruct (existsb_next_waiting _ Ew) as [k Hk]. rewrite Hk.
    destruct (next_waiting_get _ _ Hnd Hk) as (d & Hget & Hs).
    destruct (dict_get_keys k (video_data srv)) as [payload Hp].
    { rewrite Hvd, <- Hmd. by apply dict_get_Some_keys in Hget. }
    rewrite Hp. simpl.
    split; [done|]. split; [tauto|]. split; [tauto|].
    intros _. exists k, d, payload, (output_data k payload).
    split; [done|]. split; [done|]. split; [done|]. split; [done|].
    split; [by rewrite dict_get_alter_eq, Hget|].
    split; [intros k' Hne; by rewrite dict_get_alter_ne|].
    split; [done|].
    split; [apply output_data_payload|].
    split; [apply output_data_other | apply output_data_id].
  - assert (~ some_waiting (metadata st)) as Hnone.
    { rewrite <- existsb_is_waiting. congruence. }
    destruct (existsb is_downloading (values (metadata st))) eqn:Ed; simpl.
    + apply existsb_is_downloading in Ed.
      split; [done|]. split; [done|]. split; tauto.
    + assert (~ some_downloading (metadata st)) as Hidle.
      { rewrite <- existsb_is_downloading. congruence. }
      split; [done|]. split; [tauto|]. split; [done | tauto].
Qed.

(** ** Further properties *)

(** What a poll with a worker_status other than ok does, with the three
    dicts on the same keys: it is answered {"finished": true}, it registers
    the worker, and it goes through the loop of lines 42-46, after which
    every downloading record whose worker_id is the polling worker is
    waiting, with one more retry and the worker's message as error, and
    every other record is as it was. *)
Theorem unhealthy_poll_redirects_recorded srv st wid wstatus wmsg now :
  consistent srv st -> wstatus <> "ok" ->
  let res :=
    next_video srv (GET (GetArgs (Some wid) (Some wstatus) (Some wmsg))) now st in
  snd res = Returned {[ "finished" := JBool true ]} /\
  workers_seen (fst res)
    = <[ wid := Worker now wstatus false wmsg ]> (workers_seen st) /\
  forall k d, dict_get k (metadata st) = Some d ->
    dict_get k (metadata (fst res))
    = Some (if decide (status d = downloading /\ worker_id d = Some wid)
            then VideoMeta waiting (Some wmsg) (retries d + 1) (start_time d)
                   (end_time d) (worker_id d)
            else d).
Proof.
  intros (Hnd & _ & Hmd) Hne res. subst res. simpl. unfold next_video_get.
  simpl. apply String.eqb_neq in Hne. rewrite Hne. simpl.
  destruct (redirect_held (videos srv) wid wmsg (metadata st)) as [Hnone Hall].
  { intros v Hv. by rewrite Hmd. }
  pose proof (redirect_get (videos srv) wid wmsg (metadata st)) as Hget.
  destruct (redirect_downloads _ _ _ _) as [md e]. simpl in *. subst e.
  split; [done|]. split; [done|]. simpl. intros k d Hk.
  case_decide as Hheld.
  - destruct Hheld as [Hs Hw]. apply Hall; try done.
    + rewrite <- Hmd. by apply dict_get_Some_keys in Hk.
    + unfold held_by. rewrite Hw. apply String.eqb_refl.
  - destruct (Hget k d Hk) as [H|(Hs & Hh & _)]; [done|].
    destruct Hheld. split; [done | by apply held_by_worker_id].
Qed.

Lemma unhealthy_poll_redirects_recorded_witness :
  let srv := fst (main (Flags 60 3) three_videos) in
  let st1 := step srv (poll "B" "ok" no_message) 0
               (snd (main (Flags 60 3) three_videos)) in
  let res :=
    next_video srv (GET (GetArgs (Some "B") (Some "err") (Some "disk full"))) 2
      st1 in
  snd res = Returned {[ "finished" := JBool true ]} /\
  workers_seen (fst res)
    = <[ "B" := Worker 2 "err" false "disk full" ]> (workers_seen st1) /\
  forall k d, dict_get k (metadata st1) = Some d ->
    dict_get k (metadata (fst res))
    = Some (if decide (status d = downloading /\ worker_id d = Some "B")
            then VideoMeta waiting (Some "disk full") (retries d + 1)
                   (start_time d) (end_time d) (worker_id d)
            else d).
Proof.
  intros srv st1.
  apply (unhealthy_poll_redirects_recorded srv st1 "B" "err" "disk full" 2).
  - apply (reachable_consistent (Flags 60 3) three_videos).
    apply reachable_step, reachable_main.
  - discriminate.
Defined.

(** In a run of the server no record ever has a worker_id, and every
    downloading record has its start time set. *)
Theorem records_in_a_run fl inputs st k d :
  reachable fl inputs st -> dict_get k (metadata st) = Some d ->
  worker_id d = None /\ (status d = downloading -> start_time d <> None).
Proof. intros Hr Hget. by apply (reachable_records _ _ _ Hr k d). Qed.

Lemma records_in_a_run_witness :
  let srv := fst (main (Flags 60 3) three_videos) in
  let d := VideoMeta downloading None 0 (Some 4) None None in
  worker_id d = None /\ (status d = downloading -> start_time d <> None).
Proof.
  intros srv d.
  apply (records_in_a_run (Flags 60 3) three_videos
           (step srv (poll "A" "ok" no_message) 4
              (snd (main (Flags 60 3) three_videos))) 0 d).
  - apply reachable_step, reachable_main.
  - reflexivity.
Defined.



(** ** The worker registry *)

Lemma run_nil srv st : run srv [] st = st.
Proof. reflexivity. Qed.

Lemma run_cons srv ev now evs st :
  run srv ((ev, now) :: evs) st = run srv evs (step srv ev now st).
Proof. reflexivity. Qed.

Lemma run_snoc srv ev now evs st :
  run srv (evs ++ [(ev, now)])%list st = step srv ev now (run srv evs st).
Proof. unfold run. by rewrite fold_left_app. Qed.

Lemma reachable_run_from fl inputs evs st :
  reachable fl inputs st -> reachable fl inputs (run (fst (main fl inputs)) evs st).
Proof.
  revert st. induction evs as [|[ev now] evs IH]; intros st Hr; [done|].
  rewrite run_cons. apply IH. by constructor.
Qed.

Lemma reachable_run fl inputs evs :
  reachable fl inputs (run (fst (main fl inputs)) evs (snd (main fl inputs))).
Proof. apply reachable_run_from. constructor. Qed.

Lemma workers_seen_get srv wid wstatus wmsg now st :
  workers_seen
    (fst (next_video srv (GET (GetArgs (Some wid) (Some wstatus) (Some wmsg)))
            now st))
  = <[ wid := Worker now wstatus false wmsg ]> (workers_seen st).
Proof.
  simpl. unfold next_video_get. simpl.
  destruct (String.eqb wstatus "ok"); simpl.
  - destruct (existsb is_waiting (values (metadata st))); simpl.
    + destruct (next_waiting (metadata st)) as [k|]; [|done].
      by destruct (dict_get k (video_data srv)).
    + by destruct (existsb is_downloading (values (metadata st))).
  - by destruct (redirect_downloads _ _ _ _) as [? []].
Qed.

Lemma dom_update_worker r wid now (ws : gmap string worker) :
  dom (update_worker r wid now ws) = dom ws.
Proof.
  unfold update_worker. destruct (ws !! wid) as [w|] eqn:Hw; [|done].
  apply dom_insert_lookup_L. by rewrite Hw.
Qed.

Lemma workers_seen_post srv data now st :
  workers_seen (fst (next_video srv (POST data) now st)) = workers_seen st \/
  exists r wid,
    workers_seen (fst (next_video srv (POST data) now st))
      = update_worker r wid now (workers_seen st).
Proof.
  simpl. unfold next_video_post.
  destruct data as [r|]; [|by left].
  destruct (rep_video_id r) as [video_id|]; [|by left].
  destruct (rep_status r) as [rstatus|]; [|by left].
  destruct (rep_worker_id r) as [wid|]; [|by left].
  destruct (dict_get video_id (metadata st)); [|by left].
  right. by exists r, wid.
Qed.

Lemma dom_step srv ev now st :
  dom (workers_seen (step srv ev now st))
  = dom (workers_seen st) ∪ from_option singleton ∅ (poller ev).
Proof.
  destruct ev as [[a|data|body]|]; simpl poller.
  - destruct a as [[wid|] [wstatus|] [wmsg|]]; simpl from_option;
      try (simpl; by rewrite (right_id_L ∅ (∪))).
    unfold step. rewrite workers_seen_get, dom_insert_L.
    apply (comm_L (∪)).
  - simpl from_option. unfold step. rewrite (right_id_L ∅ (∪)).
    destruct (workers_seen_post srv data now st) as [->|(r & wid & ->)];
      [done | apply dom_update_worker].
  - simpl. by rewrite post_other_state, (right_id_L ∅ (∪)).
  - simpl. by rewrite (right_id_L ∅ (∪)).
Qed.

Lemma polled_cons ev now evs :
  polled ((ev, now) :: evs) = from_option singleton ∅ (poller ev) ∪ polled evs.
Proof.
  unfold polled. simpl. destruct (poller ev); simpl; [done|].
  by rewrite (left_id_L ∅ (∪)).
Qed.

Lemma dom_run srv evs st :
  dom (workers_seen (run srv evs st)) = dom (workers_seen st) ∪ polled evs.
Proof.
  revert st. induction evs as [|[ev now] evs IH]; intros st.
  - unfold polled. simpl. by rewrite (right_id_L ∅ (∪)).
  - rewrite run_cons, IH, dom_step, polled_cons. by rewrite (assoc_L (∪)).
Qed.

Lemma notified_step srv ev now st :
  map_Forall (fun _ w => notified_finished w = false) (workers_seen st) ->
  map_Forall (fun _ w => notified_finished w = false)
    (workers_seen (step srv ev now st)).
Proof.
  intros Hall. destruct ev as [[a|data|body]|]; [| | |done].
  3: { simpl. by rewrite post_other_state. }
  - destruct a as [[wid|] [wstatus|] [wmsg|]]; try done.
    unfold step. rewrite workers_seen_get. by apply map_Forall_insert_2.
  - unfold step.
    destruct (workers_seen_post srv data now st) as [->|(r & wid & ->)];
      [done|].
    unfold update_worker. destruct (workers_seen st !! wid) as [w|] eqn:Hw;
      [|done].
    apply map_Forall_insert_2; [|done]. simpl. by apply (Hall wid w).
Qed.

Lemma notified_run srv evs st :
  map_Forall (fun _ w => notified_finished w = false) (workers_seen st) ->
  map_Forall (fun _ w => notified_finished w = false)
    (workers_seen (run srv evs st)).
Proof.
  revert st. induction evs as [|[ev now] evs IH]; intros st Hst; [done|].
  rewrite run_cons. apply IH. by apply notified_step.
Qed.

(** The workers the server knows are exactly those that have polled it with
    all three query arguments: a report, a sweep or a rejected poll never
    adds an entry, and no entry is ever removed.  In every entry
    notified_finished is false. *)
Theorem registered_workers_are_the_pollers fl inputs evs :
  let st := run (fst (main fl inputs)) evs (snd (main fl inputs)) in
  dom (workers_seen st) = polled evs /\
  map_Forall (fun _ w => notified_finished w = false) (workers_seen st).
Proof.
  simpl. split.
  - rewrite dom_run. simpl. by rewrite dom_empty_L, (left_id_L ∅ (∪)).
  - apply notified_run. simpl. apply map_Forall_empty.
Qed.

(** ** Rejected polls *)

(** A poll that lacks worker_id, worker_status or worker_message raises out
    of the handler before anything is written: no record changes and the
    worker is not registered. *)
Theorem poll_missing_argument srv a now st :
  arg_worker_id a = None \/ arg_worker_status a = None \/
  arg_worker_message a = None ->
  next_video srv (GET a) now st = (st, Raised BadRequestKeyError).
Proof.
  intros H. simpl. unfold next_video_get.
  destruct a as [[wid|] [wstatus|] [wmsg|]]; simpl in *; try done.
  by destruct H as [?|[?|?]].
Qed.

Lemma poll_missing_argument_witness :
  let srv := fst (main (Flags 60 3) three_videos) in
  let st := snd (main (Flags 60 3) three_videos) in
  next_video srv (GET (GetArgs (Some "A") (Some "ok") None)) 0 st
    = (st, Raised BadRequestKeyError).
Proof.
  intros srv st.
  apply (poll_missing_argument srv (GetArgs (Some "A") (Some "ok") None) 0 st).
  right. right. reflexivity.
Defined.

(** ** Retries *)

Lemma job_move_retries srv now k d ev d' :
  job_move srv now k d ev d' -> retries d <= retries d' <= retries d + 1.
Proof.
  intros Hm. destruct Hm; simpl; try lia.
  unfold record_report, downloaded, download_failed; simpl.
  repeat case_match; simpl; lia.
Qed.

(** The retry counter of a video never goes down and never jumps: one event
    leaves it as it is or adds one, and it is never negative. *)
Theorem retries_only_grow fl inputs st ev now k d :
  reachable fl inputs st ->
  dict_get k (metadata st) = Some d ->
  0 <= retries d /\
  exists d',
    dict_get k (metadata (step (fst (main fl inputs)) ev now st)) = Some d' /\
    retries d <= retries d' <= retries d + 1.
Proof.
  intros Hr Hget. split.
  - clear ev now. revert k d Hget.
    induction Hr as [|ev now st Hr IH]; intros k d Hget.
    + apply dict_get_fresh in Hget. by subst d.
    + assert (exists d0, dict_get k (metadata st) = Some d0) as [d0 Hget0].
      { apply dict_get_keys.
        rewrite <- (keys_step (fst (main fl inputs)) ev now).
        by apply dict_get_Some_keys in Hget. }
      destruct (job_step (fst (main fl inputs)) ev now st k d0
                  (reachable_NoDup _ _ _ Hr) Hget0) as (d' & Hget' & Hm).
      assert (d' = d) as -> by congruence.
      pose proof (IH k d0 Hget0). apply job_move_retries in Hm. lia.
  - destruct (job_step (fst (main fl inputs)) ev now st k d
                (reachable_NoDup _ _ _ Hr) Hget) as (d' & Hget' & Hm).
    exists d'. split; [done|]. by eapply job_move_retries.
Qed.

Lemma retries_only_grow_witness :
  let srv := fst (main (Flags 60 3) three_videos) in
  let st1 := step srv (poll "A" "ok" no_message) 0
               (snd (main (Flags 60 3) three_videos)) in
  let d := VideoMeta downloading None 0 (Some 0) None None in
  0 <= retries d /\
  exists d',
    dict_get 0 (metadata (step srv (post 0 "error" "A") 9 st1)) = Some d' /\
    retries d <= retries d' <= retries d + 1.
Proof.
  intros srv st1 d.
  apply (retries_only_grow (Flags 60 3) three_videos st1
           (post 0 "error" "A") 9 0 d).
  - apply reachable_step, reachable_main.
  - reflexivity.
Defined.

(** ** More on the sweep *)

Lemma swept_idem timeout now d :
  swept timeout now (swept timeout now d) = swept timeout now d.
Proof.
  unfold swept at 2 3. destruct (start_time d) as [t0|] eqn:Ht.
  - destruct (is_downloading d && (now - t0 >? timeout)) eqn:Hc.
    + unfold swept. simpl. by rewrite Ht.
    + unfold swept. by rewrite Ht, Hc.
  - unfold swept. by rewrite Ht.
Qed.

(** The sweep spares what is not overdue: a record that is not downloading,
    or whose start time lies at most the timeout back (a video exactly at the
    timeout is not reclaimed), is left as it is, and the worker registry is
    not touched. *)
Theorem sweep_spares_the_rest fl inputs st now k d :
  reachable fl inputs st ->
  dict_get k (metadata st) = Some d ->
  (status d <> downloading \/
   exists t0, start_time d = Some t0 /\ now - t0 <= FLAGS_timeout fl) ->
  dict_get k (metadata (step (fst (main fl inputs)) Sweep now st)) = Some d /\
  workers_seen (step (fst (main fl inputs)) Sweep now st) = workers_seen st.
Proof.
  intros Hr Hget Hcase. split; [|done]. simpl.
  rewrite (check_and_retry_timestamped _ _ _ (reachable_timestamped _ _ _ Hr)).
  simpl. rewrite dict_get_map, Hget. simpl. f_equal.
  unfold swept, is_downloading. destruct Hcase as [Hs|(t0 & Ht & Hle)].
  - apply status_eqb_neq in Hs. rewrite Hs. by destruct (start_time d).
  - rewrite Ht. assert ((now - t0 >? FLAGS_timeout fl) = false) as ->.
    { rewrite Z.gtb_ltb. apply Z.ltb_ge. lia. }
    by rewrite andb_false_r.
Qed.

Lemma sweep_spares_the_rest_witness :
  let srv := fst (main (Flags 60 3) three_videos) in
  let st1 := step srv (poll "A" "ok" no_message) 0
               (snd (main (Flags 60 3) three_videos)) in
  let d := VideoMeta downloading None 0 (Some 0) None None in
  dict_get 0 (metadata (step srv Sweep 60 st1)) = Some d /\
  workers_seen (step srv Sweep 60 st1) = workers_seen st1.
Proof.
  intros srv st1 d.
  apply (sweep_spares_the_rest (Flags 60 3) three_videos st1 60 0 d).
  - apply reachable_step, reachable_main.
  - reflexivity.
  - right. exists 0. split; [reflexivity | simpl; lia].
Defined.

(** Sweeping twice at the same time is sweeping once, and after a sweep no
    downloading video is overdue. *)
Theorem sweep_settles fl inputs st now :
  reachable fl inputs st ->
  let srv := fst (main fl inputs) in
  step srv Sweep now (step srv Sweep now st) = step srv Sweep now st /\
  forall k d t0,
    dict_get k (metadata (step srv Sweep now st)) = Some d ->
    status d = downloading -> start_time d = Some t0 ->
    now - t0 <= FLAGS_timeout fl.
Proof.
  intros Hr srv.
  assert (reachable fl inputs (step srv Sweep now st)) as Hr' by by constructor.
  split.
  - unfold step at 1. simpl metadata.
    rewrite (check_and_retry_timestamped _ _ _ (reachable_timestamped _ _ _ Hr')).
    simpl.
    rewrite (check_and_retry_timestamped _ _ _ (reachable_timestamped _ _ _ Hr)).
    simpl. f_equal. rewrite map_map. apply map_ext. intros [k d].
    by rewrite swept_idem.
  - intros k d t0. simpl.
    rewrite (check_and_retry_timestamped _ _ _ (reachable_timestamped _ _ _ Hr)).
    simpl. rewrite dict_get_map.
    destruct (dict_get k (metadata st)) as [d0|]; simpl; [|done].
    intros [= <-]. unfold swept.
    destruct (start_time d0) as [t|] eqn:Ht.
    + destruct (is_downloading d0 && (now - t >? FLAGS_timeout fl)) eqn:Hc.
      * done.
      * intros Hs Ht'. assert (t = t0) as -> by congruence.
        unfold is_downloading in Hc. rewrite Hs in Hc. simpl in Hc.
        rewrite Z.gtb_ltb in Hc. apply Z.ltb_ge in Hc. lia.
    + congruence.
Qed.

Lemma sweep_settles_witness :
  let srv := fst (main (Flags 60 3) three_videos) in
  let st1 := step srv (poll "A" "ok" no_message) 0
               (snd (main (Flags 60 3) three_videos)) in
  step srv Sweep 100 (step srv Sweep 100 st1) = step srv Sweep 100 st1 /\
  forall k d t0,
    dict_get k (metadata (step srv Sweep 100 st1)) = Some d ->
    status d = downloading -> start_time d = Some t0 ->
    100 - t0 <= 60.
Proof.
  intros srv st1.
  apply (sweep_settles (Flags 60 3) three_videos st1 100).
  apply reachable_step, reachable_main.
Defined.

(** ** Start-up *)

Lemma keys_enumerate_from {A} (l : list A) n :
  keys (enumerate_from n l) = seqZ n (Z.of_nat (length l)).
Proof.
  revert n. induction l as [|x r IH]; intros n; [reflexivity|].
  cbn [enumerate_from keys map fst length]. fold (keys (enumerate_from (n + 1) r)).
  rewrite IH, (seqZ_cons n) by lia. f_equal. f_equal; lia.
Qed.

Lemma dict_get_enumerate_from {A} (l : list A) n k :
  dict_get k (enumerate_from n l)
  = if decide (n <= k) then l !! Z.to_nat (k - n) else None.
Proof.
  revert n. induction l as [|x r IH]; intros n; simpl.
  - by case_decide.
  - destruct (k =? n) eqn:E.
    + apply Z.eqb_eq in E. subst k. rewrite decide_True by lia.
      by rewrite Z.sub_diag.
    + apply Z.eqb_neq in E. rewrite IH.
      destruct (decide (n <= k)) as [Hle|Hgt].
      * rewrite decide_True by lia.
        replace (Z.to_nat (k - n)) with (S (Z.to_nat (k - (n + 1)))) by lia.
        done.
      * by rewrite decide_False by lia.
Qed.

Lemma count_fresh p (vs : list Z) :
  count p (map (fun k => (k, fresh_meta)) vs)
  = if p fresh_meta then Z.of_nat (length vs) else 0.
Proof.
  induction vs as [|v vs IH]; [by destruct (p fresh_meta)|].
  cbn [map]. rewrite count_cons, IH. cbn [length].
  destruct (p fresh_meta); lia.
Qed.

(** Videos are numbered by their position in the input list, and stay so:
    in every state of a run [metadata] has the ids 0 .. N-1 in increasing
    order, video [k] carries the [k]-th payload of the input, and the total
    of the status reply is N. *)
Theorem ids_are_input_positions fl inputs st :
  reachable fl inputs st ->
  let srv := fst (main fl inputs) in
  keys (metadata st) = seqZ 0 (Z.of_nat (length inputs)) /\
  (forall k, dict_get k (video_data srv)
             = if decide (0 <= k) then inputs !! Z.to_nat k else None) /\
  r_total (get_status srv st) = Z.of_nat (length inputs).
Proof.
  intros Hr srv.
  destruct (reachable_consistent _ _ _ Hr) as (_ & Hvd & Hmd).
  fold srv in Hvd, Hmd. split; [|split].
  - rewrite Hmd, <- Hvd. apply keys_enumerate_from.
  - intros k. unfold srv. simpl. unfold enumerate.
    rewrite dict_get_enumerate_from. by rewrite Z.sub_0_r.
  - unfold get_status. cbn [r_total]. rewrite <- Hvd, length_keys.
    unfold srv. simpl. unfold enumerate.
    rewrite <- (length_keys (enumerate_from 0 inputs)), keys_enumerate_from.
    rewrite length_seqZ. lia.
Qed.

Lemma ids_are_input_positions_witness :
  let srv := fst (main (Flags 60 3) three_videos) in
  let st1 := step srv (poll "A" "ok" no_message) 0
               (snd (main (Flags 60 3) three_videos)) in
  keys (metadata st1) = seqZ 0 (Z.of_nat (length three_videos)) /\
  (forall k, dict_get k (video_data srv)
             = if decide (0 <= k) then three_videos !! Z.to_nat k else None) /\
  r_total (get_status srv st1) = Z.of_nat (length three_videos).
Proof.
  intros srv st1.
  apply (ids_are_input_positions (Flags 60 3) three_videos st1).
  apply reachable_step, reachable_main.
Defined.

(** The status reply of a server that has just started: every video is
    waiting, nothing else is counted, no worker is known, and the server is
    done exactly when the input list is empty. *)
Theorem status_at_start fl inputs :
  let rep := get_status (fst (main fl inputs)) (snd (main fl inputs)) in
  r_total rep = Z.of_nat (length inputs) /\
  r_waiting rep = Z.of_nat (length inputs) /\
  r_finished rep = 0 /\ r_failed rep = 0 /\ r_downloading rep = 0 /\
  r_skipped rep = 0 /\ r_retrying rep = 0 /\ r_workers rep = ∅ /\
  (r_done rep = true <-> inputs = []).
Proof.
  intros rep.
  assert (length (keys (enumerate inputs)) = length inputs) as Hlen.
  { unfold enumerate. rewrite keys_enumerate_from, length_seqZ. lia. }
  subst rep. unfold get_status, main.
  cbn [r_total r_waiting r_finished r_failed r_downloading r_skipped
       r_retrying r_workers r_done metadata workers_seen videos fst snd].
  rewrite !count_fresh, Hlen. cbn.
  repeat (split; [reflexivity|]).
  destruct inputs as [|x r]; [done|]. split; discriminate.
Qed.

(** ** Polls and the status route *)

Lemma output_data_not_flag k payload flag :
  flag <> "_id" -> output_data k payload <> {[ flag := JBool true ]}.
Proof.
  intros Hne Heq. apply (f_equal (fun m => m !! "_id")) in Heq.
  rewrite lookup_singleton_ne in Heq by done.
  unfold output_data in Heq. apply lookup_union_None in Heq as [_ Heq].
  by rewrite lookup_singleton_eq in Heq.
Qed.

Lemma done_no_work md :
  forallb (fun v => negb (in_statuses [waiting; downloading] v)) (values md)
  = negb (existsb is_waiting (values md))
    && negb (existsb is_downloading (values md)).
Proof.
  unfold values. induction md as [|[k d] r IH]; [reflexivity|].
  cbn [map snd forallb existsb]. rewrite IH.
  unfold in_statuses, is_waiting, is_downloading.
  destruct (status d); simpl; try reflexivity;
    by rewrite ?andb_false_r.
Qed.

(** A poll with worker_status = ok is answered {"finished": true} exactly
    when the status route says done, and {"pending_finish": true} exactly
    when nothing is waiting while something is downloading. *)
Theorem finished_reply_iff_done srv wid wmsg now st :
  let out := snd (next_video srv (GET (GetArgs (Some wid) (Some "ok") (Some wmsg)))
                    now st) in
  (out = Returned {[ "finished" := JBool true ]} <->
   r_done (get_status srv st) = true) /\
  (out = Returned {[ "pending_finish" := JBool true ]} <->
   r_waiting (get_status srv st) = 0 /\ r_downloading (get_status srv st) > 0).
Proof.
  intros out. subst out. unfold get_status.
  cbn [r_done r_waiting r_downloading]. rewrite done_no_work.
  assert (forall p, count p (metadata st) = 0
                    <-> existsb p (values (metadata st)) = false) as Hz.
  { intros p. rewrite count_zero, <- not_true_iff_false, existsb_exists.
    rewrite Forall_forall. split.
    - intros H (d & Hin & Hd). apply list_elem_of_In, H in Hin. congruence.
    - intros H d Hin. apply not_true_iff_false. intros Hd. apply H.
      exists d. split; [by apply list_elem_of_In | done]. }
  assert (forall p, count p (metadata st) > 0
                    <-> existsb p (values (metadata st)) = true) as Hp.
  { intros p. pose proof (count_nonneg p (metadata st)) as Hn.
    pose proof (Hz p) as Hzp.
    destruct (existsb p (values (metadata st))).
    - split; [done|]. intros _.
      assert (count p (metadata st) <> 0) by (intros E; by apply Hzp in E).
      lia.
    - split; [|done]. intros Hgt.
      assert (count p (metadata st) = 0) by by apply Hzp. lia. }
  rewrite Hz, Hp. simpl. unfold next_video_get. simpl.
  destruct (existsb is_waiting (values (metadata st))) eqn:Ew; simpl;
    [destruct (next_waiting (metadata st)) as [k|]; simpl;
       [destruct (dict_get k (video_data srv)) as [payload|]; simpl|]
    |destruct (existsb is_downloading (values (metadata st))) eqn:Ed; simpl];
    split; split; intros H; try done; try (by destruct H);
    try (injection H as H; by apply output_data_not_flag in H);
    injection H as H; apply (f_equal (fun m => m !! "finished")) in H;
    by rewrite lookup_singleton_eq, lookup_singleton_ne in H.
Qed.

(** ** Accounting in the status reply *)

Lemma count_alter p f k md d :
  dict_get k md = Some d ->
  count p (dict_alter f k md)
  = count p md - (if p d then 1 else 0) + (if p (f d) then 1 else 0).
Proof.
  induction md as [|[k' d'] r IH]; simpl; [discriminate|].
  destruct (k =? k') eqn:E.
  - intros [= ->]. rewrite !count_cons. lia.
  - intros Hget. rewrite !count_cons, (IH Hget). lia.
Qed.

(** Handing a video out moves one video from waiting to downloading in the
    status reply and changes no other count. *)
Theorem handout_accounting fl inputs st wid wmsg now :
  reachable fl inputs st -> some_waiting (metadata st) ->
  let srv := fst (main fl inputs) in
  let rep := get_status srv st in
  let rep' := get_status srv (step srv (poll wid "ok" wmsg) now st) in
  r_waiting rep' = r_waiting rep - 1 /\
  r_downloading rep' = r_downloading rep + 1 /\
  r_finished rep' = r_finished rep /\ r_failed rep' = r_failed rep /\
  r_skipped rep' = r_skipped rep /\ r_total rep' = r_total rep.
Proof.
  intros Hr Hw srv rep rep'. subst rep rep'.
  pose proof (reachable_NoDup _ _ _ Hr) as Hnd. clearbody srv.
  apply existsb_is_waiting in Hw.
  destruct (existsb_next_waiting _ Hw) as [k Hk].
  destruct (next_waiting_get _ _ Hnd Hk) as (d & Hget & Hs).
  assert (metadata (step srv (poll wid "ok" wmsg) now st)
          = dict_alter (assigned now) k (metadata st)) as Hmd.
  { simpl. unfold next_video_get. simpl. rewrite Hw, Hk. simpl.
    by destruct (dict_get k (video_data srv)). }
  unfold get_status.
  cbn [r_waiting r_downloading r_finished r_failed r_skipped r_total].
  rewrite Hmd, !(count_alter _ _ _ _ _ Hget).
  unfold is_waiting, is_downloading, in_statuses. simpl. rewrite Hs. simpl.
  repeat split; lia.
Qed.

Lemma handout_accounting_witness :
  let srv := fst (main (Flags 60 3) three_videos) in
  let st := snd (main (Flags 60 3) three_videos) in
  let rep := get_status srv st in
  let rep' := get_status srv (step srv (poll "A" "ok" no_message) 4 st) in
  r_waiting rep' = r_waiting rep - 1 /\
  r_downloading rep' = r_downloading rep + 1 /\
  r_finished rep' = r_finished rep /\ r_failed rep' = r_failed rep /\
  r_skipped rep' = r_skipped rep /\ r_total rep' = r_total rep.
Proof.
  intros srv st.
  apply (handout_accounting (Flags 60 3) three_videos st "A" no_message 4).
  - apply reachable_main.
  - apply Exists_cons_hd. reflexivity.
Defined.

(** A report on a downloading video takes it out of the downloading count
    and adds it to the counts of the status the report gives it: waiting,
    or finished together with skipped or failed where it applies. *)
Theorem report_accounting fl inputs st now r k rstatus wid d :
  reachable fl inputs st ->
  rep_video_id r = Some k -> rep_status r = Some rstatus ->
  rep_worker_id r = Some wid ->
  dict_get k (metadata st) = Some d -> status d = downloading ->
  let srv := fst (main fl inputs) in
  let rep := get_status srv st in
  let rep' := get_status srv (step srv (Request (POST (Some r))) now st) in
  let s := reported_status (FLAGS_retries fl) rstatus (retries d) in
  r_downloading rep' = r_downloading rep - 1 /\
  r_waiting rep' = r_waiting rep + (if decide (s = waiting) then 1 else 0) /\
  r_finished rep' = r_finished rep + (if decide (terminal s) then 1 else 0) /\
  r_skipped rep' = r_skipped rep + (if decide (s = skipped) then 1 else 0) /\
  r_failed rep' = r_failed rep + (if decide (s = failed) then 1 else 0) /\
  r_total rep' = r_total rep.
Proof.
  intros Hr Hi Hrs Hw Hget Hs srv rep rep' s. subst rep rep'.
  assert (metadata (step srv (Request (POST (Some r))) now st)
          = dict_alter (record_report (FLAGS_retries fl) rstatus now) k
              (metadata st)) as Hmd.
  { simpl. unfold next_video_post. by rewrite Hi, Hrs, Hw, Hget. }
  unfold get_status.
  cbn [r_waiting r_downloading r_finished r_failed r_skipped r_total].
  rewrite Hmd, !(count_alter _ _ _ _ _ Hget).
  unfold is_waiting, is_downloading, in_statuses.
  rewrite status_record_report. subst s. rewrite Hs.
  destruct (reported_status _ _ _) eqn:Es; simpl; try (repeat split; lia).
  unfold reported_status in Es. repeat case_decide; discriminate.
Qed.

Lemma report_accounting_witness :
  let srv := fst (main (Flags 60 3) three_videos) in
  let st1 := step srv (poll "A" "ok" no_message) 0
               (snd (main (Flags 60 3) three_videos)) in
  let rep := get_status srv st1 in
  let rep' := get_status srv (step srv (post 0 "error" "A") 9 st1) in
  let s := reported_status 3 "error" 0 in
  r_downloading rep' = r_downloading rep - 1 /\
  r_waiting rep' = r_waiting rep + (if decide (s = waiting) then 1 else 0) /\
  r_finished rep' = r_finished rep + (if decide (terminal s) then 1 else 0) /\
  r_skipped rep' = r_skipped rep + (if decide (s = skipped) then 1 else 0) /\
  r_failed rep' = r_failed rep + (if decide (s = failed) then 1 else 0) /\
  r_total rep' = r_total rep.
Proof.
  intros srv st1.
  apply (report_accounting (Flags 60 3) three_videos st1 9
           (Report (Some 0) (Some "error") (Some "A") None None)
           0 "error" "A" (VideoMeta downloading None 0 (Some 0) None None)).
  - apply reachable_step, reachable_main.
  - reflexivity.
  - reflexivity.
  - reflexivity.
  - reflexivity.
  - reflexivity.
Defined.

(** ** The order in which videos are handed out *)

Lemma enumerate_from_app {A} (l1 l2 : list A) s :
  enumerate_from s (l1 ++ l2)%list
  = (enumerate_from s l1
       ++ enumerate_from (s + Z.of_nat (length l1)) l2)%list.
Proof.
  revert s. induction l1 as [|x r IH]; intros s; simpl.
  - by rewrite Z.add_0_r.
  - rewrite IH. do 3 f_equal. lia.
Qed.

Lemma values_enumerate_from {A} (l : list A) s :
  values (enumerate_from s l) = l.
Proof.
  revert s. induction l as [|x r IH]; intros s; simpl; [done|].
  f_equal. apply IH.
Qed.

Lemma fresh_enumerate_from {A} (l : list A) s :
  map (fun k => (k, fresh_meta)) (keys (enumerate_from s l))
  = enumerate_from s (replicate (length l) fresh_meta).
Proof.
  revert s. induction l as [|x r IH]; intros s; simpl; [done|].
  f_equal. apply IH.
Qed.

Lemma next_waiting_enumerate_from (done_part : list video_meta) x rest s :
  Forall (fun d => status d <> waiting) done_part -> status x = waiting ->
  next_waiting (enumerate_from s (done_part ++ x :: rest)%list)
  = Some (s + Z.of_nat (length done_part)).
Proof.
  intros Hall Hx. revert s.
  induction Hall as [|d r Hd Hr IH]; intros s; simpl.
  - unfold is_waiting. rewrite Hx. simpl. f_equal. lia.
  - unfold is_waiting. apply status_eqb_neq in Hd. rewrite Hd.
    rewrite IH. f_equal. lia.
Qed.

Lemma dict_alter_enumerate_from {A} (f : A -> A) (l1 : list A) x l2 s :
  dict_alter f (s + Z.of_nat (length l1)) (enumerate_from s (l1 ++ x :: l2)%list)
  = enumerate_from s (l1 ++ f x :: l2)%list.
Proof.
  revert s. induction l1 as [|y r IH]; intros s.
  - simpl. by rewrite Z.add_0_r, Z.eqb_refl.
  - cbn [app enumerate_from dict_alter length]. rewrite Nat2Z.inj_succ.
    destruct (s + Z.succ (Z.of_nat (length r)) =? s) eqn:E;
      [apply Z.eqb_eq in E; lia|].
    f_equal. rewrite <- IH. f_equal. lia.
Qed.

Lemma existsb_status (l : list video_meta) s :
  existsb (fun d => status_eqb (status d) s) l = true
  <-> Exists (fun d => status d = s) l.
Proof.
  rewrite existsb_exists, Exists_exists.
  split; intros (d & Hin & Hd); exists d.
  - split; [by apply list_elem_of_In | by apply status_eqb_eq].
  - split; [by apply list_elem_of_In | by apply status_eqb_eq].
Qed.

(** The metadata after the first [n] polls of a fresh server. *)
Lemma metadata_after_polls fl inputs (ps : list (string * string * Z)) :
  (length ps <= length inputs)%nat ->
  metadata (run (fst (main fl inputs)) (healthy_polls ps) (snd (main fl inputs)))
  = enumerate (map (fun p => handed_out (snd p)) ps
                 ++ replicate (length inputs - length ps) fresh_meta)%list.
Proof.
  induction ps as [|[[wid wmsg] now] ps IH] using rev_ind; intros Hlen.
  - simpl. rewrite Nat.sub_0_r. apply fresh_enumerate_from.
  - rewrite length_app in Hlen. simpl in Hlen.
    unfold healthy_polls. rewrite map_app. simpl map at 2.
    rewrite run_snoc. fold (healthy_polls ps).
    set (st := run _ (healthy_polls ps) _) in *.
    assert (metadata st
            = enumerate (map (fun p => handed_out (snd p)) ps
                ++ fresh_meta
                   :: replicate (length inputs - length (ps ++ [(wid, wmsg, now)]))
                        fresh_meta)%list) as Hmd.
    { rewrite IH by lia. rewrite length_app. simpl length.
      replace (length inputs - length ps)%nat
        with (S (length inputs - (length ps + 1)))%nat by lia.
      done. }
    clearbody st. clear IH.
    set (done_part := map (fun p => handed_out (snd p)) ps) in *.
    set (rest := replicate _ fresh_meta) in *.
    assert (Forall (fun d => status d <> waiting) done_part) as Hdone.
    { subst done_part. apply Forall_forall. intros d Hd.
      apply list_elem_of_fmap in Hd as (p & -> & _). discriminate. }
    simpl. unfold next_video_get. simpl.
    assert (existsb is_waiting (values (metadata st)) = true) as ->.
    { rewrite Hmd. unfold enumerate. rewrite values_enumerate_from.
      apply existsb_status. apply Exists_app. right. by constructor. }
    simpl. rewrite Hmd. unfold enumerate.
    rewrite (next_waiting_enumerate_from done_part fresh_meta rest 0) by done.
    rewrite dict_alter_enumerate_from.
    assert (enumerate_from 0 (done_part ++ assigned now fresh_meta :: rest)%list
            = enumerate_from 0
                (map (fun p => handed_out (snd p)) (ps ++ [(wid, wmsg, now)])
                   ++ rest)%list) as ->.
    { rewrite map_app. simpl. by rewrite <- app_assoc. }
    by destruct (dict_get _ _).
Qed.

(** The poll that follows [length ps] healthy polls of a fresh server is
    answered with the video at that position. *)
Lemma next_poll_hands_out fl inputs ps wid wmsg now payload :
  inputs !! length ps = Some payload ->
  snd (next_video (fst (main fl inputs))
         (GET (GetArgs (Some wid) (Some "ok") (Some wmsg))) now
         (run (fst (main fl inputs)) (healthy_polls ps) (snd (main fl inputs))))
  = Returned (output_data (Z.of_nat (length ps)) payload).
Proof.
  intros Hp. apply lookup_lt_Some in Hp as Hlt.
  assert (length ps <= length inputs)%nat as Hlen by lia.
  pose proof (metadata_after_polls fl inputs ps Hlen) as Hmd.
  set (srv := fst (main fl inputs)) in *.
  set (st := run srv (healthy_polls ps) (snd (main fl inputs))) in *.
  assert (video_data srv = enumerate inputs) as Hvd by reflexivity.
  clearbody st srv.
  set (done_part := map (fun p => handed_out (snd p)) ps) in *.
  assert (length done_part = length ps) as Hdl by apply length_map.
  assert (Forall (fun d => status d = downloading) done_part) as Hdone.
  { subst done_part. apply Forall_forall. intros d Hd.
    by apply list_elem_of_fmap in Hd as (p & -> & _). }
  simpl. unfold next_video_get. simpl. rewrite Hmd, Hvd. unfold enumerate.
  rewrite values_enumerate_from.
  replace (length inputs - length ps)%nat
    with (S (length inputs - length ps - 1))%nat by lia.
  cbn [replicate].
  assert (existsb is_waiting
            (done_part ++ fresh_meta
               :: replicate (length inputs - length ps - 1) fresh_meta)%list
          = true) as ->.
  { apply existsb_status. apply Exists_app. right. by constructor. }
  assert (dict_get (0 + Z.of_nat (length done_part)) (enumerate_from 0 inputs)
          = Some payload) as Hpay.
  { rewrite dict_get_enumerate_from, decide_True by lia.
    rewrite Hdl.
    replace (Z.to_nat (0 + Z.of_nat (length ps) - 0)) with (length ps) by lia.
    done. }
  cbn [negb]. rewrite next_waiting_enumerate_from; [|  |done].
  - rewrite Hpay. cbn [snd]. by rewrite Hdl.
  - eapply Forall_impl; [exact Hdone|]. intros d Hd. simpl in Hd. congruence.
Qed.

(** A fresh server hands its videos out in input order: after [n] polls
    with worker_status = ok, whoever sent them, videos 0 .. n-1 are
    downloading with the times of those polls as start times and the others
    are untouched; the next poll is answered with video [n] and its payload,
    or, when every video is handed out, with {"pending_finish": true} (with
    {"finished": true} when there were no videos at all). *)
Theorem fresh_server_hands_out_in_order fl inputs ps wid wmsg now :
  (length ps <= length inputs)%nat ->
  let srv := fst (main fl inputs) in
  let st := run srv (healthy_polls ps) (snd (main fl inputs)) in
  metadata st
  = enumerate (map (fun p => handed_out (snd p)) ps
                 ++ replicate (length inputs - length ps) fresh_meta)%list /\
  snd (next_video srv (GET (GetArgs (Some wid) (Some "ok") (Some wmsg))) now st)
  = match inputs !! length ps with
    | Some payload => Returned (output_data (Z.of_nat (length ps)) payload)
    | None =>
        Returned {[ (if decide (inputs = []) then "finished"
                     else "pending_finish") := JBool true ]}
    end.
Proof.
  intros Hlen srv st.
  pose proof (metadata_after_polls fl inputs ps Hlen) as Hmd.
  fold srv in Hmd. fold st in Hmd. split; [exact Hmd|].
  destruct (inputs !! length ps) as [payload|] eqn:Hp.
  { by apply next_poll_hands_out. }
  clearbody st srv.
  set (done_part := map (fun p => handed_out (snd p)) ps) in *.
  assert (Forall (fun d => status d = downloading) done_part) as Hdone.
  { subst done_part. apply Forall_forall. intros d Hd.
    by apply list_elem_of_fmap in Hd as (p & -> & _). }
  simpl. unfold next_video_get. simpl. rewrite Hmd. unfold enumerate.
  rewrite values_enumerate_from.
  apply lookup_ge_None in Hp.
  replace (length inputs - length ps)%nat with 0%nat by lia.
  cbn [replicate]. rewrite app_nil_r.
  assert (existsb is_waiting done_part = false) as ->.
  { apply not_true_iff_false. intros H. apply existsb_status in H.
    apply Exists_exists in H as (d & Hin & Hd).
    rewrite Forall_forall in Hdone. apply Hdone in Hin. congruence. }
  simpl. destruct inputs as [|x inputs'].
  - destruct ps; [|simpl in Hlen; lia]. reflexivity.
  - destruct ps as [|p ps']; [simpl in Hp; lia|].
    rewrite decide_False by done. reflexivity.
Qed.

Lemma fresh_server_hands_out_in_order_witness :
  let srv := fst (main (Flags 60 3) three_videos) in
  let ps := [("A", no_message, 0); ("B", no_message, 1)] in
  let st := run srv (healthy_polls ps) (snd (main (Flags 60 3) three_videos)) in
  metadata st
  = enumerate (map (fun p => handed_out (snd p)) ps
                 ++ replicate (length three_videos - length ps) fresh_meta)%list /\
  snd (next_video srv (GET (GetArgs (Some "A") (Some "ok") (Some no_message))) 2 st)
  = match three_videos !! length ps with
    | Some payload => Returned (output_data (Z.of_nat (length ps)) payload)
    | None =>
        Returned {[ (if decide (three_videos = []) then "finished"
                     else "pending_finish") := JBool true ]}
    end.
Proof.
  intros srv ps.
  apply (fresh_server_hands_out_in_order (Flags 60 3) three_videos ps
           "A" no_message 2).
  simpl. lia.
Defined.

(** ** Workers and zones *)

Lemma ops_in_touch zone zone' w : ops_in zone' (touch zone w) = ops_in zone' w.
Proof.
  unfold touch, ops_in. destruct (decide (zone = zone')) as [->|Hne].
  - by rewrite lookup_insert_eq.
  - by rewrite lookup_insert_ne.
Qed.

Lemma ops_in_insert zone l w : ops_in zone (<[ zone := l ]> w) = l.
Proof. unfold ops_in. by rewrite lookup_insert_eq. Qed.

Lemma ops_in_insert_ne zone zone' l w :
  zone <> zone' -> ops_in zone' (<[ zone := l ]> w) = ops_in zone' w.
Proof. intros Hne. unfold ops_in. by rewrite lookup_insert_ne. Qed.

Lemma length_launches n : length (launches n) = S n.
Proof. unfold launches. simpl. by rewrite length_map, length_seq. Qed.

Lemma launches_S n : launches (S n) = (launches n ++ [WorkerOp n])%list.
Proof. unfold launches. by rewrite seq_S, map_app. Qed.

(** Division by the zone size across one more launch. *)
Lemma div_succ_full j m :
  (0 < m)%nat -> (j mod m + 1 = m)%nat ->
  ((j + 1) / m = S (j / m))%nat /\ ((j + 1) mod m = 0)%nat.
Proof.
  intros Hm Hfull. pose proof (Nat.div_mod_eq j m) as Hj.
  assert (j + 1 = m * S (j / m) + 0)%nat as Heq by lia.
  split.
  - symmetry. eapply (Nat.div_unique _ _ _ 0%nat); [lia | exact Heq].
  - symmetry. eapply (Nat.mod_unique _ _ (S (j / m))); [lia | exact Heq].
Qed.

Lemma div_succ_room j m :
  (0 < m)%nat -> (j mod m + 1 < m)%nat ->
  ((j + 1) / m = j / m)%nat /\ ((j + 1) mod m = j mod m + 1)%nat.
Proof.
  intros Hm Hroom. pose proof (Nat.div_mod_eq j m) as Hj.
  assert (j + 1 = m * (j / m) + (j mod m + 1))%nat as Heq by lia.
  split.
  - symmetry. eapply (Nat.div_unique _ _ _ (j mod m + 1)%nat); [lia | exact Heq].
  - symmetry. eapply (Nat.mod_unique _ _ (j / m)); [lia | exact Heq].
Qed.

Lemma div_lt_mul a m z : (0 < m)%nat -> (a / m < z)%nat <-> (a < z * m)%nat.
Proof.
  intros Hm. pose proof (Nat.div_mod_eq a m) as Ha.
  pose proof (Nat.mod_upper_bound a m ltac:(lia)) as Hr. split; intros H.
  - assert (m * S (a / m) <= m * z)%nat by (apply Nat.mul_le_mono_l; lia). lia.
  - apply Nat.Div0.div_lt_upper_bound. lia.
Qed.

(** One more launch goes to the end of the zone that is being filled and
    leaves the other zones as they are. *)
Lemma chunk_snoc (l : list op) y m c i :
  (c * m <= length l)%nat -> (length l < c * m + m)%nat ->
  take m (drop (i * m) (l ++ [y])%list)
  = if decide (i = c) then (take m (drop (i * m) l) ++ [y])%list
    else take m (drop (i * m) l).
Proof.
  intros Hlo Hhi. destruct (decide (i = c)) as [->|Hne].
  - rewrite drop_app_le by done.
    rewrite take_app, (take_ge (drop _ _)) by (rewrite length_drop; lia).
    rewrite length_drop.
    replace (m - (length l - c * m))%nat with (S (m - (length l - c * m) - 1))
      by lia.
    by rewrite firstn_cons, take_nil.
  - destruct (decide (i < c)%nat) as [Hlt|Hge].
    + assert (S i * m <= c * m)%nat by (apply Nat.mul_le_mono_r; lia).
      rewrite drop_app_le by lia.
      apply take_app_le. rewrite length_drop. lia.
    + assert (S c * m <= i * m)%nat by (apply Nat.mul_le_mono_r; lia).
      rewrite !drop_ge; [done | lia |].
      rewrite length_app. simpl. lia.
Qed.

Lemma filled_length zones m j s zone :
  (0 < m)%nat -> filled zones m j s -> zones !! (j / m)%nat = Some zone ->
  length (ops_in zone (worker_ops s)) = (j mod m + 1)%nat.
Proof.
  intros Hm [_ Hall] Hz. rewrite (Hall _ _ Hz).
  pose proof (Nat.div_mod_eq j m) as Hj.
  pose proof (Nat.mod_upper_bound j m ltac:(lia)) as Hr.
  rewrite length_take, length_drop, length_launches. lia.
Qed.

(** Placing worker [j] from a filled state: the loop goes on with a filled
    state while there is room in the zones, and breaks without a launch when
    there is none. *)
Lemma place_worker_filled zones maxw j s :
  NoDup zones -> 0 <= maxw ->
  let m := Z.to_nat (maxw + 1) in
  filled zones m j s -> (j < length zones * m)%nat ->
  exists s',
    place_worker zones maxw j s
      = (s', if decide (j + 1 < length zones * m)%nat then None else Some Break)
    /\ if decide (j + 1 < length zones * m)%nat then filled zones m (j + 1) s'
       else forall i zone, zones !! i = Some zone ->
              ops_in zone (worker_ops s') = take m (drop (i * m) (launches j)).
Proof.
  intros Hnd Hmax m Hf Hj.
  assert (0 < m)%nat as Hm by (subst m; lia).
  assert (j / m < length zones)%nat as Hcz by by apply div_lt_mul.
  destruct (lookup_lt_is_Some_2 zones _ Hcz) as [zone Hzone].
  pose proof (filled_length zones m j s zone Hm Hf Hzone) as Hlen.
  destruct Hf as [Hcur Hall].
  pose proof (Nat.mod_upper_bound j m ltac:(lia)) as Hr.
  unfold place_worker. rewrite Hcur, Hzone. cbn zeta.
  rewrite ops_in_touch, Hlen.
  destruct (Z.of_nat (j mod m + 1) >? maxw) eqn:Hfull.
  - (* the zone is full *)
    assert (j mod m + 1 = m)%nat as Hfull'.
    { rewrite Z.gtb_ltb in Hfull. apply Z.ltb_lt in Hfull. subst m. lia. }
    destruct (div_succ_full j m Hm Hfull') as [Hdiv Hmod].
    destruct (decide (j + 1 < length zones * m)%nat) as [Hroom|Hnone].
    + assert (S (j / m) < length zones)%nat as Hnext.
      { rewrite <- Hdiv. by apply div_lt_mul. }
      assert ((length zones <=? S (j / m))%nat = false) as ->
        by (apply Nat.leb_gt; lia).
      destruct (lookup_lt_is_Some_2 zones _ Hnext) as [zone' Hzone'].
      rewrite Hzone'. eexists. split; [reflexivity|].
      split; [simpl; lia|]. intros i z Hz. simpl.
      replace (j + 1)%nat with (S j) by lia. rewrite launches_S.
      rewrite (chunk_snoc _ _ m (S (j / m)) i);
        [|rewrite length_launches, <- Hdiv;
          pose proof (Nat.div_mod_eq (j + 1) m); lia
         |rewrite length_launches, <- Hdiv;
          pose proof (Nat.div_mod_eq (j + 1) m); lia].
      destruct (decide (i = S (j / m))) as [->|Hne].
      * assert (z = zone') as -> by congruence.
        rewrite ops_in_insert, !ops_in_touch. by rewrite (Hall _ _ Hzone').
      * rewrite ops_in_insert_ne, !ops_in_touch; [by apply Hall|].
        intros ->. apply Hne. by eapply NoDup_lookup.
    + assert (length zones <= S (j / m))%nat as Hlast.
      { rewrite <- Hdiv. apply Nat.nlt_ge. intros H. apply Hnone.
        by apply div_lt_mul in H. }
      assert ((length zones <=? S (j / m))%nat = true) as ->
        by by apply Nat.leb_le.
      eexists. split; [reflexivity|].
      intros i z Hz. simpl. rewrite ops_in_touch. by apply Hall.
  - (* there is room in the zone *)
    assert (j mod m + 1 < m)%nat as Hroom'.
    { rewrite Z.gtb_ltb in Hfull. apply Z.ltb_ge in Hfull. subst m. lia. }
    destruct (div_succ_room j m Hm Hroom') as [Hdiv Hmod].
    assert (j + 1 < length zones * m)%nat as Hroom.
    { apply div_lt_mul; [done|]. by rewrite Hdiv. }
    destruct (decide (j + 1 < length zones * m)%nat) as [_|]; [|done].
    assert ((length zones <=? j / m)%nat = false) as ->
      by (apply Nat.leb_gt; lia).
    rewrite Hzone. eexists. split; [reflexivity|].
    split; [simpl; lia|]. intros i z Hz. simpl.
    replace (j + 1)%nat with (S j) by lia. rewrite launches_S.
    rewrite (chunk_snoc _ _ m (j / m) i);
      [|rewrite length_launches; pose proof (Nat.div_mod_eq j m); lia
       |rewrite length_launches; pose proof (Nat.div_mod_eq j m); lia].
    destruct (decide (i = (j / m)%nat)) as [->|Hne].
    + assert (z = zone) as -> by congruence.
      rewrite ops_in_insert, !ops_in_touch. by rewrite (Hall _ _ Hzone).
    + rewrite ops_in_insert_ne, !ops_in_touch; [by apply Hall|].
      intros ->. apply Hne. by eapply NoDup_lookup.
Qed.

Lemma place_workers_filled zones maxw k j s :
  NoDup zones -> 0 <= maxw ->
  let m := Z.to_nat (maxw + 1) in
  filled zones m j s -> (j < length zones * m)%nat ->
  exists s',
    place_workers zones maxw (seq j k) s
      = (s', if decide (j + k < length zones * m)%nat then Exhausted else Break)
    /\ forall i zone, zones !! i = Some zone ->
         ops_in zone (worker_ops s')
         = take m (drop (i * m)
                     (launches (Nat.min (j + k) (length zones * m - 1)))).
Proof.
  intros Hnd Hmax m. revert j s.
  induction k as [|k IH]; intros j s Hf Hj.
  - exists s. rewrite Nat.add_0_r. rewrite decide_True by done.
    split; [done|]. replace (Nat.min j (length zones * m - 1)) with j by lia.
    apply Hf.
  - destruct (place_worker_filled zones maxw j s Hnd Hmax Hf Hj)
      as (s1 & Hstep & Hnext).
    fold m in Hstep, Hnext. cbn [seq place_workers]. rewrite Hstep.
    destruct (decide (j + 1 < length zones * m)%nat) as [Hroom|Hnone].
    + replace (S j) with (j + 1)%nat by lia.
      destruct (IH (j + 1)%nat s1 Hnext Hroom) as (s' & Hrun & Hall).
      exists s'. rewrite Hrun.
      replace (j + S k)%nat with (j + 1 + k)%nat by lia.
      split; [reflexivity | exact Hall].
    + exists s1. rewrite decide_False by lia. split; [done|].
      replace (Nat.min (j + S k) (length zones * m - 1)) with j by lia.
      exact Hnext.
Qed.

(** The launches fill the zones in order, max_workers_per_zone + 1 to a zone
    and the server first: with distinct zones, the first zone holds the
    server and max_workers_per_zone workers, every later zone holds
    max_workers_per_zone + 1 workers, and the loop breaks exactly when
    num_workers is too large for the zones, after
    len(zones) * (max_workers_per_zone + 1) - 1 workers. *)
Theorem workers_fill_zones_in_order zones max_workers_per_zone num_workers :
  NoDup zones -> zones <> [] -> 0 <= max_workers_per_zone ->
  let m := Z.to_nat (max_workers_per_zone + 1) in
  let n := Nat.min (Z.to_nat num_workers) (length zones * m - 1) in
  exists s,
    launch zones max_workers_per_zone num_workers
      = Some (s, if decide (Z.to_nat num_workers < length zones * m)%nat
                 then Exhausted else Break) /\
    forall i zone, zones !! i = Some zone ->
      ops_in zone (worker_ops s) = take m (drop (i * m) (launches n)) /\
      length (ops_in zone (worker_ops s)) = Nat.min m (S n - i * m).
Proof.
  intros Hnd Hne Hmax m n.
  assert (0 < m)%nat as Hm by (subst m; lia).
  assert (0 < length zones)%nat as Hlen by (destruct zones; [done | simpl; lia]).
  destruct (lookup_lt_is_Some_2 zones 0%nat Hlen) as [zone0 H0].
  unfold launch, start_server. rewrite H0.
  destruct (place_workers_filled zones max_workers_per_zone
              (Z.to_nat num_workers) 0 (Launcher 0 (<[ zone0 := [ServerOp] ]> ∅))
              Hnd Hmax) as (s & Hrun & Hall).
  - split; [simpl; by rewrite Nat.Div0.div_0_l|].
    intros i zone Hi. simpl. destruct i as [|i].
    + assert (zone = zone0) as -> by congruence.
      rewrite ops_in_insert. cbn [Nat.mul drop].
      rewrite take_ge; [reflexivity|]. simpl. lia.
    + rewrite ops_in_insert_ne.
      * unfold ops_in. rewrite lookup_empty. simpl.
        rewrite drop_ge; [by rewrite take_nil|]. rewrite length_launches. lia.
      * intros ->. assert (0%nat = S i) by by eapply NoDup_lookup. lia.
  - fold m. nia.
  - exists s. rewrite Hrun. split; [reflexivity|].
    intros i zone Hi. rewrite (Hall _ _ Hi). fold m. fold n.
    split; [reflexivity|]. by rewrite length_take, length_drop, length_launches.
Qed.

Lemma workers_fill_zones_in_order_witness :
  exists s,
    launch ["us-central1-a"; "us-east1-b"] 1 5 = Some (s, Break) /\
    forall i zone, ["us-central1-a"; "us-east1-b"] !! i = Some zone ->
      ops_in zone (worker_ops s) = take 2 (drop (i * 2) (launches 3)) /\
      length (ops_in zone (worker_ops s)) = Nat.min 2 (S 3 - i * 2).
Proof.
  apply (workers_fill_zones_in_order ["us-central1-a"; "us-east1-b"] 1 5).
  - apply NoDup_cons. split; [|apply NoDup_singleton].
    intros H. apply list_elem_of_singleton in H. discriminate.
  - discriminate.
  - lia.
Defined.

(** ** From the input file to the workers *)

Lemma output_data_url k (u : string) :
  output_data k {[ "url" := JStr u ]}
  = {[ "_id" := JInt k; "url" := JStr u ]}.
Proof.
  unfold output_data. apply map_eq. intros key.
  destruct (decide (key = "url")) as [->|Hurl].
  - rewrite (lookup_union_Some_l _ _ _ (JStr u)) by apply lookup_singleton_eq.
    rewrite lookup_insert_ne by done. by rewrite lookup_singleton_eq.
  - rewrite lookup_union_r by by apply lookup_singleton_ne.
    destruct (decide (key = "_id")) as [->|Hid].
    + by rewrite lookup_singleton_eq, lookup_insert_eq.
    + rewrite lookup_singleton_ne by done.
      rewrite lookup_insert_ne by done. by rewrite lookup_singleton_ne.
Qed.

(** With input of type file_list every line of the file is a video, blank
    lines included, and a fresh server hands them out line by line: the
    poll after [n] others is answered {"_id": n, "url": <line n, stripped>}. *)
Theorem file_list_is_handed_out_line_by_line
    strip fl file ps wid wmsg now line :
  readlines file !! length ps = Some line ->
  exists inputs,
    _load_data_from_file strip (Some file) "file_list" = inr inputs /\
    length inputs = length (readlines file) /\
    snd (next_video (fst (main fl inputs))
           (GET (GetArgs (Some wid) (Some "ok") (Some wmsg))) now
           (run (fst (main fl inputs)) (healthy_polls ps)
              (snd (main fl inputs))))
    = Returned {[ "_id" := JInt (Z.of_nat (length ps));
                  "url" := JStr (strip line) ]}.
Proof.
  intros Hline. eexists. split; [reflexivity|]. split; [apply length_map|].
  set (inputs := map _ (readlines file)).
  assert (inputs !! length ps = Some {[ "url" := JStr (strip line) ]}) as Hin.
  { subst inputs. by rewrite list_lookup_fmap, Hline. }
  rewrite (next_poll_hands_out fl inputs ps wid wmsg now _ Hin).
  by rewrite output_data_url.
Qed.

Lemma file_list_is_handed_out_line_by_line_witness :
  exists inputs,
    _load_data_from_file id (Some (InputFile ["u0"; "u1"] None)) "file_list"
      = inr inputs /\
    length inputs = length (readlines (InputFile ["u0"; "u1"] None)) /\
    snd (next_video (fst (main (Flags 60 3) inputs))
           (GET (GetArgs (Some "B") (Some "ok") (Some no_message))) 1
           (run (fst (main (Flags 60 3) inputs))
              (healthy_polls [("A", no_message, 0)])
              (snd (main (Flags 60 3) inputs))))
    = Returned {[ "_id" := JInt (Z.of_nat (length [("A", no_message, 0)]));
                  "url" := JStr (id "u1") ]}.
Proof.
  apply (file_list_is_handed_out_line_by_line id (Flags 60 3)
           (InputFile ["u0"; "u1"] None) [("A", no_message, 0)]
           "B" no_message 1 "u1").
  reflexivity.
Defined.

(** ** The launcher's wait for the server *)

Lemma poll_server_status_false r :
  _poll_server_status r = false
  <-> exists stat, r = FetchResponse 200 stat /\ r_done stat = true.
Proof.
  split.
  - destruct r as [| | |code stat]; simpl; try discriminate.
    destruct (code =? 200) eqn:Hc; [|discriminate].
    apply Z.eqb_eq in Hc. subst code.
    destruct (r_done stat) eqn:Hd; [|discriminate]. eauto.
  - intros (stat & -> & Hd). simpl. by rewrite Hd.
Qed.

Lemma done_all_terminal srv st :
  r_done (get_status srv st) = true
  <-> Forall (fun d => terminal (status d)) (values (metadata st)).
Proof.
  simpl. rewrite forallb_forall, Forall_forall. unfold in_statuses, terminal.
  split; intros H d Hd.
  - apply list_elem_of_In, H in Hd. simpl in Hd.
    destruct (status d); simpl in Hd; try discriminate; auto.
  - apply list_elem_of_In, H in Hd. simpl.
    destruct (status d); simpl; try done; destruct Hd as [?|[?|?]]; done.
Qed.

(** The launcher goes on to clean the instances up at the first fetch of
    /status that comes back with code 200 and done = true, and at no other:
    an exception, another status code or done = false keep it polling.  When
    the body is the reply of the status route, that is the first fetch made
    while every video is finished, skipped or failed. *)
Theorem cleanup_waits_for_done fetches n :
  polls_until_cleanup fetches = Some n ->
  exists stat,
    fetches !! (n - 1)%nat = Some (FetchResponse 200 stat) /\
    r_done stat = true /\ (0 < n)%nat /\
    (forall i r, (i < n - 1)%nat -> fetches !! i = Some r ->
       _poll_server_status r = true) /\
    (forall srv st, stat = get_status srv st ->
       Forall (fun d => terminal (status d)) (values (metadata st))).
Proof.
  revert n. induction fetches as [|r rest IH]; intros n; simpl; [discriminate|].
  destruct (_poll_server_status r) eqn:Hr.
  - destruct (polls_until_cleanup rest) as [n'|]; simpl; [|discriminate].
    intros [= <-]. destruct (IH n' eq_refl) as (stat & Hl & Hd & Hn & Hb & Hs).
    exists stat. split.
    { replace (S n' - 1)%nat with (S (n' - 1)) by lia. exact Hl. }
    split; [done|]. split; [lia|]. split; [|done].
    intros [|i] r' Hi; simpl.
    + by intros [= <-].
    + intros Hl'. apply (Hb i); [lia | done].
  - intros [= <-]. apply poll_server_status_false in Hr as (stat & -> & Hd).
    exists stat. split; [done|]. split; [done|]. split; [lia|].
    split; [intros i r' Hi; lia|].
    intros srv st ->. by apply (done_all_terminal srv st).
Qed.

Lemma cleanup_waits_for_done_witness :
  let srv := fst (main (Flags 60 3) [url_payload "a"]) in
  let st1 := step srv (poll "A" "ok" no_message) 0
               (snd (main (Flags 60 3) [url_payload "a"])) in
  let st2 := step srv (post 0 "ok" "A") 5 st1 in
  let fetches := [FetchConnectionError; FetchResponse 200 (get_status srv st1);
                  FetchResponse 200 (get_status srv st2)] in
  exists stat,
    fetches !! (3 - 1)%nat = Some (FetchResponse 200 stat) /\
    r_done stat = true /\ (0 < 3)%nat /\
    (forall i r, (i < 3 - 1)%nat -> fetches !! i = Some r ->
       _poll_server_status r = true) /\
    (forall srv' st, stat = get_status srv' st ->
       Forall (fun d => terminal (status d)) (values (metadata st))).
Proof.
  intros srv st1 st2 fetches.
  apply (cleanup_waits_for_done fetches 3). reflexivity.
Defined.

(** ** Instance metadata *)

Lemma has_key_app key (l1 l2 : list (string * string)) :
  has_key key (l1 ++ l2)%list = has_key key l1 || has_key key l2.
Proof. unfold has_key. apply existsb_app. Qed.

Lemma has_key_ensure key key' value items :
  has_key key (ensure_item key' value items)
  = has_key key items || String.eqb key' key.
Proof.
  unfold ensure_item. destruct (has_key key' items) eqn:Hk; simpl.
  - destruct (String.eqb key' key) eqn:E; [|by rewrite orb_false_r].
    apply String.eqb_eq in E. subst key'. by rewrite Hk.
  - rewrite has_key_app. simpl. by rewrite orb_false_r.
Qed.

Lemma item_value_app key (l1 l2 : list (string * string)) :
  item_value key (l1 ++ l2)%list
  = if has_key key l1 then item_value key l1 else item_value key l2.
Proof.
  unfold item_value, has_key. induction l1 as [|[k v] r IH]; simpl; [done|].
  destruct (String.eqb k key); simpl; [done | exact IH].
Qed.

Lemma item_value_None key items :
  has_key key items = false -> item_value key items = None.
Proof.
  unfold item_value, has_key. induction items as [|[k v] r IH]; simpl; [done|].
  destruct (String.eqb k key); simpl; [discriminate | exact IH].
Qed.

Lemma item_value_ensure key key' value items :
  item_value key (ensure_item key' value items)
  = if has_key key items then item_value key items
    else if String.eqb key' key then Some value else None.
Proof.
  unfold ensure_item. destruct (has_key key' items) eqn:Hk; simpl.
  - destruct (has_key key items) eqn:Hk'; [done|].
    destruct (String.eqb key' key) eqn:E.
    + apply String.eqb_eq in E. subst key'. congruence.
    + by apply item_value_None.
  - rewrite item_value_app. destruct (has_key key items); [done|].
    unfold item_value. simpl. by destruct (String.eqb key' key).
Qed.

Lemma ensure_item_prefix key value items :
  exists added,
    ensure_item key value items = (items ++ added)%list /\
    (length added <= 1)%nat.
Proof.
  unfold ensure_item. destruct (has_key key items); simpl.
  - exists []. split; [by rewrite app_nil_r | simpl; lia].
  - exists [(key, value)]. split; [done | simpl; lia].
Qed.

Lemma ensure_item_present key value items :
  has_key key items = true -> ensure_item key value items = items.
Proof. intros H. unfold ensure_item. by rewrite H. Qed.

(** The items an instance is created with: the caller's items come first and
    unchanged, at most three are appended, and afterwards startup-script,
    bucket and iname each have a value, the caller's where the caller gave
    one and the default otherwise.  Feeding the result in again changes
    nothing.  For a worker (serverip and folder given) the items are those
    two followed by startup-script, bucket and iname. *)
Theorem instance_items_default_to_arguments metadata startup_script bucket name :
  let given :=
    match metadata with Some (Some items) => items | _ => [] end in
  let items := create_instance_items metadata startup_script bucket name in
  (exists added, items = (given ++ added)%list /\ (length added <= 3)%nat) /\
  (forall key, has_key key given = true ->
     item_value key items = item_value key given) /\
  (has_key "startup-script" given = false ->
     item_value "startup-script" items = Some startup_script) /\
  (has_key "bucket" given = false -> item_value "bucket" items = Some bucket) /\
  (has_key "iname" given = false -> item_value "iname" items = Some name) /\
  create_instance_items (Some (Some items)) startup_script bucket name = items /\
  (forall ip folder,
     given = [("serverip", ip); ("folder", folder)] ->
     items = [("serverip", ip); ("folder", folder);
              ("startup-script", startup_script); ("bucket", bucket);
              ("iname", name)]).
Proof.
  intros given items.
  assert (items
          = ensure_item "iname" name
              (ensure_item "bucket" bucket
                 (ensure_item "startup-script" startup_script given))) as Hitems.
  { subst items given. unfold create_instance_items.
    by destruct metadata as [[?|]|]. }
  clearbody items given. subst items.
  split; [|split; [|split; [|split; [|split; [|split]]]]].
  - destruct (ensure_item_prefix "startup-script" startup_script given)
      as (a1 & -> & H1).
    destruct (ensure_item_prefix "bucket" bucket (given ++ a1)%list)
      as (a2 & -> & H2).
    destruct (ensure_item_prefix "iname" name ((given ++ a1) ++ a2)%list)
      as (a3 & -> & H3).
    exists (a1 ++ a2 ++ a3)%list. rewrite !app_assoc. split; [done|].
    rewrite !length_app. lia.
  - intros key Hk. rewrite !item_value_ensure, !has_key_ensure, Hk. done.
  - intros Hk. rewrite !item_value_ensure, !has_key_ensure, Hk. done.
  - intros Hk. rewrite !item_value_ensure, !has_key_ensure, Hk. simpl.
    by destruct (has_key "bucket" given).
  - intros Hk. rewrite !item_value_ensure, !has_key_ensure, Hk. done.
  - unfold create_instance_items.
    rewrite (ensure_item_present "startup-script");
      [|by rewrite !has_key_ensure, orb_true_r].
    rewrite (ensure_item_present "bucket");
      [|by rewrite !has_key_ensure, orb_true_r].
    apply ensure_item_present. by rewrite !has_key_ensure, orb_true_r.
  - intros ip folder ->. reflexivity.
Qed.

Lemma instance_items_default_to_arguments_witness :
  create_instance_items
    (Some (Some [("serverip", "10.128.0.2"); ("folder", "videos")]))
    "#!/bin/bash" "my-bucket" "starship-abc-wrk-0"
  = [("serverip", "10.128.0.2"); ("folder", "videos");
     ("startup-script", "#!/bin/bash"); ("bucket", "my-bucket");
     ("iname", "starship-abc-wrk-0")].
Proof.
  destruct (instance_items_default_to_arguments
              (Some (Some [("serverip", "10.128.0.2"); ("folder", "videos")]))
              "#!/bin/bash" "my-bucket" "starship-abc-wrk-0")
    as (_ & _ & _ & _ & _ & _ & Hworker).
  by apply Hworker.
Defined.

(** ** random_string *)

Lemma random_chars_spec randbelow k count letters :
  (forall i n, (0 < n)%nat -> (randbelow i n < n)%nat) ->
  (0 < String.length letters)%nat ->
  exists s,
    random_chars randbelow k count letters = Some s /\
    String.length s = count /\
    forall i c, String.get i s = Some c -> exists j, String.get j letters = Some c.
Proof.
  intros Hrb Hlen. revert k. induction count as [|count IH]; intros k; simpl.
  - exists EmptyString. split; [done|]. split; [done|]. intros i c. by destruct i.
  - destruct (String.get (randbelow k (String.length letters)) letters)
      as [c|] eqn:Hc.
    + destruct (IH (S k)) as (s & -> & Hl & Hin). simpl.
      exists (String c s). split; [done|]. split; [simpl; by rewrite Hl|].
      intros [|i] c'; simpl.
      * intros [= <-]. eauto.
      * apply Hin.
    + exfalso. specialize (Hrb k _ Hlen).
      revert Hc Hrb. generalize (randbelow k (String.length letters)).
      clear. induction letters as [|a letters IH]; intros n; simpl; [lia|].
      destruct n as [|n]; [discriminate|]. intros Hc Hn. apply (IH n Hc). lia.
Qed.

(** random_string returns a string of the requested length (empty for a
    length of zero or less), every character of which is one of [letters];
    with no letters to choose from it raises as soon as a character is
    asked for. *)
Theorem random_string_length_and_alphabet randbelow length letters :
  (forall i n, (0 < n)%nat -> (randbelow i n < n)%nat) ->
  (length <= 0 -> random_string randbelow length letters = Some EmptyString) /\
  (0 < length -> letters = EmptyString ->
   random_string randbelow length letters = None) /\
  (letters <> EmptyString ->
   exists s,
     random_string randbelow length letters = Some s /\
     String.length s = Z.to_nat length /\
     forall i c, String.get i s = Some c ->
       exists j, String.get j letters = Some c).
Proof.
  intros Hrb. unfold random_string. split; [|split].
  - intros Hle. by replace (Z.to_nat length) with 0%nat by lia.
  - intros Hpos ->. destruct (Z.to_nat length) as [|n] eqn:Hn; [lia|]. done.
  - intros Hne. apply random_chars_spec; [done|].
    destruct letters; [done | simpl; lia].
Qed.

Lemma random_string_length_and_alphabet_witness :
  (3 <= 0 -> random_string (fun _ _ => 0%nat) 3 ascii_lowercase
             = Some EmptyString) /\
  (0 < 3 -> ascii_lowercase = EmptyString ->
   random_string (fun _ _ => 0%nat) 3 ascii_lowercase = None) /\
  (ascii_lowercase <> EmptyString ->
   exists s,
     random_string (fun _ _ => 0%nat) 3 ascii_lowercase = Some s /\
     String.length s = Z.to_nat 3 /\
     forall i c, String.get i s = Some c ->
       exists j, String.get j ascii_lowercase = Some c).
Proof.
  apply (random_string_length_and_alphabet (fun _ _ => 0%nat) 3 ascii_lowercase).
  intros i n Hn. exact Hn.
Defined.

(** ** What the worker reports *)

Lemma body_fields video_id instance_name error_message :
  (skipped_body video_id instance_name !! "video_id" = Some video_id /\
   skipped_body video_id instance_name !! "status" = Some (JStr "skipped") /\
   skipped_body video_id instance_name !! "worker_id"
     = Some (JStr instance_name)) /\
  (not_downloaded_body video_id instance_name error_message !! "video_id"
     = Some video_id /\
   not_downloaded_body video_id instance_name error_message !! "status"
     = Some (JStr "skipped") /\
   not_downloaded_body video_id instance_name error_message !! "worker_id"
     = Some (JStr instance_name)) /\
  (ok_body video_id instance_name !! "video_id" = Some video_id /\
   ok_body video_id instance_name !! "status" = Some (JStr "ok") /\
   ok_body video_id instance_name !! "worker_id" = Some (JStr instance_name)).
Proof.
  unfold skipped_body, not_downloaded_body, ok_body.
  repeat split;
    repeat first [ apply lookup_insert_eq
                 | rewrite lookup_insert_ne by done
                 | apply lookup_singleton_eq ].
Qed.

(** Whatever the file system, the storage, the download library and the
    network do, one run of _download_video_to_gcp posts at most one body; a
    body it posts names the video it was given, under the worker's own
    name, with status ok or skipped and never a failure status; it posts ok
    only when the download and the upload went through; and when an
    exception leaves it, it has posted nothing. *)
Theorem worker_posts_ok_or_skipped w video_data instance_name has_storage :
  let posts := fst (_download_video_to_gcp w video_data instance_name has_storage) in
  let raised := snd (_download_video_to_gcp w video_data instance_name has_storage) in
  (length posts <= 1)%nat /\
  (is_Some raised -> posts = []) /\
  (forall body, In body posts ->
     body !! "video_id" = video_data !! "_id" /\
     body !! "worker_id" = Some (JStr instance_name) /\
     (body !! "status" = Some (JStr "ok") \/
      body !! "status" = Some (JStr "skipped")) /\
     (body !! "status" = Some (JStr "ok") ->
      io_extract_info w = Gives true /\ io_process_upload w = Gives tt)).
Proof.
  intros posts raised. subst posts raised. unfold _download_video_to_gcp.
  destruct (io_prepare_dir w); [|nothing_posted].
  destruct (video_data !! "output_path");
    [|nothing_posted].
  destruct (if has_storage then io_blob_exists w else Gives false)
    as [exists_already|];
    [|nothing_posted].
  destruct (video_data !! "_id") as [video_id|];
    [|nothing_posted].
  destruct exists_already.
  { destruct (body_fields video_id instance_name "m") as (Hs & _ & _).
    one_posted Hs. }
  destruct (if decide (is_Some (video_data !! "ytdl_opts"))
            then io_update_opts w else Gives tt);
    [|nothing_posted].
  unfold extract.
  destruct (io_make_downloader w) as [[]|msg]; simpl.
  - destruct (video_data !! "url"); simpl.
    + destruct (io_extract_info w) as [[|]|msg]; simpl.
      * destruct (io_process_upload w) as [[]|msg]; simpl.
        -- destruct (body_fields video_id instance_name "m") as (_ & _ & Ho).
           one_posted Ho.
        -- nothing_posted.
      * destruct (body_fields video_id instance_name
                    "Could not download video for an unknown reason")
          as (_ & Hn & _).
        one_posted Hn.
      * destruct (body_fields video_id instance_name msg) as (_ & Hn & _).
        one_posted Hn.
    + destruct (body_fields video_id instance_name "'url'") as (_ & Hn & _).
      one_posted Hn.
  - destruct (body_fields video_id instance_name msg) as (_ & Hn & _).
    one_posted Hn.
Qed.

(** ** Worker and server together *)

Lemma download_posts_cases w video_data instance_name has_storage body :
  In body (fst (_download_video_to_gcp w video_data instance_name has_storage)) ->
  exists video_id,
    video_data !! "_id" = Some video_id /\
    (body = skipped_body video_id instance_name \/
     (exists msg, extract w video_data = inl msg /\
                  body = not_downloaded_body video_id instance_name msg) \/
     (body = ok_body video_id instance_name /\ extract w video_data = inr tt)).
Proof.
  unfold _download_video_to_gcp.
  destruct (io_prepare_dir w); [|intros []].
  destruct (video_data !! "output_path"); [|intros []].
  destruct (if has_storage then io_blob_exists w else Gives false)
    as [exists_already|]; [|intros []].
  destruct (video_data !! "_id") as [video_id|]; [|intros []].
  destruct exists_already;
    [intros [<-|[]]; exists video_id; split; [done | by left]|].
  destruct (if decide (is_Some (video_data !! "ytdl_opts"))
            then io_update_opts w else Gives tt); [|intros []].
  destruct (extract w video_data) as [msg|[]] eqn:He.
  - intros [<-|[]]. exists video_id. split; [done|]. right. left. by exists msg.
  - destruct (io_process_upload w); [|intros []]. intros [<-|[]].
    exists video_id. split; [done|]. right. right. by split.
Qed.

Lemma download_raised_nothing_posted w video_data instance_name has_storage msg :
  snd (_download_video_to_gcp w video_data instance_name has_storage) = Some msg ->
  fst (_download_video_to_gcp w video_data instance_name has_storage) = [].
Proof.
  unfold _download_video_to_gcp.
  repeat (case_match; simpl; try done).
Qed.

Lemma report_of_skipped_body k instance_name :
  report_of_body (skipped_body (JInt k) instance_name)
  = Some (Report (Some k) (Some "skipped") (Some instance_name) None None).
Proof. reflexivity. Qed.

Lemma report_of_not_downloaded_body k instance_name msg :
  report_of_body (not_downloaded_body (JInt k) instance_name msg)
  = Some (Report (Some k) (Some "skipped") (Some instance_name) None (Some msg)).
Proof. reflexivity. Qed.

Lemma report_of_ok_body k instance_name :
  report_of_body (ok_body (JInt k) instance_name)
  = Some (Report (Some k) (Some "ok") (Some instance_name) None None).
Proof. reflexivity. Qed.

(** What a body the worker posts for video [k] does when it reaches the
    server: the server answers {"status": "ok"} and the video is finished or
    skipped, with no error and no retry counted.  A download that failed
    (the library raised, returned nothing, or the payload has no url) is
    recorded as skipped, not as a failure: the report does not put the video
    back to waiting. *)
Theorem worker_report_settles_video
    srv st w video_data instance_name has_storage k d body now :
  dict_get k (metadata st) = Some d ->
  video_data !! "_id" = Some (JInt k) ->
  In body (fst (_download_video_to_gcp w video_data instance_name has_storage)) ->
  exists r d',
    report_of_body body = Some r /\
    snd (next_video srv (POST (Some r)) now st)
      = Returned {[ "status" := JStr "ok" ]} /\
    dict_get k (metadata (fst (next_video srv (POST (Some r)) now st)))
      = Some d' /\
    (status d' = finished \/ status d' = skipped) /\
    error d' = None /\ retries d' = retries d /\ end_time d' = Some now /\
    ((exists msg, extract w video_data = inl msg) -> status d' = skipped).
Proof.
  intros Hget Hid Hin.
  destruct (download_posts_cases _ _ _ _ _ Hin) as (video_id & Hid' & Hcase).
  assert (video_id = JInt k) as -> by congruence.
  destruct Hcase as [->|[(msg & He & ->)|(-> & He)]].
  - eexists _, _. split; [apply report_of_skipped_body|].
    destruct (post_known srv st now
                (Report (Some k) (Some "skipped") (Some instance_name) None None)
                k "skipped" instance_name d eq_refl eq_refl eq_refl Hget)
      as [Hout Hd].
    split; [exact Hout|]. split; [exact Hd|]. simpl. auto 8.
  - eexists _, _. split; [apply report_of_not_downloaded_body|].
    destruct (post_known srv st now
                (Report (Some k) (Some "skipped") (Some instance_name) None
                   (Some msg))
                k "skipped" instance_name d eq_refl eq_refl eq_refl Hget)
      as [Hout Hd].
    split; [exact Hout|]. split; [exact Hd|]. simpl. auto 8.
  - eexists _, _. split; [apply report_of_ok_body|].
    destruct (post_known srv st now
                (Report (Some k) (Some "ok") (Some instance_name) None None)
                k "ok" instance_name d eq_refl eq_refl eq_refl Hget)
      as [Hout Hd].
    split; [exact Hout|]. split; [exact Hd|]. simpl.
    repeat split; auto. intros [msg Hmsg]. congruence.
Qed.

Lemma worker_report_settles_video_witness :
  let srv := fst (main (Flags 60 3) three_videos) in
  let st1 := step srv (poll "w1" "ok" no_message) 0
               (snd (main (Flags 60 3) three_videos)) in
  let w := DownloadIO (Gives tt) (Gives false) (Gives tt) (Gives tt)
             (Raises "HTTP Error 404") (Gives tt) in
  let video_data : gmap string json :=
    {[ "_id" := JInt 0; "url" := JStr "a"; "output_path" := JStr "a.mp4" ]} in
  let d := VideoMeta downloading None 0 (Some 0) None None in
  let body := not_downloaded_body (JInt 0) "w1" "HTTP Error 404" in
  exists r d',
    report_of_body body = Some r /\
    snd (next_video srv (POST (Some r)) 9 st1)
      = Returned {[ "status" := JStr "ok" ]} /\
    dict_get 0 (metadata (fst (next_video srv (POST (Some r)) 9 st1)))
      = Some d' /\
    (status d' = finished \/ status d' = skipped) /\
    error d' = None /\ retries d' = retries d /\ end_time d' = Some 9 /\
    ((exists msg, extract w video_data = inl msg) -> status d' = skipped).
Proof.
  intros srv st1 w video_data d body.
  apply (worker_report_settles_video srv st1 w video_data "w1" false 0 d body 9).
  - reflexivity.
  - reflexivity.
  - left. reflexivity.
Defined.

Lemma unhealthy_poll_reply fl inputs st wid wstatus wmsg now :
  reachable fl inputs st -> wstatus <> "ok" ->
  exists st',
    next_video (fst (main fl inputs))
      (GET (GetArgs (Some wid) (Some wstatus) (Some wmsg))) now st
    = (st', Returned {[ "finished" := JBool true ]}) /\
    metadata st' = metadata st.
Proof.
  intros Hr Hne.
  destruct (reachable_consistent _ _ _ Hr) as (_ & _ & Hmd).
  simpl. unfold next_video_get. simpl.
  apply String.eqb_neq in Hne. rewrite Hne. simpl.
  destruct (redirect_held (videos (fst (main fl inputs))) wid wmsg (metadata st))
    as [Hnone _].
  { intros v Hv. by rewrite Hmd. }
  pose proof (redirect_unrecorded (videos (fst (main fl inputs))) wid wmsg
                (metadata st)) as Hsame.
  destruct (redirect_downloads _ _ _ _) as [md e]. simpl in *. subst e.
  eexists. split; [reflexivity|]. simpl. apply Hsame.
  intros k d Hget. by apply (reachable_records _ _ _ Hr k d).
Qed.

(** A worker whose download raises posts nothing for the video, sets its
    status to error and polls again at once; whatever message arrives with
    that poll, the server answers {"finished": true} without changing a
    record, and on that answer the worker leaves its loop.  So an exception
    in one download ends the worker, and the video it held stays
    downloading. *)
Theorem worker_stops_after_a_failure
    fl inputs st w instance_name has_storage v video_data msg :
  reachable fl inputs st ->
  flagged "pending_finish" video_data = false ->
  flagged "finished" video_data = false ->
  snd (_download_video_to_gcp w video_data instance_name has_storage) = Some msg ->
  worker_turn w instance_name has_storage v (PollJson video_data)
    = (WorkerVars "error" msg, [], PollAgain) /\
  forall wmsg now w',
    exists st',
      next_video (fst (main fl inputs))
        (GET (GetArgs (Some instance_name) (Some "error") (Some wmsg))) now st
      = (st', Returned {[ "finished" := JBool true ]}) /\
      metadata st' = metadata st /\
      worker_turn w' instance_name has_storage (WorkerVars "error" msg)
        (PollJson {[ "finished" := JBool true ]})
      = (WorkerVars "error" msg, [], LoopLeft).
Proof.
  intros Hr Hp Hf Hraised. split.
  - unfold worker_turn. rewrite Hp, Hf.
    pose proof (download_raised_nothing_posted _ _ _ _ _ Hraised) as Hnone.
    destruct (_download_video_to_gcp w video_data instance_name has_storage)
      as [posts raised]. simpl in *. by subst.
  - intros wmsg now w'.
    destruct (unhealthy_poll_reply fl inputs st instance_name "error" wmsg now Hr)
      as (st' & Hreply & Hmd); [discriminate|].
    exists st'. split; [exact Hreply|]. split; [exact Hmd|]. reflexivity.
Qed.

Lemma worker_stops_after_a_failure_witness :
  let srv := fst (main (Flags 60 3) three_videos) in
  let st1 := step srv (poll "w1" "ok" no_message) 0
               (snd (main (Flags 60 3) three_videos)) in
  let w := DownloadIO (Gives tt) (Gives false) (Gives tt) (Gives tt)
             (Gives true) (Gives tt) in
  let video_data : gmap string json := {[ "_id" := JInt 0; "url" := JStr "a" ]} in
  let v := WorkerVars "ok" no_message in
  worker_turn w "w1" true v (PollJson video_data)
    = (WorkerVars "error" "'output_path'", [], PollAgain) /\
  forall wmsg now w',
    exists st',
      next_video srv
        (GET (GetArgs (Some "w1") (Some "error") (Some wmsg))) now st1
      = (st', Returned {[ "finished" := JBool true ]}) /\
      metadata st' = metadata st1 /\
      worker_turn w' "w1" true (WorkerVars "error" "'output_path'")
        (PollJson {[ "finished" := JBool true ]})
      = (WorkerVars "error" "'output_path'", [], LoopLeft).
Proof.
  intros srv st1 w video_data v.
  apply (worker_stops_after_a_failure (Flags 60 3) three_videos st1 w "w1" true
           v video_data "'output_path'").
  - apply reachable_step, reachable_main.
  - reflexivity.
  - reflexivity.
  - reflexivity.
Defined.

(** ** Failure reports *)

Lemma job_move_not_failed srv now k d ev d' :
  job_move srv now k d ev d' -> reports_success ev ->
  status d <> failed -> status d' <> failed.
Proof.
  intros Hm Hev Hd. destruct Hm as [| | | |r rstatus wid Hi Hrs Hw]; try done.
  rewrite status_record_report. unfold reported_status.
  destruct (Hev r rstatus eq_refl Hrs) as [-> | ->]; by simpl.
Qed.

(** "failed" comes from failure reports only: in a run in which every report
    carries the status ok or skipped (the only ones worker.py sends), no
    video is ever failed, whatever polls, sweeps and timeouts occur, and the
    failed count of the status reply stays 0. *)
Theorem no_failed_without_failure_reports fl inputs evs :
  Forall (fun p => reports_success (fst p)) evs ->
  let srv := fst (main fl inputs) in
  let st := run srv evs (snd (main fl inputs)) in
  (forall k d, dict_get k (metadata st) = Some d -> status d <> failed) /\
  r_failed (get_status srv st) = 0.
Proof.
  intros Hevs srv st.
  assert (forall k d, dict_get k (metadata st) = Some d -> status d <> failed)
    as Hnone.
  { subst st. induction evs as [|[ev now] evs IH] using rev_ind.
    - intros k d Hget. apply dict_get_fresh in Hget. by subst d.
    - apply Forall_app in Hevs as [Hevs Hev].
      rewrite Forall_singleton in Hev. simpl in Hev.
      specialize (IH Hevs). rewrite run_snoc. intros k d Hget.
      set (st := run srv evs _) in *.
      assert (exists d0, dict_get k (metadata st) = Some d0) as [d0 Hget0].
      { apply dict_get_keys. rewrite <- (keys_step srv ev now).
        by apply dict_get_Some_keys in Hget. }
      destruct (job_step srv ev now st k d0) as (d' & Hget' & Hm);
        [eapply reachable_NoDup, reachable_run | done |].
      assert (d' = d) as -> by congruence.
      exact (job_move_not_failed _ _ _ _ _ _ Hm Hev (IH k d0 Hget0)). }
  split; [exact Hnone|].
  unfold get_status. cbn [r_failed]. apply count_zero.
  apply Forall_values; [eapply reachable_NoDup, reachable_run|].
  intros k d Hget. apply not_true_iff_false. rewrite in_statuses_true.
  intros [H|[]]. by apply (Hnone k d).
Qed.

Lemma no_failed_without_failure_reports_witness :
  let evs := [(poll "w1" "ok" no_message, 0); (post 0 "skipped" "w1", 5);
              (Sweep, 100)] in
  let srv := fst (main (Flags 60 0) three_videos) in
  let st := run srv evs (snd (main (Flags 60 0) three_videos)) in
  (forall k d, dict_get k (metadata st) = Some d -> status d <> failed) /\
  r_failed (get_status srv st) = 0.
Proof.
  intros evs.
  apply (no_failed_without_failure_reports (Flags 60 0) three_videos evs).
  subst evs. repeat (apply Forall_cons; split); [| | |by apply Forall_nil];
    unfold reports_success; simpl;
    intros r rstatus Hev Hrs; try discriminate Hev.
  injection Hev as <-. injection Hrs as <-. by right.
Defined.

(** ** What the audio worker reports *)

Lemma audio_posts_cases w audio_data instance_name has_storage local_output
    no_gcp body :
  In body (fst (_download_audio_to_gcp w audio_data instance_name has_storage
                  local_output no_gcp)) ->
  exists video_id,
    audio_data !! "_id" = Some video_id /\
    ((body = skipped_body video_id instance_name /\
      ((has_storage = true /\ aio_blob_exists w = Gives true) \/
       (local_output && no_gcp = true /\ aio_local_exists w = Gives true))) \/
     (exists msg, audio_extract w = inl msg /\
                  body = audio_not_downloaded_body video_id instance_name msg) \/
     (body = no_audio_file_body video_id instance_name /\
      audio_extract w = inr tt /\ aio_audio_files w = Gives false) \/
     (body = ok_body video_id instance_name /\
      audio_extract w = inr tt /\ aio_audio_files w = Gives true /\
      (has_storage || local_output = true -> aio_store w = Gives tt))).
Proof.
  unfold _download_audio_to_gcp, post_skipped.
  destruct (aio_prepare_dir w); [|intros []].
  destruct (audio_data !! "song_id"); [|intros []].
  destruct (audio_data !! "output_path"); [|intros []].
  destruct has_storage; simpl.
  - destruct (aio_blob_exists w) as [[|]|]; [| |intros []].
    + destruct (audio_data !! "_id") as [video_id|]; [|intros []].
      intros [<-|[]]. exists video_id. split; [done|]. left. split; [done|].
      by left.
    + destruct (if local_output && no_gcp then aio_local_exists w
                else Gives false) as [[|]|] eqn:Hl; [| |intros []].
      * destruct (audio_data !! "_id") as [video_id|]; [|intros []].
        intros [<-|[]]. exists video_id. split; [done|]. left. split; [done|].
        right. destruct (local_output && no_gcp); [by split | discriminate].
      * destruct (audio_data !! "_id") as [video_id|]; [|intros []].
        destruct (if decide (is_Some (audio_data !! "ytdl_opts"))
                  then aio_update_opts w else Gives tt); [|intros []].
        destruct (audio_extract w) as [msg|[]].
        { intros [<-|[]]. exists video_id. split; [done|]. right. left.
          by exists msg. }
        destruct (aio_write_meta w); [|intros []].
        destruct (aio_audio_files w) as [[|]|]; [| |intros []].
        -- destruct (aio_store w) as [[]|]; [|intros []].
           intros [<-|[]]. exists video_id. split; [done|]. do 3 right.
           by repeat split.
        -- intros [<-|[]]. exists video_id. split; [done|]. right. right. left.
           by repeat split.
  - destruct (if local_output && no_gcp then aio_local_exists w
              else Gives false) as [[|]|] eqn:Hl; [| |intros []].
    + destruct (audio_data !! "_id") as [video_id|]; [|intros []].
      intros [<-|[]]. exists video_id. split; [done|]. left. split; [done|].
      right. destruct (local_output && no_gcp); [by split | discriminate].
    + destruct (audio_data !! "_id") as [video_id|]; [|intros []].
      destruct (if decide (is_Some (audio_data !! "ytdl_opts"))
                then aio_update_opts w else Gives tt); [|intros []].
      destruct (audio_extract w) as [msg|[]].
      { intros [<-|[]]. exists video_id. split; [done|]. right. left.
        by exists msg. }
      destruct (aio_write_meta w); [|intros []].
      destruct (aio_audio_files w) as [[|]|]; [| |intros []].
      * destruct local_output; simpl.
        -- destruct (aio_store w) as [[]|]; [|intros []].
           intros [<-|[]]. exists video_id. split; [done|]. do 3 right.
           by repeat split.
        -- intros [<-|[]]. exists video_id. split; [done|]. do 3 right.
           by repeat split.
      * intros [<-|[]]. exists video_id. split; [done|]. right. right. left.
        by repeat split.
Qed.

Lemma audio_posts_at_most_one w audio_data instance_name has_storage
    local_output no_gcp :
  (length (fst (_download_audio_to_gcp w audio_data instance_name has_storage
                  local_output no_gcp)) <= 1)%nat /\
  (is_Some (snd (_download_audio_to_gcp w audio_data instance_name has_storage
                   local_output no_gcp)) ->
   fst (_download_audio_to_gcp w audio_data instance_name has_storage
          local_output no_gcp) = []).
Proof.
  unfold _download_audio_to_gcp, post_skipped.
  repeat (case_match; simpl; try (split; [lia | first [done | by intros [? [=]]]])).
Qed.

Lemma audio_body_fields video_id instance_name msg :
  (audio_not_downloaded_body video_id instance_name msg !! "video_id"
     = Some video_id /\
   audio_not_downloaded_body video_id instance_name msg !! "status"
     = Some (JStr "failed") /\
   audio_not_downloaded_body video_id instance_name msg !! "worker_id"
     = Some (JStr instance_name)) /\
  (no_audio_file_body video_id instance_name !! "video_id" = Some video_id /\
   no_audio_file_body video_id instance_name !! "status"
     = Some (JStr "failed") /\
   no_audio_file_body video_id instance_name !! "worker_id"
     = Some (JStr instance_name)).
Proof.
  unfold audio_not_downloaded_body, no_audio_file_body.
  repeat split;
    repeat first [ apply lookup_insert_eq
                 | rewrite lookup_insert_ne by done
                 | apply lookup_singleton_eq ].
Qed.

(** Whatever the file system, the storage, the download library and the
    network do, one run of _download_audio_to_gcp posts at most one body,
    and none when an exception leaves it.  A body it posts names the item it
    was given, under the worker's own name, and its status tells what
    happened: skipped when the output was already in the bucket or on the
    local disk, failed when the download raised or returned nothing or left
    no audio file, and ok only when the download gave a result, an audio
    file was found and the upload or copy went through. *)
Theorem audio_worker_posts_one_verdict
    w audio_data instance_name has_storage local_output no_gcp :
  let posts := fst (_download_audio_to_gcp w audio_data instance_name
                      has_storage local_output no_gcp) in
  let raised := snd (_download_audio_to_gcp w audio_data instance_name
                       has_storage local_output no_gcp) in
  (length posts <= 1)%nat /\
  (is_Some raised -> posts = []) /\
  (forall body, In body posts ->
     body !! "video_id" = audio_data !! "_id" /\
     body !! "worker_id" = Some (JStr instance_name) /\
     ((body !! "status" = Some (JStr "skipped") /\
       ((has_storage = true /\ aio_blob_exists w = Gives true) \/
        (local_output && no_gcp = true /\ aio_local_exists w = Gives true))) \/
      (body !! "status" = Some (JStr "failed") /\
       ((exists msg, audio_extract w = inl msg) \/
        aio_audio_files w = Gives false)) \/
      (body !! "status" = Some (JStr "ok") /\
       aio_extract_info w = Gives true /\ aio_audio_files w = Gives true /\
       (has_storage || local_output = true -> aio_store w = Gives tt)))).
Proof.
  intros posts raised. subst posts raised.
  destruct (audio_posts_at_most_one w audio_data instance_name has_storage
              local_output no_gcp) as [Hlen Hraised].
  split; [exact Hlen|]. split; [exact Hraised|].
  intros body Hin.
  destruct (audio_posts_cases _ _ _ _ _ _ _ Hin) as (video_id & Hid & Hcase).
  rewrite Hid.
  destruct (body_fields video_id instance_name "m") as ((Hs1 & Hs2 & Hs3) & _ & (Ho1 & Ho2 & Ho3)).
  destruct Hcase as [[-> Hthere]|[(msg & He & ->)|[(-> & He & Hf)|(-> & He & Hf & Hst)]]].
  - split; [exact Hs1|]. split; [exact Hs3|]. left. by split.
  - destruct (audio_body_fields video_id instance_name msg)
      as ((Hn1 & Hn2 & Hn3) & _).
    split; [exact Hn1|]. split; [exact Hn3|]. right. left. split; [exact Hn2|].
    left. by exists msg.
  - destruct (audio_body_fields video_id instance_name "m")
      as (_ & (Hn1 & Hn2 & Hn3)).
    split; [exact Hn1|]. split; [exact Hn3|]. right. left. split; [exact Hn2|].
    by right.
  - split; [exact Ho1|]. split; [exact Ho3|]. right. right.
    split; [exact Ho2|]. split; [|by split].
    unfold audio_extract in He.
    destruct (aio_make_downloader w); [|discriminate].
    by destruct (aio_extract_info w) as [[|]|].
Qed.

Lemma report_of_audio_not_downloaded_body k instance_name msg :
  report_of_body (audio_not_downloaded_body (JInt k) instance_name msg)
  = Some (Report (Some k) (Some "failed") (Some instance_name) None (Some msg)).
Proof. reflexivity. Qed.

Lemma report_of_no_audio_file_body k instance_name :
  report_of_body (no_audio_file_body (JInt k) instance_name)
  = Some (Report (Some k) (Some "failed") (Some instance_name) None None).
Proof. reflexivity. Qed.

Lemma failed_report_recorded max_retries now d :
  error (record_report max_retries "failed" now d) = Some "failed" /\
  end_time (record_report max_retries "failed" now d) = Some now /\
  (retries d < max_retries ->
   status (record_report max_retries "failed" now d) = waiting /\
   retries (record_report max_retries "failed" now d) = retries d + 1) /\
  (max_retries <= retries d ->
   status (record_report max_retries "failed" now d) = failed /\
   retries (record_report max_retries "failed" now d) = retries d).
Proof.
  unfold record_report, download_failed. simpl.
  destruct (retries d <? max_retries) eqn:Hlt; simpl.
  - apply Z.ltb_lt in Hlt. repeat split; try done; lia.
  - apply Z.ltb_ge in Hlt. repeat split; try done; lia.
Qed.

(** Unlike worker.py, the audio worker reports a download that did not work
    as a failure, and the server retries it: when a body with status failed
    that the audio worker posts for item [k] reaches the server, the server
    answers {"status": "ok"} and puts the item back to waiting with one more
    retry while its retries are below FLAGS.retries, and makes it failed
    otherwise.  The error the server records is the word "failed" (the
    status), not the error text of the body.  Any other body the audio
    worker posts settles the item as finished or skipped. *)
Theorem audio_failure_is_retried
    srv st w audio_data instance_name has_storage local_output no_gcp
    k d body now :
  dict_get k (metadata st) = Some d ->
  audio_data !! "_id" = Some (JInt k) ->
  In body (fst (_download_audio_to_gcp w audio_data instance_name has_storage
                  local_output no_gcp)) ->
  exists r d',
    report_of_body body = Some r /\
    snd (next_video srv (POST (Some r)) now st)
      = Returned {[ "status" := JStr "ok" ]} /\
    dict_get k (metadata (fst (next_video srv (POST (Some r)) now st)))
      = Some d' /\
    end_time d' = Some now /\
    (body !! "status" = Some (JStr "failed") ->
     error d' = Some "failed" /\
     (retries d < FLAGS_retries (FLAGS srv) ->
      status d' = waiting /\ retries d' = retries d + 1) /\
     (FLAGS_retries (FLAGS srv) <= retries d ->
      status d' = failed /\ retries d' = retries d)) /\
    (body !! "status" <> Some (JStr "failed") ->
     (status d' = finished \/ status d' = skipped) /\
     error d' = None /\ retries d' = retries d).
Proof.
  intros Hget Hid Hin.
  destruct (audio_posts_cases _ _ _ _ _ _ _ Hin) as (video_id & Hid' & Hcase).
  assert (video_id = JInt k) as -> by congruence.
  destruct (failed_report_recorded (FLAGS_retries (FLAGS srv)) now d)
    as (Herr & Hend & Hretry & Hfail).
  destruct (body_fields (JInt k) instance_name "m")
    as ((_ & Hs2 & _) & _ & (_ & Ho2 & _)).
  destruct Hcase as [[-> _]|[(msg & _ & ->)|[(-> & _)|(-> & _)]]].
  - eexists _, _. split; [apply report_of_skipped_body|].
    destruct (post_known srv st now
                (Report (Some k) (Some "skipped") (Some instance_name) None None)
                k "skipped" instance_name d eq_refl eq_refl eq_refl Hget)
      as [Hout Hd].
    split; [exact Hout|]. split; [exact Hd|]. split; [done|].
    split; [rewrite Hs2; discriminate|]. intros _. simpl. auto.
  - eexists _, _. split; [apply report_of_audio_not_downloaded_body|].
    destruct (post_known srv st now
                (Report (Some k) (Some "failed") (Some instance_name) None
                   (Some msg))
                k "failed" instance_name d eq_refl eq_refl eq_refl Hget)
      as [Hout Hd].
    split; [exact Hout|]. split; [exact Hd|]. split; [exact Hend|].
    split; [by intros _|].
    destruct (audio_body_fields (JInt k) instance_name msg) as ((_ & Hn2 & _) & _).
    intros Hne. by destruct Hne.
  - eexists _, _. split; [apply report_of_no_audio_file_body|].
    destruct (post_known srv st now
                (Report (Some k) (Some "failed") (Some instance_name) None None)
                k "failed" instance_name d eq_refl eq_refl eq_refl Hget)
      as [Hout Hd].
    split; [exact Hout|]. split; [exact Hd|]. split; [exact Hend|].
    split; [by intros _|].
    destruct (audio_body_fields (JInt k) instance_name "m") as (_ & (_ & Hn2 & _)).
    intros Hne. by destruct Hne.
  - eexists _, _. split; [apply report_of_ok_body|].
    destruct (post_known srv st now
                (Report (Some k) (Some "ok") (Some instance_name) None None)
                k "ok" instance_name d eq_refl eq_refl eq_refl Hget)
      as [Hout Hd].
    split; [exact Hout|]. split; [exact Hd|]. split; [done|].
    split; [rewrite Ho2; discriminate|]. intros _. simpl. auto.
Qed.

Lemma audio_failure_is_retried_witness :
  let srv := fst (main (Flags 60 3) three_videos) in
  let st1 := step srv (poll "w1" "ok" no_message) 0
               (snd (main (Flags 60 3) three_videos)) in
  let d := VideoMeta downloading None 0 (Some 0) None None in
  let body := audio_not_downloaded_body (JInt 0) "w1" "HTTP Error 404" in
  exists r d',
    report_of_body body = Some r /\
    snd (next_video srv (POST (Some r)) 9 st1)
      = Returned {[ "status" := JStr "ok" ]} /\
    dict_get 0 (metadata (fst (next_video srv (POST (Some r)) 9 st1)))
      = Some d' /\
    end_time d' = Some 9 /\
    (body !! "status" = Some (JStr "failed") ->
     error d' = Some "failed" /\
     (retries d < FLAGS_retries (FLAGS srv) ->
      status d' = waiting /\ retries d' = retries d + 1) /\
     (FLAGS_retries (FLAGS srv) <= retries d ->
      status d' = failed /\ retries d' = retries d)) /\
    (body !! "status" <> Some (JStr "failed") ->
     (status d' = finished \/ status d' = skipped) /\
     error d' = None /\ retries d' = retries d).
Proof.
  intros srv st1 d body.
  apply (audio_failure_is_retried srv st1
           (AudioIO (Gives tt) (Gives false) (Gives false) (Gives tt) (Gives tt)
              (Raises "HTTP Error 404") (Gives tt) (Gives true) (Gives tt))
           {[ "_id" := JInt 0; "song_id" := JStr "s"; "output_path" := JStr "a" ]}
           "w1" false false true 0 d body 9).
  - reflexivity.
  - reflexivity.
  - left. reflexivity.
Defined.

(** ** Which instances are removed *)

Lemma prefix_app a b : String.prefix a (a ++ b) = true.
Proof.
  induction a as [|c a IH]; [by destruct b|].
  change (String c a ++ b) with (String c (a ++ b)). cbn [String.prefix].
  destruct (Ascii.ascii_dec c c); [exact IH | done].
Qed.

Lemma prefix_app_l a b s :
  String.prefix (a ++ b) s = true -> String.prefix a s = true.
Proof.
  revert s. induction a as [|c a IH]; intros s H; [by destruct s|].
  change (String c a ++ b) with (String c (a ++ b)) in H.
  destruct s as [|c' s]; [done|]. cbn [String.prefix] in *.
  destruct (Ascii.ascii_dec c c'); [by apply IH | done].
Qed.

Lemma contains_prefix needle hay :
  String.prefix needle hay = true -> contains needle hay = true.
Proof. intros H. destruct hay; cbn [contains]; by rewrite H. Qed.

Lemma contains_app a b : contains a (a ++ b) = true.
Proof. apply contains_prefix, prefix_app. Qed.

Lemma contains_app_l a b s : contains (a ++ b) s = true -> contains a s = true.
Proof.
  induction s as [|c s IH]; cbn [contains].
  - rewrite !orb_false_r. apply prefix_app_l.
  - intros [H|H]%orb_true_iff.
    + apply prefix_app_l in H. by rewrite H.
    + rewrite (IH H). apply orb_true_r.
Qed.

Lemma delete_marked_calls api marker zone names c :
  In c (fst (fst (delete_marked api marker zone names))) ->
  exists name, c = DeleteCall zone name /\ In name names /\
               contains marker name = true.
Proof.
  induction names as [|name names IH]; simpl; [intros []|].
  destruct (contains marker name) eqn:Hm.
  - destruct (delete_instance api zone name) as [[]|msg].
    + destruct (delete_marked api marker zone names) as [[calls ops] raised].
      simpl in *. intros [<-|Hin]; [by eauto|].
      destruct (IH Hin) as (n & -> & Hn & Hc). eauto.
    + simpl. intros [<-|[]]. eauto.
  - intros Hin. destruct (IH Hin) as (n & -> & Hn & Hc). eauto.
Qed.

Lemma delete_marked_ops api marker zone names name z :
  In (name, z) (snd (fst (delete_marked api marker zone names))) ->
  z = zone /\ delete_instance api zone name = Gives tt /\
  In (DeleteCall zone name) (fst (fst (delete_marked api marker zone names))).
Proof.
  induction names as [|n names IH]; simpl; [intros []|].
  destruct (contains marker n).
  - destruct (delete_instance api zone n) as [[]|msg] eqn:Hd; [|intros []].
    destruct (delete_marked api marker zone names) as [[calls ops] raised].
    simpl in *. intros [[= <- <-]|Hin]; [by auto|].
    destruct (IH Hin) as (-> & Hdel & Hc). auto.
  - exact IH.
Qed.

Lemma delete_marked_all api marker zone names name :
  snd (delete_marked api marker zone names) = None ->
  In name names -> contains marker name = true ->
  In (name, zone) (snd (fst (delete_marked api marker zone names))).
Proof.
  induction names as [|n names IH]; simpl; [intros _ []|].
  destruct (contains marker n) eqn:Hm.
  - destruct (delete_instance api zone n) as [[]|msg]; [|discriminate].
    destruct (delete_marked api marker zone names) as [[calls ops] raised].
    simpl in *. intros Hr [->|Hin] Hc; [by left|]. right. by apply IH.
  - intros Hr [->|Hin] Hc; [congruence|]. by apply IH.
Qed.

Lemma delete_marked_no_wait api marker zone names :
  forallb (fun c => negb (is_wait c))
    (fst (fst (delete_marked api marker zone names))) = true.
Proof.
  induction names as [|n names IH]; simpl; [done|].
  destruct (contains marker n); [|exact IH].
  destruct (delete_instance api zone n) as [[]|msg]; [|done].
  destruct (delete_marked api marker zone names) as [[calls ops] raised].
  exact IH.
Qed.

Lemma delete_in_zones_calls api marker zones zone name :
  In (DeleteCall zone name) (fst (fst (delete_in_zones api marker zones))) ->
  In zone zones /\ contains marker name = true /\
  exists names, list_instances api zone = Gives (Some names) /\ In name names.
Proof.
  induction zones as [|z zones IH]; simpl; [intros []|].
  destruct (list_instances api z) as [[names|]|msg] eqn:Hl.
  - pose proof (delete_marked_calls api marker z names (DeleteCall zone name))
      as Hm.
    assert (In (DeleteCall zone name)
              (fst (fst (delete_marked api marker z names))) ->
            (z = zone \/ In zone zones) /\ contains marker name = true /\
            exists names, list_instances api zone = Gives (Some names) /\
                          In name names) as Hhere.
    { intros Hin. destruct (Hm Hin) as (n & Heq & Hn & Hc).
      injection Heq as <- <-. split; [by left|]. split; [done|].
      by exists names. }
    destruct (delete_marked api marker z names) as [[calls ops] [msg|]];
      simpl in *.
    + intros [[=]|Hin]. by apply Hhere.
    + destruct (delete_in_zones api marker zones) as [[calls' ops'] raised].
      simpl in *. intros [[=]|[Hin|Hin]%in_app_iff]; [by apply Hhere|].
      destruct (IH Hin) as (Hz & Hc & Hn). auto.
  - destruct (delete_in_zones api marker zones) as [[calls' ops'] raised].
    simpl in *. intros [[=]|Hin]. destruct (IH Hin) as (Hz & Hc & Hn). auto.
  - simpl. intros [[=]|[]].
Qed.

Lemma delete_in_zones_ops api marker zones name zone :
  In (name, zone) (snd (fst (delete_in_zones api marker zones))) ->
  delete_instance api zone name = Gives tt /\
  In (DeleteCall zone name) (fst (fst (delete_in_zones api marker zones))).
Proof.
  induction zones as [|z zones IH]; simpl; [intros []|].
  destruct (list_instances api z) as [[names|]|msg] eqn:Hl.
  - pose proof (delete_marked_ops api marker z names name zone) as Hm.
    destruct (delete_marked api marker z names) as [[calls ops] [msg|]];
      simpl in *.
    + intros Hin. destruct (Hm Hin) as (-> & Hd & Hc). auto.
    + destruct (delete_in_zones api marker zones) as [[calls' ops'] raised].
      simpl in *. intros [Hin|Hin]%in_app_iff.
      * destruct (Hm Hin) as (-> & Hd & Hc). split; [done|]. right.
        apply in_app_iff. by left.
      * destruct (IH Hin) as (Hd & Hc). split; [done|]. right.
        apply in_app_iff. by right.
  - destruct (delete_in_zones api marker zones) as [[calls' ops'] raised].
    simpl in *. intros Hin. destruct (IH Hin) as (Hd & Hc). auto.
  - intros [].
Qed.

Lemma delete_in_zones_all api marker zones zone names name :
  snd (delete_in_zones api marker zones) = None ->
  In zone zones -> list_instances api zone = Gives (Some names) ->
  In name names -> contains marker name = true ->
  In (name, zone) (snd (fst (delete_in_zones api marker zones))).
Proof.
  induction zones as [|z zones IH]; simpl; [intros _ []|].
  destruct (list_instances api z) as [[names0|]|msg] eqn:Hl.
  - pose proof (delete_marked_all api marker z names0 name) as Hm.
    destruct (delete_marked api marker z names0) as [[calls ops] [msg|]];
      simpl in *; [discriminate|].
    destruct (delete_in_zones api marker zones) as [[calls' ops'] raised].
    simpl in *. intros Hr [->|Hz] Hlist Hn Hc; apply in_app_iff.
    + left. apply Hm; [done| |done]. congruence.
    + right. by apply (IH Hr Hz Hlist).
  - destruct (delete_in_zones api marker zones) as [[calls' ops'] raised].
    simpl in *. intros Hr [->|Hz] Hlist Hn Hc; [congruence|].
    by apply (IH Hr Hz Hlist).
  - discriminate.
Qed.

Lemma delete_in_zones_no_wait api marker zones :
  forallb (fun c => negb (is_wait c))
    (fst (fst (delete_in_zones api marker zones))) = true.
Proof.
  induction zones as [|z zones IH]; simpl; [done|].
  destruct (list_instances api z) as [[names|]|msg]; [| |done].
  - pose proof (delete_marked_no_wait api marker z names) as Hm.
    destruct (delete_marked api marker z names) as [[calls ops] [msg|]];
      simpl in *; [done|].
    destruct (delete_in_zones api marker zones) as [[calls' ops'] raised].
    simpl in *. rewrite forallb_app, Hm. exact IH.
  - destruct (delete_in_zones api marker zones) as [[calls' ops'] raised].
    exact IH.
Qed.

Lemma wait_for_deletes_calls api ops c :
  In c (fst (wait_for_deletes api ops)) ->
  exists name zone, c = WaitCall zone name /\ In (name, zone) ops.
Proof.
  induction ops as [|[name zone] ops IH]; simpl; [intros []|].
  destruct (wait_for_operation api zone name).
  - destruct (wait_for_deletes api ops) as [calls e]. simpl in *.
    intros [<-|Hin]; [by eauto|].
    destruct (IH Hin) as (n & z & -> & Hn). eauto.
  - simpl. intros [<-|[]]. eauto.
  - simpl. intros [<-|[]]. eauto.
Qed.

Lemma wait_for_deletes_all api ops name zone :
  snd (wait_for_deletes api ops) = Returns -> In (name, zone) ops ->
  In (WaitCall zone name) (fst (wait_for_deletes api ops)) /\
  wait_for_operation api zone name = Done.
Proof.
  induction ops as [|[n z] ops IH]; simpl; [intros _ []|].
  destruct (wait_for_operation api z n) eqn:Hw; [|discriminate..].
  destruct (wait_for_deletes api ops) as [calls e]. simpl in *.
  intros He [[= -> ->]|Hin]; [by auto|].
  destruct (IH He Hin). auto.
Qed.

Lemma wait_for_deletes_only_waits api ops :
  forallb is_wait (fst (wait_for_deletes api ops)) = true.
Proof.
  induction ops as [|[n z] ops IH]; simpl; [done|].
  destruct (wait_for_operation api z n); [|done..].
  by destruct (wait_for_deletes api ops) as [calls e].
Qed.

(** _cleanup_instances removes the instances of its own run and no others,
    whatever the API answers.  Every delete it issues is for an instance
    that the API listed in one of the given zones and whose name contains
    starship-<run_name>; it issues every delete before it waits for any, and
    it waits only for deletes that went through.  When it returns, every
    listed instance of those zones whose name contains starship-<run_name>
    has been deleted and waited for.  The names the launcher gives the
    server and the workers of a run all contain that marker. *)
Theorem cleanup_removes_the_run_and_nothing_else api zones run_name :
  let calls := fst (_cleanup_instances api zones run_name) in
  (forall zone name, In (DeleteCall zone name) calls ->
     In zone zones /\ contains (run_marker run_name) name = true /\
     exists names,
       list_instances api zone = Gives (Some names) /\ In name names) /\
  (forall zone name, In (WaitCall zone name) calls ->
     In (DeleteCall zone name) calls /\
     delete_instance api zone name = Gives tt) /\
  (exists before after,
     calls = (before ++ after)%list /\
     forallb (fun c => negb (is_wait c)) before = true /\
     forallb is_wait after = true) /\
  (snd (_cleanup_instances api zones run_name) = Returns ->
   forall zone names name,
     In zone zones -> list_instances api zone = Gives (Some names) ->
     In name names -> contains (run_marker run_name) name = true ->
     In (DeleteCall zone name) calls /\ In (WaitCall zone name) calls /\
     wait_for_operation api zone name = Done) /\
  (forall suffix,
     contains (run_marker run_name) (run_marker run_name ++ suffix) = true).
Proof.
  intros calls. subst calls. unfold _cleanup_instances.
  pose proof (fun suffix => contains_app (run_marker run_name) suffix)
    as Hsuffix.
  remember (run_marker run_name) as marker eqn:Hmarker. clear Hmarker.
  pose proof (delete_in_zones_calls api marker zones) as Hcalls.
  pose proof (delete_in_zones_ops api marker zones) as Hops.
  pose proof (delete_in_zones_all api marker zones) as Hall.
  pose proof (delete_in_zones_no_wait api marker zones) as Hnw.
  destruct (delete_in_zones api marker zones)
    as [[calls ops] [msg|]]; simpl in *.
  - split; [exact Hcalls|]. split.
    { intros zone name Hin. exfalso.
      rewrite forallb_forall in Hnw. by apply Hnw in Hin. }
    split.
    { exists calls, []. by rewrite app_nil_r. }
    split; [discriminate | exact Hsuffix].
  - pose proof (wait_for_deletes_calls api ops) as Hwc.
    pose proof (wait_for_deletes_all api ops) as Hwa.
    pose proof (wait_for_deletes_only_waits api ops) as Hww.
    destruct (wait_for_deletes api ops) as [calls' e]. simpl in *.
    assert (forall zone name, In (DeleteCall zone name) (calls ++ calls')%list ->
              In (DeleteCall zone name) calls) as Hdel.
    { intros zone name [Hin|Hin]%in_app_iff; [done|].
      rewrite forallb_forall in Hww. by apply Hww in Hin. }
    split; [intros zone name Hin; by apply Hcalls, Hdel|].
    split.
    { intros zone name [Hin|Hin]%in_app_iff.
      - rewrite forallb_forall in Hnw. by apply Hnw in Hin.
      - destruct (Hwc _ Hin) as (n & z & [= -> ->] & Hop).
        destruct (Hops _ _ Hop) as [Hd Hc].
        split; [apply in_app_iff; by left | done]. }
    split; [by exists calls, calls'|].
    split; [|exact Hsuffix].
    intros -> zone names name Hz Hl Hn Hc.
    pose proof (Hall zone names name eq_refl Hz Hl Hn Hc) as Hop.
    destruct (Hwa name zone eq_refl Hop) as [Hw Hdone].
    destruct (Hops _ _ Hop) as [_ Hd].
    split; [apply in_app_iff; by left|].
    split; [apply in_app_iff; by right | done].
Qed.

Lemma cleanup_removes_the_run_and_nothing_else_witness :
  let api :=
    ComputeAPI
      (fun _ => Gives (Some ["database"; "starship-abc-srv"; "starship-xyz-srv"]))
      (fun _ _ => Gives tt) (fun _ _ => Done) in
  let calls := fst (_cleanup_instances api ["us-east1-b"] "abc") in
  snd (_cleanup_instances api ["us-east1-b"] "abc") = Returns /\
  (In (DeleteCall "us-east1-b" "starship-abc-srv") calls /\
   In (WaitCall "us-east1-b" "starship-abc-srv") calls /\
   wait_for_operation api "us-east1-b" "starship-abc-srv" = Done) /\
  contains (run_marker "xyz") "database" = false.
Proof.
  intros api calls. split; [reflexivity|]. split; [|reflexivity].
  destruct (cleanup_removes_the_run_and_nothing_else api ["us-east1-b"] "abc")
    as (_ & _ & _ & Hall & _).
  apply (Hall eq_refl "us-east1-b"
           ["database"; "starship-abc-srv"; "starship-xyz-srv"]).
  - by left.
  - reflexivity.
  - right. by left.
  - reflexivity.
Defined.

Lemma discover_none_running api zones zone names name :
  _discover_running_instances api zones = NoneRunning ->
  In zone zones -> list_instances api zone = Gives (Some names) ->
  In name names -> contains "starship" name = false.
Proof.
  induction zones as [|z zones IH]; simpl; [intros _ []|].
  destruct (list_instances api z) as [[names0|]|msg] eqn:Hl; [| |discriminate].
  - destruct (existsb (contains "starship") names0) eqn:He; [discriminate|].
    intros Hd [->|Hz] Hlist Hn; [|by apply (IH Hd Hz Hlist)].
    assert (names0 = names) as -> by congruence.
    apply not_true_iff_false. intros Hc.
    assert (existsb (contains "starship") names = true) as Hex.
    { apply existsb_exists. by exists name. }
    congruence.
  - intros Hd [->|Hz] Hlist Hn; [congruence|]. by apply (IH Hd Hz Hlist).
Qed.

(** The launcher never removes an instance it found at start-up: when
    _discover_running_instances lets the launcher go on, an instance that
    _cleanup_instances later deletes in a zone was not in the listing of that
    zone at start-up, whatever happened to the zones in between. *)
Theorem cleanup_spares_what_was_there
    at_start at_end zones run_name zone name names :
  _discover_running_instances at_start zones = NoneRunning ->
  In (DeleteCall zone name) (fst (_cleanup_instances at_end zones run_name)) ->
  list_instances at_start zone = Gives (Some names) ->
  ~ In name names.
Proof.
  intros Hd Hdel Hl Hin. unfold _cleanup_instances in Hdel.
  remember (run_marker run_name) as marker eqn:Hmarker.
  pose proof (delete_in_zones_calls at_end marker zones zone name) as Hcalls.
  assert (In zone zones /\ contains marker name = true) as [Hz Hc].
  { destruct (delete_in_zones at_end marker zones)
      as [[calls ops] [msg|]]; simpl in Hdel, Hcalls.
    - destruct (Hcalls Hdel) as (Hz & Hc & _). auto.
    - pose proof (wait_for_deletes_only_waits at_end ops) as Hww.
      destruct (wait_for_deletes at_end ops) as [calls' e].
      simpl in Hdel, Hww.
      apply in_app_iff in Hdel as [Hdel|Hdel].
      + destruct (Hcalls Hdel) as (Hz & Hc & _). auto.
      + rewrite forallb_forall in Hww. by apply Hww in Hdel. }
  subst marker. unfold run_marker in Hc.
  change ("starship-" ++ run_name) with ("starship" ++ ("-" ++ run_name)) in Hc.
  apply contains_app_l in Hc.
  pose proof (discover_none_running at_start zones zone names name
                Hd Hz Hl Hin) as Hnone.
  congruence.
Qed.

Lemma cleanup_spares_what_was_there_witness :
  let at_start :=
    ComputeAPI (fun _ => Gives (Some ["database"])) (fun _ _ => Gives tt)
      (fun _ _ => Done) in
  let at_end :=
    ComputeAPI (fun _ => Gives (Some ["database"; "starship-abc-srv"]))
      (fun _ _ => Gives tt) (fun _ _ => Done) in
  _cleanup_instances at_end ["us-east1-b"] "abc"
  = ([ListCall "us-east1-b"; DeleteCall "us-east1-b" "starship-abc-srv";
      WaitCall "us-east1-b" "starship-abc-srv"], Returns) /\
  ~ In "starship-abc-srv" ["database"].
Proof.
  intros at_start at_end. split; [reflexivity|].
  apply (cleanup_spares_what_was_there at_start at_end ["us-east1-b"] "abc"
           "us-east1-b" "starship-abc-srv" ["database"]).
  - reflexivity.
  - right. left. reflexivity.
  - reflexivity.
Defined.

(** ** The first server *)

Lemma legacy_keys_step srv req now st :
  keys (lmetadata (fst (legacy_next_video srv req now st)))
  = keys (lmetadata st).
Proof.
  destruct req as [a|data]; simpl.
  - unfold legacy_next_video_get.
    destruct (arg_worker_id a) as [wid|]; [|done].
    destruct (arg_worker_status a) as [wstatus|]; [|done].
    destruct (negb (existsb legacy_is_waiting (values (lmetadata st)))
              || negb (String.eqb wstatus "ok")).
    + destruct (negb (String.eqb wstatus "ok")); [|done].
      by destruct (legacy_redirect_downloads _ _).
    + destruct (legacy_next_waiting (lmetadata st)) as [k|]; [|done].
      destruct (dict_get k (lvideo_data srv)); simpl; apply keys_alter.
  - unfold legacy_next_video_post.
    destruct data as [r|]; [|done].
    destruct (lrep_video_id r); [|done].
    destruct (lrep_status r); [|done].
    destruct (lrep_worker_id r); [|done].
    destruct (dict_get _ (lmetadata st)); [|done].
    apply keys_alter.
Qed.

(** What one request does to the record of video [k]. *)
Lemma legacy_step_record srv req now st k d :
  dict_get k (lmetadata st) = Some d ->
  exists d',
    dict_get k (lmetadata (fst (legacy_next_video srv req now st))) = Some d' /\
    (d' = d \/ d' = legacy_assigned now d \/
     exists rstatus rerror, d' = legacy_record_report rstatus rerror now d).
Proof.
  intros Hget. destruct req as [a|data]; simpl.
  - unfold legacy_next_video_get.
    destruct (arg_worker_id a) as [wid|]; [|eauto].
    destruct (arg_worker_status a) as [wstatus|]; [|eauto].
    destruct (negb (existsb legacy_is_waiting (values (lmetadata st)))
              || negb (String.eqb wstatus "ok")).
    + destruct (negb (String.eqb wstatus "ok")); [|eauto].
      destruct (legacy_redirect_downloads _ _); eauto.
    + destruct (legacy_next_waiting (lmetadata st)) as [k0|]; [|eauto].
      assert (exists d',
                dict_get k (dict_alter (legacy_assigned now) k0 (lmetadata st))
                = Some d' /\ (d' = d \/ d' = legacy_assigned now d)) as Hd.
      { destruct (decide (k0 = k)) as [->|Hne].
        - rewrite dict_get_alter_eq, Hget. simpl. eauto.
        - rewrite dict_get_alter_ne by done. eauto. }
      destruct Hd as (d' & Hd' & Hcase).
      exists d'. split; [by destruct (dict_get k0 (lvideo_data srv))|].
      destruct Hcase; auto.
  - unfold legacy_next_video_post.
    destruct data as [r|]; [|eauto].
    destruct (lrep_video_id r) as [video_id|]; [|eauto].
    destruct (lrep_status r) as [rstatus|]; [|eauto].
    destruct (lrep_worker_id r); [|eauto].
    destruct (dict_get video_id (lmetadata st)); [|eauto].
    simpl. destruct (decide (video_id = k)) as [->|Hne].
    + rewrite dict_get_alter_eq, Hget. simpl.
      eexists. split; [reflexivity|]. right. right.
      by exists rstatus, (lrep_error r).
    + rewrite dict_get_alter_ne by done. eauto.
Qed.

Lemma legacy_reachable_keys inputs st :
  legacy_reachable inputs st ->
  keys (lmetadata st) = lvideos (fst (legacy_main inputs)).
Proof.
  induction 1 as [|req now st Hr IH].
  - simpl. induction (keys (enumerate inputs)) as [|v vs IHv]; simpl;
      [done | by rewrite IHv].
  - by rewrite legacy_keys_step.
Qed.

Lemma legacy_redirect_raises vs md k d :
  In k vs -> dict_get k md = Some d -> lstatus d = downloading ->
  legacy_redirect_downloads vs md = Some KeyError.
Proof.
  intros Hin Hget Hs. induction vs as [|v vs IH]; simpl; [destruct Hin|].
  destruct (dict_get v md) as [d0|] eqn:Hv; [|done].
  destruct (status_eqb (lstatus d0) downloading) eqn:Hd; [done|].
  destruct Hin as [->|Hin]; [|by apply IH].
  assert (d0 = d) as -> by congruence.
  apply status_eqb_neq in Hd. congruence.
Qed.

Lemma legacy_redirect_passes vs md :
  (forall v, In v vs -> In v (keys md)) ->
  (forall k d, dict_get k md = Some d -> lstatus d <> downloading) ->
  legacy_redirect_downloads vs md = None.
Proof.
  intros Hkeys Hnone. induction vs as [|v vs IH]; simpl; [done|].
  destruct (dict_get_keys v md) as [d Hd]; [apply Hkeys; simpl; auto|].
  rewrite Hd. apply Hnone in Hd as Hs. apply status_eqb_neq in Hs.
  rewrite Hs. apply IH. intros v' Hv'. apply Hkeys. simpl. auto.
Qed.

(** When the first server tells a worker to stop.  A poll with a
    worker_status other than ok marks the worker as notified and then raises
    [KeyError] out of the handler if any video is downloading (its record has
    no "worker_id" entry to compare), and is answered {"finished": true} if
    none is; no record changes either way.  A poll with worker_status = ok is
    answered {"finished": true} as soon as no video is waiting, also while
    videos are still downloading. *)
Theorem legacy_poll_that_ends_a_worker inputs st wid wstatus wmsg now :
  legacy_reachable inputs st ->
  let srv := fst (legacy_main inputs) in
  let res :=
    legacy_next_video srv (LGET (GetArgs (Some wid) (Some wstatus) wmsg)) now st in
  (wstatus <> "ok" ->
   (forall k d, dict_get k (lmetadata st) = Some d ->
      lstatus d = downloading -> snd res = Raised KeyError) /\
   ((forall k d, dict_get k (lmetadata st) = Some d ->
       lstatus d <> downloading) ->
    snd res = Returned {[ "finished" := JBool true ]})) /\
  (wstatus = "ok" ->
   existsb legacy_is_waiting (values (lmetadata st)) = false ->
   snd res = Returned {[ "finished" := JBool true ]}) /\
  ((wstatus <> "ok" \/
    existsb legacy_is_waiting (values (lmetadata st)) = false) ->
   lmetadata (fst res) = lmetadata st /\
   lworkers_seen (fst res) !! wid = Some (LegacyWorker now wstatus true)).
Proof.
  intros Hr srv res. subst res.
  pose proof (legacy_reachable_keys _ _ Hr) as Hkeys. fold srv in Hkeys.
  clearbody srv. simpl. unfold legacy_next_video_get. simpl.
  split; [|split].
  - intros Hne. apply String.eqb_neq in Hne. rewrite Hne. simpl.
    rewrite orb_true_r. split.
    + intros k d Hget Hs.
      rewrite (legacy_redirect_raises (lvideos srv) (lmetadata st) k d);
        [done | | done | done].
      rewrite <- Hkeys. by apply dict_get_Some_keys in Hget.
    + intros Hnone. rewrite legacy_redirect_passes; [done | | done].
      intros v Hv. by rewrite Hkeys.
  - intros -> Hw. rewrite Hw. reflexivity.
  - intros Hcase.
    assert (negb (existsb legacy_is_waiting (values (lmetadata st)))
            || negb (String.eqb wstatus "ok") = true) as ->.
    { destruct Hcase as [Hne|Hw].
      - apply String.eqb_neq in Hne. rewrite Hne. apply orb_true_r.
      - by rewrite Hw. }
    destruct (negb (String.eqb wstatus "ok")); simpl.
    + destruct (legacy_redirect_downloads _ _); simpl;
        (split; [done | apply lookup_insert_eq]).
    + split; [done | apply lookup_insert_eq].
Qed.

Lemma legacy_poll_that_ends_a_worker_witness :
  let inputs := [url_payload "a"] in
  let srv := fst (legacy_main inputs) in
  let st1 :=
    fst (legacy_next_video srv
           (LGET (GetArgs (Some "A") (Some "ok") None)) 0
           (snd (legacy_main inputs))) in
  let res :=
    legacy_next_video srv (LGET (GetArgs (Some "A") (Some "error") None)) 1 st1 in
  legacy_reachable inputs st1 /\
  "error" <> "ok" /\
  dict_get 0 (lmetadata st1)
    = Some (LegacyMeta downloading None 0 (Some 0) None) /\
  snd res = Raised KeyError /\
  lmetadata (fst res) = lmetadata st1 /\
  lworkers_seen (fst res) !! "A" = Some (LegacyWorker 1 "error" true).
Proof.
  intros inputs srv st1 res.
  assert (legacy_reachable inputs st1) as Hr.
  { apply (legacy_request_served inputs
             (LGET (GetArgs (Some "A") (Some "ok") None)) 0).
    apply legacy_start. }
  assert ("error" <> "ok") as Hne by discriminate.
  destruct (legacy_poll_that_ends_a_worker inputs st1 "A" "error" None 1 Hr)
    as (Hbad & _ & Hsame).
  destruct (Hbad Hne) as [Hraise _].
  destruct (Hsame (or_introl Hne)) as [Hmd Hws].
  split; [exact Hr|]. split; [exact Hne|]. split; [reflexivity|].
  split; [|split; [exact Hmd | exact Hws]].
  exact (Hraise 0 (LegacyMeta downloading None 0 (Some 0) None)
           eq_refl eq_refl).
Defined.

Lemma legacy_record_retries rstatus rerror now d :
  0 <= lretries d <= 3 -> (lstatus d = failed -> lretries d = 3) ->
  0 <= lretries (legacy_record_report rstatus rerror now d) <= 3 /\
  (lstatus (legacy_record_report rstatus rerror now d) = failed ->
   lretries (legacy_record_report rstatus rerror now d) = 3).
Proof.
  intros Hb Hf. unfold legacy_record_report.
  destruct (String.eqb rstatus "ok" || String.eqb rstatus "skipped"); simpl.
  - split; [lia|]. by destruct (String.eqb rstatus "ok").
  - destruct (lretries d <? 3) eqn:Hlt; simpl.
    + apply Z.ltb_lt in Hlt. split; [lia | done].
    + apply Z.ltb_ge in Hlt. split; [lia | lia].
Qed.

(** In the first server nothing but a failure report counts a retry, and the
    count stops at the constant 3: in every state of a run the retries of a
    video lie between 0 and 3, and a failed video has exactly 3. *)
Theorem legacy_retries_at_most_three inputs st k d :
  legacy_reachable inputs st ->
  dict_get k (lmetadata st) = Some d ->
  0 <= lretries d <= 3 /\ (lstatus d = failed -> lretries d = 3).
Proof.
  intros Hr. revert k d. induction Hr as [|req now st Hr IH]; intros k d Hget.
  - simpl in Hget.
    assert (d = legacy_fresh_meta) as ->.
    { revert Hget. induction (keys (enumerate inputs)) as [|v vs IHv]; simpl;
        [discriminate|].
      destruct (k =? v); [congruence | done]. }
    simpl. split; [lia | discriminate].
  - assert (exists d0, dict_get k (lmetadata st) = Some d0) as [d0 Hget0].
    { apply dict_get_keys.
      rewrite <- (legacy_keys_step (fst (legacy_main inputs)) req now).
      by apply dict_get_Some_keys in Hget. }
    destruct (legacy_step_record (fst (legacy_main inputs)) req now st k d0 Hget0)
      as (d' & Hget' & Hcase).
    assert (d' = d) as -> by congruence.
    destruct (IH k d0 Hget0) as [Hb Hf].
    destruct Hcase as [->|[->|(rstatus & rerror & ->)]].
    + done.
    + simpl. split; [lia | discriminate].
    + by apply legacy_record_retries.
Qed.

Lemma legacy_retries_at_most_three_witness :
  let inputs := [url_payload "a"] in
  let srv := fst (legacy_main inputs) in
  let st1 :=
    fst (legacy_next_video srv
           (LPOST (Some (LegacyReport (Some 0) (Some "error") (Some "A")
                           (Some (Some "Could not download video")) None)))
           4 (snd (legacy_main inputs))) in
  let d := LegacyMeta waiting (Some "Could not download video") 1 None (Some 4) in
  0 <= lretries d <= 3 /\ (lstatus d = failed -> lretries d = 3).
Proof.
  intros inputs srv st1 d.
  apply (legacy_retries_at_most_three inputs st1 0 d).
  - apply (legacy_request_served inputs
             (LPOST (Some (LegacyReport (Some 0) (Some "error") (Some "A")
                             (Some (Some "Could not download video")) None)))
             4).
    apply legacy_start.
  - reflexivity.
Defined.

(** ** The first worker and the first server *)

Lemma legacy_handout inputs a now st video_data :
  snd (legacy_next_video (fst (legacy_main inputs)) (LGET a) now st)
    = Returned video_data ->
  video_data = {[ "finished" := JBool true ]} \/
  exists k payload,
    In payload inputs /\ video_data = output_data k payload.
Proof.
  simpl. unfold legacy_next_video_get.
  destruct (arg_worker_id a) as [wid|]; [|discriminate].
  destruct (arg_worker_status a) as [wstatus|]; [|discriminate].
  destruct (negb (existsb legacy_is_waiting (values (lmetadata st)))
            || negb (String.eqb wstatus "ok")).
  - destruct (negb (String.eqb wstatus "ok")).
    + destruct (legacy_redirect_downloads _ _); simpl; [discriminate|].
      intros [= <-]. by left.
    + simpl. intros [= <-]. by left.
  - destruct (legacy_next_waiting (lmetadata st)) as [k|]; [|discriminate].
    simpl. destruct (dict_get k (enumerate inputs)) as [payload|] eqn:Hp;
      simpl; [|discriminate].
    intros [= <-]. right. exists k, payload. split; [|done].
    unfold enumerate in Hp. rewrite dict_get_enumerate_from in Hp.
    case_decide; [|discriminate].
    apply list_elem_of_lookup_2 in Hp. by apply list_elem_of_In.
Qed.

Lemma legacy_download_cases w video_data instance_name has_storage :
  video_data !! "video_id" = None ->
  let res := legacy_download_video_to_gcp w video_data instance_name
               has_storage in
  (fst res = [] /\ is_Some (snd res)) \/
  (exists video_id,
     video_data !! "_id" = Some video_id /\ snd res = None /\
     ((fst res = [skipped_body video_id instance_name] /\
       has_storage = true /\ io_blob_exists w = Gives true) \/
      (fst res = [ok_body video_id instance_name] /\
       io_extract_info w = Gives true /\ io_process_upload w = Gives tt))).
Proof.
  intros Hno. unfold legacy_download_video_to_gcp.
  destruct (io_prepare_dir w); [|left; simpl; eauto].
  destruct (video_data !! "output_path"); [|left; simpl; eauto].
  destruct has_storage; simpl.
  - destruct (io_blob_exists w) as [[|]|]; [| |left; simpl; eauto].
    + destruct (video_data !! "_id") as [video_id|]; [|left; simpl; eauto].
      right. exists video_id. simpl. auto 7.
    + destruct (video_data !! "_id") as [video_id|]; [|left; simpl; eauto].
      destruct (if decide (is_Some (video_data !! "ytdl_opts"))
                then io_update_opts w else Gives tt); [|left; simpl; eauto].
      destruct (io_make_downloader w); [|left; simpl; eauto].
      destruct (video_data !! "url"); [|left; simpl; eauto].
      destruct (io_extract_info w) as [[|]|]; [| |left; simpl; eauto].
      * destruct (io_process_upload w) as [[]|]; [|left; simpl; eauto].
        right. exists video_id. simpl. auto 7.
      * rewrite Hno. left. simpl. eauto.
  - destruct (video_data !! "_id") as [video_id|]; [|left; simpl; eauto].
    destruct (if decide (is_Some (video_data !! "ytdl_opts"))
              then io_update_opts w else Gives tt); [|left; simpl; eauto].
    destruct (io_make_downloader w); [|left; simpl; eauto].
    destruct (video_data !! "url"); [|left; simpl; eauto].
    destruct (io_extract_info w) as [[|]|]; [| |left; simpl; eauto].
    + destruct (io_process_upload w) as [[]|]; [|left; simpl; eauto].
      right. exists video_id. simpl. auto 7.
    + rewrite Hno. left. simpl. eauto.
Qed.

(** The first worker cannot report a failed download to the first server.
    Unless the input entries carry a "video_id" field of their own, a reply
    of the server has none, and then one run of the worker's
    _download_video_to_gcp either posts a single body with status skipped
    (the output was already in the bucket) or ok (the download gave a result
    and the upload went through), or posts nothing and raises: a download
    that returns nothing raises KeyError on the way to the report. *)
Theorem legacy_worker_never_reports_failure
    inputs a now st video_data w instance_name has_storage :
  Forall (fun payload : gmap string json => payload !! "video_id" = None)
    inputs ->
  snd (legacy_next_video (fst (legacy_main inputs)) (LGET a) now st)
    = Returned video_data ->
  let res := legacy_download_video_to_gcp w video_data instance_name
               has_storage in
  ((fst res = [] /\ is_Some (snd res)) \/
   (exists video_id,
      video_data !! "_id" = Some video_id /\ snd res = None /\
      ((fst res = [skipped_body video_id instance_name] /\
        has_storage = true /\ io_blob_exists w = Gives true) \/
       (fst res = [ok_body video_id instance_name] /\
        io_extract_info w = Gives true /\ io_process_upload w = Gives tt)))) /\
  (io_extract_info w = Gives false -> snd res = None ->
   exists video_id, fst res = [skipped_body video_id instance_name]).
Proof.
  intros Hin Hreply res.
  assert (video_data !! "video_id" = None) as Hno.
  { destruct (legacy_handout _ _ _ _ _ Hreply) as [->|(k & payload & Hp & ->)].
    - by apply lookup_singleton_ne.
    - rewrite output_data_other by done.
      rewrite Forall_forall in Hin. apply Hin. by apply list_elem_of_In. }
  destruct (legacy_download_cases w video_data instance_name has_storage Hno)
    as [(Hnil & Hraised)|(video_id & Hid & Hnone & Hcase)].
  - split; [by left|]. intros _ Hn. subst res. rewrite Hn in Hraised.
    by destruct Hraised.
  - split; [right; by exists video_id|].
    intros Hex _. destruct Hcase as [(Hs & _)|(_ & Ht & _)].
    + by exists video_id.
    + congruence.
Qed.

Lemma legacy_worker_never_reports_failure_witness :
  let inputs : list (gmap string json) :=
    [ {[ "url" := JStr "a"; "output_path" := JStr "a.mp4" ]} ] in
  let video_data : gmap string json :=
    {[ "_id" := JInt 0; "url" := JStr "a"; "output_path" := JStr "a.mp4" ]} in
  let w := DownloadIO (Gives tt) (Gives false) (Gives tt) (Gives tt)
             (Gives false) (Gives tt) in
  legacy_download_video_to_gcp w video_data "w1" true = ([], Some "'video_id'") /\
  (let res := legacy_download_video_to_gcp w video_data "w1" true in
   ((fst res = [] /\ is_Some (snd res)) \/
    (exists video_id,
       video_data !! "_id" = Some video_id /\ snd res = None /\
       ((fst res = [skipped_body video_id "w1"] /\
         true = true /\ io_blob_exists w = Gives true) \/
        (fst res = [ok_body video_id "w1"] /\
         io_extract_info w = Gives true /\ io_process_upload w = Gives tt)))) /\
   (io_extract_info w = Gives false -> snd res = None ->
    exists video_id, fst res = [skipped_body video_id "w1"])).
Proof.
  intros inputs video_data w. split; [reflexivity|].
  apply (legacy_worker_never_reports_failure inputs
           (GetArgs (Some "w1") (Some "ok") None) 0 (snd (legacy_main inputs))
           video_data w "w1" true).
  - repeat constructor.
  - vm_compute. reflexivity.
Defined.
